(** * FSL recognition server: streaming sessions, room coordination,
      classifier adapter and feature extraction.

    A shallow embedding of [socketio_events.py], [simple_fsl_trainer.py],
    [improved_fsl_feature_extractor.py] and the route of [room.py].  Python
    dictionaries that are used as registries (keyed by user id or room code)
    are finite maps; dictionaries whose iteration order is observable are
    insertion-ordered association lists; numbers are exact rationals. *)

From Stdlib Require Import QArith Qcanon.
From stdpp Require Import gmap strings list fin_maps pretty.

Open Scope nat_scope.
Set Warnings "-clear-no-such-hyp".

(* ===================================================================== *)
(** * Part I. Definitions                                                 *)
(* ===================================================================== *)

(* --------------------------------------------------------------------- *)
(** ** 1. Streaming session ([handle_process_fsl_frame])                   *)
(* --------------------------------------------------------------------- *)

Definition user_id := nat.

Section Streaming.

(** One entry of a user's motion buffer (the dictionary built by
    [extract_fsl_landmarks_from_frame]) and the dictionary returned by
    the predictor.  The handler only stores, counts and forwards them; the
    predictor pads the lists inside the frame dictionaries it is given (see
    [padded_frame] below), which changes neither the number nor the order
    of the buffered frames. *)
Context {frame result : Type}.

(** The three dictionaries kept as attributes of the handler function.
    An attribute that was never created behaves as the empty map. *)
Record fsl_store := mk_store {
  user_buffers : gmap user_id (list frame);
  frame_counters : gmap user_id nat;
  no_hands_streak : gmap user_id nat
}.

Definition empty_store : fsl_store := mk_store ∅ ∅ ∅.

(** What the server emits to the requesting client. *)
Inductive emitted :=
| EmitError (message : string)
| EmitModelNotLoaded
| EmitCollecting (buffer_size : nat)
| EmitPrediction (r : result) (buffer_size : nat)
| EmitPredictionError
| EmitNoHands.

(** Observable actions of one handler run: a call of
    [current_app.fsl_predictor.predict] with its argument, or an emit. *)
Inductive action :=
| Invoke (sequence_frames : list frame)
| Emit (e : emitted).

(** The image payload after decoding and landmark detection:
    decoding may raise, detection yields a frame or [None]. *)
Inductive payload :=
| BadImage
| Landmarks (landmarks_data : option frame).

(** [predict] raising inside the inner [try] is [None]. *)
Definition predictor := list frame -> option result.

(** [buf.append(x); if len(buf) > 30: buf.pop(0)] *)
Definition push_frame (buf : list frame) (x : frame) : list frame :=
  let buf1 := buf ++ [x] in
  if 30 <? length buf1 then tail buf1 else buf1.

(** The branch taken when landmarks were detected. *)
Definition on_hands (st : fsl_store) (u : user_id) (predict : predictor)
    (x : frame) : fsl_store * list action :=
  (* initialise buffer and counter for a new user *)
  let '(bufs, cnts) :=
    match user_buffers st !! u with
    | None => (<[u := []]> (user_buffers st), <[u := 0]> (frame_counters st))
    | Some _ => (user_buffers st, frame_counters st)
    end in
  let streak := <[u := 0]> (no_hands_streak st) in
  let buf := push_frame (default [] (bufs !! u)) x in
  let bufs := <[u := buf]> bufs in
  let buffer_size := length buf in
  match cnts !! u with
  | None =>
      (* frame_counters[user_id] += 1 raises KeyError: outer handler *)
      (mk_store bufs cnts streak, [Emit (EmitError "Frame processing failed")])
  | Some c =>
      let frame_count := c + 1 in
      let st' := mk_store bufs (<[u := frame_count]> cnts) streak in
      if buffer_size <? 15 then
        (st', if buffer_size mod 3 =? 0
              then [Emit (EmitCollecting buffer_size)] else [])
      else if negb (frame_count mod 3 =? 0) then (st', [])
      else
        (st', [Invoke buf;
               Emit (match predict buf with
                     | Some r => EmitPrediction r buffer_size
                     | None => EmitPredictionError
                     end)])
  end.

(** The branch taken when no hand was detected. *)
Definition on_no_hands (st : fsl_store) (u : user_id)
    : fsl_store * list action :=
  let s := default 0 (no_hands_streak st !! u) + 1 in
  let st1 := mk_store (user_buffers st) (frame_counters st)
                      (<[u := s]> (no_hands_streak st)) in
  let st2 :=
    if 5 <=? s then
      let '(bufs, cnts) :=
        match user_buffers st1 !! u with
        | Some _ => (<[u := []]> (user_buffers st1),
                     <[u := 0]> (frame_counters st1))
        | None => (user_buffers st1, frame_counters st1)
        end in
      mk_store bufs cnts (<[u := 0]> (no_hands_streak st1))
    else st1 in
  let s' := default 0 (no_hands_streak st2 !! u) in
  (st2, if s' mod 10 =? 1 then [Emit EmitNoHands] else []).

(** [handle_process_fsl_frame]: [uid] is [session.get('user_id')],
    [fsl_predictor] is [None] when the application has no predictor. *)
Definition handle_process_fsl_frame (st : fsl_store) (uid : option user_id)
    (fsl_predictor : option predictor) (data : payload)
    : fsl_store * list action :=
  match uid with
  | None => (st, [Emit (EmitError "Not authenticated")])
  | Some u =>
      match fsl_predictor with
      | None => (st, [Emit EmitModelNotLoaded])
      | Some predict =>
          match data with
          | BadImage => (st, [Emit (EmitError "Frame processing failed")])
          | Landmarks (Some x) => on_hands st u predict x
          | Landmarks None => on_no_hands st u
          end
      end
  end.

(** [handle_leave_fsl_learning]: the buffer and the counter are deleted;
    the handler looks for an attribute [no_hands_counter], which is never
    created, so the streak entry stays. *)
Definition handle_leave_fsl_learning (st : fsl_store) (uid : option user_id)
    : fsl_store :=
  match uid with
  | None => st
  | Some u => mk_store (delete u (user_buffers st))
                       (delete u (frame_counters st))
                       (no_hands_streak st)
  end.

(** The part of [handle_disconnect] that touches the store: only the
    buffer is deleted, the counter and the streak stay. *)
Definition handle_disconnect (st : fsl_store) (uid : option user_id)
    : fsl_store :=
  match uid with
  | None => st
  | Some u => mk_store (delete u (user_buffers st)) (frame_counters st)
                       (no_hands_streak st)
  end.

(** Running the handler over a stream of payloads of one user. *)
Fixpoint run_frames (st : fsl_store) (u : user_id) (predict : predictor)
    (ps : list payload) : fsl_store * list action :=
  match ps with
  | [] => (st, [])
  | p :: ps' =>
      let '(st1, a1) := handle_process_fsl_frame st (Some u) (Some predict) p in
      let '(st2, a2) := run_frames st1 u predict ps' in
      (st2, a1 ++ a2)
  end.

Definition is_no_hands_notice (a : action) : bool :=
  match a with Emit EmitNoHands => true | _ => false end.

Definition is_invoke (a : action) : bool :=
  match a with Invoke _ => true | _ => false end.

(** The number of frames appended since the session of [u] was created or
    last reset: the counter of an existing buffer (a new buffer starts a new
    count, whatever a previous session left in [frame_counters]). *)
Definition appended_frames (st : fsl_store) (u : user_id) : nat :=
  match user_buffers st !! u with
  | None => 0
  | Some _ => default 0 (frame_counters st !! u)
  end.

(** The session of [u] is in step: an existing buffer has a counter and
    holds the last [min counter 30] appended frames. *)
Definition session_ok (st : fsl_store) (u : user_id) : Prop :=
  match user_buffers st !! u, frame_counters st !! u with
  | None, _ => True
  | Some buf, Some c => length buf = c `min` 30
  | Some _, None => False
  end.

(** The stores the server can be in: it starts with no attribute set and
    runs the handlers, for any user and any payload. *)
Inductive reachable : fsl_store -> Prop :=
| reachable_start : reachable empty_store
| reachable_frame st uid fsl_predictor data :
    reachable st ->
    reachable (handle_process_fsl_frame st uid fsl_predictor data).1
| reachable_leave st uid :
    reachable st -> reachable (handle_leave_fsl_learning st uid)
| reachable_disconnect st uid :
    reachable st -> reachable (handle_disconnect st uid).

End Streaming.

Arguments fsl_store : clear implicits.
Arguments emitted : clear implicits.
Arguments action : clear implicits.
Arguments payload : clear implicits.
Arguments predictor : clear implicits.

(* --------------------------------------------------------------------- *)
(** ** 2. Room coordinator ([handle_start_game], [handle_end_game],
       [save_game_results], [save_game_instance_to_db])                    *)
(* --------------------------------------------------------------------- *)

Definition score := Z.

(** A Python dictionary whose iteration order is observed: pairs in
    insertion order; assigning to an existing key keeps its position. *)
Fixpoint dict_set {K V : Type} `{EqDecision K} (k : K) (v : V)
    (d : list (K * V)) : list (K * V) :=
  match d with
  | [] => [(k, v)]
  | (k', v') :: d' =>
      if decide (k' = k) then (k, v) :: d' else (k', v') :: dict_set k v d'
  end.

Fixpoint dict_get {K V : Type} `{EqDecision K} (k : K)
    (d : list (K * V)) : option V :=
  match d with
  | [] => None
  | (k', v') :: d' => if decide (k' = k) then Some v' else dict_get k d'
  end.

(** An entry of [rooms[room]["camera_status"]]. *)
Record camera := mk_camera {
  cam_username : string;
  camera_ready : bool
}.

(** The dictionary [rooms[room]].  Keys that are set at creation are plain
    fields, keys that are added or popped later are options. *)
Record room := mk_room {
  members : Z;
  participants : list string;
  creator : string;
  creator_id : user_id;
  camera_status : option (gmap user_id camera);
  game_type : option string;
  duration : option nat;
  learning_material : option string;
  creator_participated : option bool;
  scores_saved : option bool;
  final_scores : option (list (user_id * score))
}.

Definition set_scores_saved (b : bool) (r : room) : room :=
  mk_room (members r) (participants r) (creator r) (creator_id r)
          (camera_status r) (game_type r) (duration r) (learning_material r)
          (creator_participated r) (Some b) (final_scores r).

Definition set_final_scores (fs : list (user_id * score)) (r : room) : room :=
  mk_room (members r) (participants r) (creator r) (creator_id r)
          (camera_status r) (game_type r) (duration r) (learning_material r)
          (creator_participated r) (scores_saved r) (Some fs).

Definition pop_learning_material (r : room) : room :=
  mk_room (members r) (participants r) (creator r) (creator_id r)
          (camera_status r) (game_type r) (duration r) None
          (creator_participated r) (scores_saved r) (final_scores r).

(** [game_states[room]]: a dictionary with at most the key ["ongoing"]. *)
Record game_state := mk_game_state { ongoing : option bool }.

(** The external store: the [users], [rooms] and [game_sessions] tables.
    It is modelled as always available; the newest row comes first and a
    row's id is its position from the oldest row. *)
Record rooms_row := mk_rooms_row {
  row_id : nat;
  row_room_code : string;
  row_game_type : string;
  row_duration : nat;
  row_total_participants : nat;
  row_creator_id : option user_id;
  row_learning_material : string
}.

Record game_session_row := mk_session_row {
  gs_user_id : user_id;
  gs_room_id : nat;
  gs_score : score
}.

Record database := mk_db {
  users_table : gmap string user_id;
  rooms_table : list rooms_row;
  game_sessions_table : list game_session_row
}.

Record world := mk_world {
  rooms : gmap string room;
  game_states : gmap string game_state;
  db : database
}.

(** What a handler sends or prints. *)
Inductive room_event :=
| StartGameCountdown (room_code : string)
| ErrorToRequester (message : string)
| LogWaitingForScores (room_code : string)
| LogScoresSaved (room_code : string).

(** [sum(1 for status in camera_status.values() if status["camera_ready"])] *)
Definition ready_users (cs : gmap user_id camera) : nat :=
  size (filter (fun kv => camera_ready kv.2 = true) cs).

Definition not_ready_message (ready total : nat) : string :=
  "Not all cameras ready. " +:+ pretty ready +:+ "/" +:+ pretty total
  +:+ " ready.".

(** [.eq('room_code', room).order('created_at', desc=True).limit(1)] *)
Definition latest_room_row (d : database) (code : string) : option rooms_row :=
  List.find (fun row => bool_decide (row_room_code row = code)) (rooms_table d).

Definition save_game_instance_to_db (w : world) (code : string) : world :=
  match rooms w !! code with
  | None => w   (* KeyError inside the try: nothing is saved *)
  | Some r =>
      let creator_username := creator r in
      let creator_data :=
        if bool_decide (creator_username = "Unknown") then None
        else users_table (db w) !! creator_username in
      let row := mk_rooms_row (S (length (rooms_table (db w)))) code
                   (default "Unknown" (game_type r))
                   (default 30 (duration r))
                   (length (participants r))
                   creator_data
                   (default "alphabet" (learning_material r)) in
      mk_world (<[code := pop_learning_material r]> (rooms w))
               (game_states w)
               (mk_db (users_table (db w)) (row :: rooms_table (db w))
                      (game_sessions_table (db w)))
  end.

(** [handle_start_game]; [uid] and [code] are the session's [user_id] and
    [room]. *)
Definition handle_start_game (w : world) (uid : option user_id)
    (code : option string) : world * list room_event :=
  match uid, code with
  | Some _, Some c =>
      match rooms w !! c with
      | None => (w, [])
      | Some r =>
          let gs := <[c := mk_game_state (Some true)]> (game_states w) in
          let w1 := mk_world (rooms w) gs (db w) in
          let cs := default ∅ (camera_status r) in
          let total_users := size cs in
          let ready := ready_users cs in
          if bool_decide (ready = total_users) && (0 <? total_users) then
            let w2 := mk_world (<[c := set_scores_saved false r]> (rooms w1))
                               gs (db w1) in
            (save_game_instance_to_db w2 c, [StartGameCountdown c])
          else
            (w1, [ErrorToRequester (not_ready_message ready total_users)])
      end
  | _, _ => (w, [])
  end.

(** The rows written by the loop of [save_game_results], in the iteration
    order of the score dictionary. *)
Definition score_rows (room_id : nat) (creator : option user_id)
    (creator_participated : bool) (fs : list (user_id * score))
    : list game_session_row :=
  (fun kv => mk_session_row kv.1 room_id kv.2) <$>
  List.filter (fun kv => negb (bool_decide (Some kv.1 = creator)
                               && negb creator_participated)) fs.

Definition save_game_results (w : world) (code : string)
    : world * list room_event :=
  match rooms w !! code with
  | None => (w, [])
  | Some r =>
      match final_scores r with
      | None => (w, [])
      | Some fs =>
          if default false (scores_saved r) then (w, [])
          else
            let expected_participants := length (participants r) in
            let actual_scores := length fs in
            if actual_scores <? expected_participants then
              (w, [LogWaitingForScores code])
            else
              match latest_room_row (db w) code with
              | None => (w, [])
              | Some row =>
                  let rows :=
                    score_rows (row_id row) (row_creator_id row)
                               (default true (creator_participated r)) fs in
                  let r' := set_final_scores [] (set_scores_saved true r) in
                  (mk_world (<[code := r']> (rooms w)) (game_states w)
                     (mk_db (users_table (db w)) (rooms_table (db w))
                            (game_sessions_table (db w) ++ rows)),
                   [LogScoresSaved code])
              end
      end
  end.

(** How a handler run ends: normally, or with an exception that leaves the
    handler (the changes made before it stay). *)
Inductive outcome := Returned | Raised.

(** [handle_end_game]; [final_score] is [data['final_score']] when [data]
    is given and has that key. *)
Definition handle_end_game (w : world) (code : string) (u : user_id)
    (final_score : option score) : world * list room_event * outcome :=
  match game_states w !! code with
  | None => (w, [], Returned)
  | Some _ =>
      let w1 := mk_world (rooms w)
                  (<[code := mk_game_state (Some false)]> (game_states w))
                  (db w) in
      match final_score with
      | Some s =>
          match rooms w1 !! code with
          | None => (w1, [], Raised)   (* rooms[room]: KeyError *)
          | Some r =>
              let fs := default [] (final_scores r) in
              let w2 := mk_world
                          (<[code := set_final_scores (dict_set u s fs) r]>
                             (rooms w1))
                          (game_states w1) (db w1) in
              (save_game_results w2 code, Returned)
          end
      | None => (save_game_results w1 code, Returned)
      end
  end.

(** A sequence of end-game signals for one room. *)
Fixpoint run_end_games (w : world) (code : string)
    (signals : list (user_id * option score)) : world * list room_event :=
  match signals with
  | [] => (w, [])
  | (u, sc) :: rest =>
      let '(w1, ev1, _) := handle_end_game w code u sc in
      let '(w2, ev2) := run_end_games w1 code rest in
      (w2, ev1 ++ ev2)
  end.

Definition is_scores_saved (e : room_event) : bool :=
  match e with LogScoresSaved _ => true | _ => false end.

(** Number of times the scores of a room were written to the store. *)
Definition persist_count (evs : list room_event) : nat :=
  length (List.filter is_scores_saved evs).



(** The part of the world that the end-game handlers of room [code]
    depend on. *)
Definition room_view (w : world) (code : string) (r : room)
    (row : rooms_row) : Prop :=
  rooms w !! code = Some r ∧ is_Some (game_states w !! code) ∧
  latest_room_row (db w) code = Some row.

Definition unsaved (r : room) : Prop := default false (scores_saved r) = false.

(** The room after the score assignment of [handle_end_game]. *)
Definition with_score (r : room) (u : user_id) (sc : option score) : room :=
  match sc with
  | Some s => set_final_scores (dict_set u s (default [] (final_scores r))) r
  | None => r
  end.

(** The room of the scenario: three members, the third camera not ready. *)
Definition room_abcdef (third_ready : bool) : room :=
  mk_room 3 ["u1"; "u2"; "u3"] "u1" 1
    (Some (<[1 := mk_camera "u1" true]>
             (<[2 := mk_camera "u2" true]>
                (<[3 := mk_camera "u3" third_ready]> ∅))))
    (Some "timed") (Some 30) None None None None.

Definition world_abcdef (third_ready : bool) : world :=
  mk_world (<["ABCDEF" := room_abcdef third_ready]> ∅) ∅
           (mk_db (<["u1" := 1]> (<["u2" := 2]> (<["u3" := 3]> ∅))) [] []).

(* --------------------------------------------------------------------- *)
(** ** 3. Feature extractor ([ImprovedFSLFeatureExtractor])                *)
(* --------------------------------------------------------------------- *)

(** Numbers are exact rationals: the float array of the source is read as
    an array of finite values, on which [x - x] is [0].  The functions of
    numpy that leave the rationals are parameters. *)
Class MathLib := {
  sqrt : Qc -> Qc;
  arccos : Qc -> Qc;
  arctan2 : Qc -> Qc -> Qc;
  pi : Qc
}.

(** *** Input frames *)

(** The value stored under ['x'], ['y'] or ['z']: a number, or a value on
    which [float()] raises. *)
Inductive coord_value :=
| Number (q : Qc)
| NotANumber.

(** A landmark dictionary; a missing key is [None]. *)
Record landmark := mk_landmark {
  lm_x : option coord_value;
  lm_y : option coord_value;
  lm_z : option coord_value
}.

Record hand := mk_hand { hand_landmarks : option (list landmark) }.

Record frame := mk_frame { frame_hands : option (list hand) }.

Definition point3 : Type := Qc * Qc * Qc.
Definition point2 : Type := Qc * Qc.

(** The array of shape (frames, hands, landmarks, 3). *)
Abbreviation landmarks_array := (list (list (list point3))).

Definition origin3 : point3 := (0%Qc, 0%Qc, 0%Qc).
Definition origin2 : point2 := (0%Qc, 0%Qc).

Definition zero_landmark : landmark :=
  mk_landmark (Some (Number 0%Qc)) (Some (Number 0%Qc)) (Some (Number 0%Qc)).

(** [{'landmarks': [{'x': 0, 'y': 0, 'z': 0}] * 21}] *)
Definition sentinel_hand : hand := mk_hand (Some (replicate 21 zero_landmark)).

(** [while len(l) < n: l.append(x)] *)
Definition pad_to {A : Type} (n : nat) (x : A) (l : list A) : list A :=
  l ++ replicate (n - length l) x.

(** [float(landmark.get(key, 0))] *)
Definition to_float (v : option coord_value) : option Qc :=
  match v with
  | None => Some 0%Qc
  | Some (Number q) => Some q
  | Some NotANumber => None
  end.

Definition read_landmark (lm : landmark) : option point3 :=
  x ← to_float (lm_x lm); y ← to_float (lm_y lm); z ← to_float (lm_z lm);
  Some (x, y, z).

Definition read_hand (h : hand) : option (list point3) :=
  mapM read_landmark
       (take 21 (pad_to 21 zero_landmark (default [] (hand_landmarks h)))).

Definition read_frame (f : frame) : option (list (list point3)) :=
  mapM read_hand (take 2 (pad_to 2 sentinel_hand (default [] (frame_hands f)))).

(** The frame dictionaries as the loop of [preprocess_sequence] leaves
    them: [hands] and [landmarks] are the lists stored in the frame, so the
    padding is done in place; a list obtained from the default of [get] is
    not stored. *)
Definition padded_hand (h : hand) : hand :=
  mk_hand (pad_to 21 zero_landmark <$> hand_landmarks h).

Definition padded_frame (f : frame) : frame :=
  mk_frame ((fun hs => let hs' := pad_to 2 sentinel_hand hs in
                       (padded_hand <$> take 2 hs') ++ drop 2 hs')
            <$> frame_hands f).

(** *** Array helpers *)

Definition coord (c : nat) (p : point3) : Qc :=
  match c with 0 => p.1.1 | 1 => p.1.2 | _ => p.2 end.

Definition xy (p : point3) : point2 := (p.1.1, p.1.2).

Definition shape1 (a : landmarks_array) : nat := length (nth 0 a []).
Definition shape2 (a : landmarks_array) : nat := length (nth 0 (nth 0 a []) []).

(** [a[:, hand, landmark, coord]] *)
Definition series (a : landmarks_array) (h l c : nat) : list Qc :=
  map (fun fr => coord c (nth l (nth h fr []) origin3)) a.

(** [a[:, hand, :, :2]] *)
Definition hand_xy (a : landmarks_array) (h : nat) : list (list point2) :=
  map (fun fr => map xy (nth h fr [])) a.

(** [a[:, hand, 0, :2]] *)
Definition wrist_xy (a : landmarks_array) (h : nat) : list point2 :=
  map (fun fr => xy (nth 0 (nth h fr []) origin3)) a.

Definition nonzero (x : Qc) : bool := negb (bool_decide (x = 0%Qc)).

Definition qmax (a b : Qc) : Qc := if bool_decide (a < b)%Qc then b else a.
Definition qmin (a b : Qc) : Qc := if bool_decide (b < a)%Qc then b else a.
Definition qabs (a : Qc) : Qc := if bool_decide (a < 0)%Qc then (- a)%Qc else a.
Definition clip (x lo hi : Qc) : Qc := qmin (qmax x lo) hi.
Definition of_nat (n : nat) : Qc := Qc_of_Z (Z.of_nat n).

Definition qsum (l : list Qc) : Qc := foldr Qcplus 0%Qc l.
Definition mean (l : list Qc) : Qc := (qsum l / of_nat (length l))%Qc.
Definition list_max (l : list Qc) : Qc :=
  match l with [] => 0%Qc | x :: l' => foldl qmax x l' end.
Definition list_min (l : list Qc) : Qc :=
  match l with [] => 0%Qc | x :: l' => foldl qmin x l' end.

(** [np.allclose(v, 0)]: every entry within [atol = 1e-8] of 0. *)
Definition atol : Qc := Q2Qc (1 # 100000000).
(** The constant [1e-8] added to denominators. *)
Definition eps : Qc := Q2Qc (1 # 100000000).
Definition close0 (x : Qc) : bool := bool_decide (qabs x ≤ atol)%Qc.
Definition allclose2 (p : point2) : bool := close0 p.1 && close0 p.2.
Definition allclose3 (p : point3) : bool :=
  close0 p.1.1 && close0 p.1.2 && close0 p.2.
Definition allclose_list (v : list Qc) : bool := forallb close0 v.

Definition sub2 (p q : point2) : point2 := ((p.1 - q.1)%Qc, (p.2 - q.2)%Qc).
Definition sub3 (p q : point3) : point3 :=
  ((p.1.1 - q.1.1)%Qc, (p.1.2 - q.1.2)%Qc, (p.2 - q.2)%Qc).
Definition dot (p q : point2) : Qc := (p.1 * q.1 + p.2 * q.2)%Qc.
Definition cross (p q : point2) : Qc := (p.1 * q.2 - p.2 * q.1)%Qc.

(** [zip(l, l[1:])] and [zip(l, l[1:], l[2:])] *)
Fixpoint adjacent {A : Type} (l : list A) : list (A * A) :=
  match l with
  | a :: (b :: _) as t => (a, b) :: adjacent t
  | _ => []
  end.

Fixpoint triples {A : Type} (l : list A) : list (A * A * A) :=
  match l with
  | a :: (b :: c :: _) as t => (a, b, c) :: triples t
  | _ => []
  end.

(** Pad with zeros to [n] entries, then [features[:n]]. *)
Definition fit (n : nat) (features : list Qc) : list Qc :=
  take n (pad_to n 0%Qc features).

(** Every frame has 2 hands of 21 landmarks. *)
Definition well_shaped (a : landmarks_array) : Prop :=
  Forall (fun fr => length fr = 2 ∧ Forall (fun pts => length pts = 21) fr) a.

(** *** Preprocessing *)

(** [np.convolve(sequence, np.ones(3) / 3, mode='same')] for a sequence of
    at least 3 entries: entry [i] is the window applied to entries [i-1],
    [i], [i+1], entries outside the sequence counting as 0. *)
Definition convolve_same (s : list Qc) : list Qc :=
  let w := (1 / of_nat 3)%Qc in
  map (fun i => (match i with 0 => 0 | S j => nth j s 0 end * w
                 + nth i s 0 * w + nth (S i) s 0 * w)%Qc)
      (seq 0 (length s)).

Definition smooth_series (s : list Qc) : list Qc :=
  if existsb nonzero s then convolve_same s else s.

Definition smooth_sequence (a : landmarks_array) : landmarks_array :=
  if length a <? 3 then a
  else
    map (fun i =>
      map (fun h =>
        map (fun l =>
               (nth i (smooth_series (series a h l 0)) 0%Qc,
                nth i (smooth_series (series a h l 1)) 0%Qc,
                nth i (smooth_series (series a h l 2)) 0%Qc))
            (seq 0 (shape2 a)))
          (seq 0 (shape1 a)))
        (seq 0 (length a)).

(** One [frame, hand] slice of [normalize_sequence]. *)
Definition normalize_hand (pts : list point3) : list point3 :=
  let wrist := nth 0 pts origin3 in
  if nonzero wrist.1.1 || nonzero wrist.1.2 || nonzero wrist.2
  then map (fun p => sub3 p wrist) pts
  else pts.

Definition normalize_sequence (a : landmarks_array) : landmarks_array :=
  map (map normalize_hand) a.

(** [preprocess_sequence]: [None] when the loop raises; otherwise the
    frames as the loop leaves them and the preprocessed array.  The array
    is given by the exact values of its entries: this is the float32 array
    of the source, up to rounding, as long as no entry leaves the float32
    range.  Section 12 models the float32 array with its infinities and
    NaN, and [preprocess_sequence_float32_finite] shows that the two agree
    on the windows within [coordinate_bound]. *)
Definition preprocess_sequence (frames : list frame)
    : option (list frame * landmarks_array) :=
  match mapM read_frame frames with
  | None => None
  | Some a =>
      Some (map padded_frame frames, normalize_sequence (smooth_sequence a))
  end.

Section Extractor.

Context {M : MathLib}.

Definition norm2 (p : point2) : Qc := sqrt (p.1 * p.1 + p.2 * p.2)%Qc.

(** [scipy.spatial.distance.euclidean] *)
Definition euclidean (p q : point2) : Qc := norm2 (sub2 p q).

(** [np.std]: the population standard deviation, in exact arithmetic.  On
    a float32 array numpy forms the mean and the squares in float32, which
    overflow for entries of magnitude near [1e19] and above; the entries of
    a window within [coordinate_bound] are far below that. *)
Definition std (l : list Qc) : Qc :=
  let m := mean l in
  sqrt (mean (map (fun x => ((x - m) * (x - m))%Qc) l)).

Definition mean_or_0 (l : list Qc) : Qc :=
  match l with [] => 0%Qc | _ => mean l end.

Definition any_nonzero (hl : list (list point2)) : bool :=
  existsb (existsb (fun p : point2 => nonzero p.1 || nonzero p.2)) hl.

(** The distances between landmarks [i] and [j] over the frames where
    neither is close to the origin. *)
Definition pair_distances (hl : list (list point2)) (i j : nat) : list Qc :=
  map (fun pts => euclidean (nth i pts origin2) (nth j pts origin2))
      (List.filter (fun pts => negb (allclose2 (nth i pts origin2)
                                     || allclose2 (nth j pts origin2))) hl).

(** *** Spatial features *)

(** The mean distance between neighbouring finger tips in one frame, when
    some pair of neighbours is away from the origin. *)
Definition frame_spread (pts : list point2) : option Qc :=
  let finger_tips := [4; 8; 12; 16] in
  let frame_spreads :=
    map (fun i => euclidean (nth i pts origin2) (nth (i + 4) pts origin2))
        (List.filter (fun i => negb (allclose2 (nth i pts origin2)
                                     || allclose2 (nth (i + 4) pts origin2)))
                     finger_tips) in
  match frame_spreads with
  | [] => None
  | _ => Some (mean frame_spreads)
  end.

Definition spatial_hand (a : landmarks_array) (hand_idx : nat) : list Qc :=
  if shape1 a <=? hand_idx then replicate 15 0%Qc
  else
    let hl := hand_xy a hand_idx in
    if negb (any_nonzero hl) then replicate 15 0%Qc
    else
      let hand_spans := pair_distances hl 4 20 in
      let spreads : list Qc := omap (M := list) frame_spread hl in
      let orientations :=
        map (fun pts =>
               let vec := sub2 (nth 9 pts origin2) (nth 0 pts origin2) in
               arctan2 vec.2 vec.1)
            (List.filter (fun pts => negb (allclose2 (nth 0 pts origin2)
                                           || allclose2 (nth 9 pts origin2)))
                         hl) in
      let palm_center :=
        map (map (fun p : point2 => ((p.1 + p.2) / of_nat 2)%Qc)) hl in
      let palm_positions :=
        List.filter (fun row => negb (allclose_list row)) palm_center in
      let col (k : nat) : list Qc :=
        map (fun row => nth k row 0%Qc) palm_positions in
      let finger_indices := [(1, 4); (5, 8); (9, 12); (13, 16); (17, 20)] in
      [mean_or_0 hand_spans; mean_or_0 spreads;
       mean_or_0 orientations;
       match orientations with [] => 0%Qc | _ => std orientations end]
      ++ match palm_positions with
         | [] => replicate 6 0%Qc
         | _ => [mean (col 0); mean (col 1); std (col 0); std (col 1);
                 (list_max (col 0%nat) - list_min (col 0%nat))%Qc;
                 (list_max (col 1%nat) - list_min (col 1%nat))%Qc]
         end
      ++ map (fun f : nat * nat => mean_or_0 (pair_distances hl f.1 f.2))
             finger_indices.

Definition extract_spatial_features (a : landmarks_array) : list Qc :=
  fit 30 (spatial_hand a 0 ++ spatial_hand a 1).

(** *** Temporal features *)

(** The wrist displacement of every step whose two end points are not
    close to the origin. *)
Definition wrist_velocities (a : landmarks_array) (hand_idx : nat) : list Qc :=
  map (fun pq : point2 * point2 => euclidean pq.2 pq.1)
      (List.filter (fun pq : point2 * point2 =>
                      negb (allclose2 pq.2 || allclose2 pq.1))
                   (adjacent (wrist_xy a hand_idx))).

Definition temporal_hand (a : landmarks_array) (hand_idx : nat) : list Qc :=
  if (shape1 a <=? hand_idx) || (length a <? 2) then replicate 6 0%Qc
  else
    let velocities := wrist_velocities a hand_idx in
    let accelerations :=
      if 1 <? length velocities
      then map (fun vw : Qc * Qc => qabs (vw.2 - vw.1)%Qc)
               (adjacent velocities)
      else [] in
    let velocity_changes :=
      if 1 <? length velocities
      then length (List.filter
                     (fun vw : Qc * Qc =>
                        bool_decide (std velocities * (1 / of_nat 2)
                                     < qabs (vw.2 - vw.1))%Qc)
                     (adjacent velocities))
      else 0 in
    match velocities with
    | [] => [0%Qc; 0%Qc]
    | _ => [mean velocities; std velocities]
    end
    ++ match accelerations with
       | [] => [0%Qc; 0%Qc]
       | _ => [mean accelerations; list_max accelerations]
       end
    ++ [of_nat velocity_changes;
        if 2 <? length velocities
        then qmax 0 (1 - std velocities / (mean velocities + eps))%Qc
        else 0%Qc].

Definition extract_enhanced_temporal_features (a : landmarks_array)
    : list Qc :=
  fit 12 (temporal_hand a 0 ++ temporal_hand a 1).

(** *** Geometric features *)

Definition geometric_hand (a : landmarks_array) (hand_idx : nat) : list Qc :=
  if shape1 a <=? hand_idx then [0%Qc; 0%Qc]
  else
    let hl := hand_xy a hand_idx in
    if negb (any_nonzero hl) then [0%Qc; 0%Qc]
    else [mean_or_0 (pair_distances hl 4 8); mean_or_0 (pair_distances hl 0 12)].

Definition extract_geometric_features (a : landmarks_array) : list Qc :=
  fit 4 (geometric_hand a 0 ++ geometric_hand a 1).

(** *** Statistical features *)

Definition statistical_hand (a : landmarks_array) (hand_idx : nat)
    : list Qc :=
  if shape1 a <=? hand_idx then replicate 4 0%Qc
  else
    let pts := concat (hand_xy a hand_idx) in
    if negb (existsb (fun p : point2 => nonzero p.1 || nonzero p.2) pts)
    then replicate 4 0%Qc
    else
      let valid :=
        List.filter (fun p : point2 => nonzero p.1 || nonzero p.2) pts in
      match valid with
      | [] => replicate 4 0%Qc
      | _ => [mean (map fst valid); mean (map snd valid);
              std (map fst valid); std (map snd valid)]
      end.

Definition extract_statistical_features (a : landmarks_array) : list Qc :=
  fit 8 (statistical_hand a 0 ++ statistical_hand a 1).

(** *** Trajectory features *)

(** The angle between two steps, when both have positive length. *)
Definition turn_angle (v1 v2 : point2) : option Qc :=
  let norm1 := norm2 v1 in
  let norm2' := norm2 v2 in
  if bool_decide (0 < norm1)%Qc && bool_decide (0 < norm2')%Qc
  then Some (arccos (clip (dot v1 v2 / (norm1 * norm2'))%Qc (-1)%Qc 1%Qc))
  else None.

Definition centroid (positions : list point2) : point2 :=
  (mean (map fst positions), mean (map snd positions)).

Definition calculate_circularity (positions : list point2) : Qc :=
  if length positions <? 5 then 0%Qc
  else
    let center := centroid positions in
    let radii := map (fun pos => norm2 (sub2 pos center)) positions in
    if bool_decide (mean radii = 0%Qc) then 0%Qc
    else qmax 0 (qmin 1 (1 - std radii / mean radii)%Qc).

(** The turn angles at [positions[i-1]] for [i = 2 ...]. *)
Definition turn_angles (positions : list point2) : list Qc :=
  omap (M := list)
       (fun t : point2 * point2 * point2 =>
          turn_angle (sub2 t.1.2 t.1.1) (sub2 t.2 t.1.2))
       (triples positions).

Definition calculate_angularity (positions : list point2) : Qc :=
  if length positions <? 4 then 0%Qc
  else
    let sharp_angles :=
      length (List.filter (fun angle => bool_decide (angle < 2 * pi / of_nat 3)%Qc)
                          (turn_angles positions)) in
    (of_nat sharp_angles / of_nat (1 `max` (length positions - 2)))%Qc.

Definition count_corners (positions : list point2) : Qc :=
  if length positions <? 6 then 0%Qc
  else
    let windows := zip (zip positions (drop 2 positions)) (drop 4 positions) in
    let angles :=
      omap (M := list)
           (fun t : point2 * point2 * point2 =>
              turn_angle (sub2 t.1.2 t.1.1) (sub2 t.2 t.1.2)) windows in
    let corners :=
      length (List.filter (fun angle => bool_decide (pi / of_nat 3 < angle)%Qc)
                          angles) in
    of_nat (corners `min` 8).

Definition step_lengths (positions : list point2) : list Qc :=
  map (fun pq : point2 * point2 => norm2 (sub2 pq.2 pq.1)) (adjacent positions).

Definition calculate_path_regularity (positions : list point2) : Qc :=
  if length positions <? 3 then 0%Qc
  else
    let distances := step_lengths positions in
    if (length distances =? 0) || bool_decide (mean distances = 0%Qc) then 0%Qc
    else qmax 0 (qmin 1 (1 - std distances / mean distances)%Qc).

Definition count_direction_changes (positions : list point2) : Qc :=
  if length positions <? 3 then 0%Qc
  else
    let direction_changes :=
      length (List.filter (fun angle => bool_decide (pi / of_nat 6 < angle)%Qc)
                          (turn_angles positions)) in
    (of_nat (direction_changes `min` 20) / of_nat 20)%Qc.

Definition calculate_straightness (positions : list point2) : Qc :=
  if length positions <? 2 then 0%Qc
  else
    let total_path_length := qsum (step_lengths positions) in
    let direct_distance :=
      norm2 (sub2 (List.last positions origin2) (nth 0 positions origin2)) in
    if bool_decide (total_path_length = 0%Qc) then 0%Qc
    else qmin 1 (direct_distance / total_path_length)%Qc.

Definition calculate_curvature_variance (positions : list point2) : Qc :=
  if length positions <? 4 then 0%Qc
  else
    let curvatures :=
      omap (M := list)
           (fun t : point2 * point2 * point2 =>
              let v1 := sub2 t.1.2 t.1.1 in
              let v2 := sub2 t.2 t.1.2 in
              let v1_norm := norm2 v1 in
              if bool_decide (0 < v1_norm)%Qc
              then Some (qabs (cross v1 v2)
                         / (v1_norm * v1_norm * v1_norm))%Qc
              else None)
           (triples positions) in
    match curvatures with [] => 0%Qc | _ => std curvatures end.

(** [np.corrcoef(x, y)[0, 1]] *)
Definition covariance (x y : list Qc) : Qc :=
  let mx := mean x in
  let my := mean y in
  (qsum (map (fun ab : Qc * Qc => (ab.1 - mx) * (ab.2 - my)) (zip x y))
   / of_nat (length x - 1))%Qc.

Definition corrcoef (x y : list Qc) : Qc :=
  clip (covariance x y / sqrt (covariance x x) / sqrt (covariance y y))%Qc
       (-1)%Qc 1%Qc.

Definition calculate_symmetry_score (positions : list point2) : Qc :=
  if length positions <? 4 then 0%Qc
  else
    let center := centroid positions in
    let distances := map (fun pos => norm2 (sub2 pos center)) positions in
    if length distances <? 4 then 0%Qc
    else
      let mid := length distances / 2 in
      let first_half := take mid distances in
      let second_half := rev (drop (length distances - mid) distances) in
      if negb (length first_half =? length second_half)
         || (length first_half =? 0) then 0%Qc
      else if bool_decide (0 < std first_half)%Qc
              && bool_decide (0 < std second_half)%Qc
      then qmax 0 (corrcoef first_half second_half)
      else 0%Qc.

Definition trajectory_hand (a : landmarks_array) (hand_idx : nat) : list Qc :=
  if shape1 a <=? hand_idx then replicate 8 0%Qc
  else
    let valid_positions :=
      List.filter (fun pos => negb (allclose2 pos)) (wrist_xy a hand_idx) in
    if length valid_positions <? 5 then replicate 8 0%Qc
    else
      [calculate_circularity valid_positions;
       calculate_angularity valid_positions;
       count_corners valid_positions;
       calculate_path_regularity valid_positions;
       count_direction_changes valid_positions;
       calculate_straightness valid_positions;
       calculate_curvature_variance valid_positions;
       calculate_symmetry_score valid_positions].

Definition extract_trajectory_features (a : landmarks_array) : list Qc :=
  fit 16 (trajectory_hand a 0 ++ trajectory_hand a 1).

(** *** Global features *)

Definition calculate_hand_motion (a : landmarks_array) (hand_idx : nat) : Qc :=
  if (shape1 a <=? hand_idx) || (length a <? 2) then 0%Qc
  else
    qsum (map (fun pq : point2 * point2 => norm2 (sub2 pq.2 pq.1))
              (List.filter (fun pq : point2 * point2 =>
                              negb (allclose2 pq.2 || allclose2 pq.1))
                           (adjacent (wrist_xy a hand_idx)))).

Definition calculate_hand_synchronization (a : landmarks_array) : Qc :=
  if (shape1 a <? 2) || (length a <? 3) then 0%Qc
  else
    let left_velocities :=
      map (fun pq : point2 * point2 => norm2 (sub2 pq.2 pq.1))
          (List.filter (fun pq : point2 * point2 =>
                          negb (allclose2 pq.2 || allclose2 pq.1))
                       (adjacent (wrist_xy a 0))) in
    let right_velocities :=
      map (fun pq : point2 * point2 => norm2 (sub2 pq.2 pq.1))
          (List.filter (fun pq : point2 * point2 =>
                          negb (allclose2 pq.2 || allclose2 pq.1))
                       (adjacent (wrist_xy a 1))) in
    let min_len := length left_velocities `min` length right_velocities in
    if 2 <? min_len then
      let left_vel := take min_len left_velocities in
      let right_vel := take min_len right_velocities in
      if bool_decide (0 < std left_vel)%Qc && bool_decide (0 < std right_vel)%Qc
      then qmax 0 (corrcoef left_vel right_vel)
      else 0%Qc
    else 0%Qc.

Definition calculate_gesture_complexity (a : landmarks_array) : Qc :=
  let total_possible := length a * shape1 a * shape2 a in
  let active_landmarks :=
    length (List.filter (fun p => negb (allclose3 p)) (concat (concat a))) in
  let factor1 :=
    if 0 <? total_possible
    then [(of_nat active_landmarks / of_nat total_possible)%Qc] else [] in
  let motion_variances :=
    map (calculate_hand_motion a) (seq 0 (shape1 a)) in
  let factor2 :=
    match motion_variances with
    | [] => []
    | _ => [qmin 1 (if 1 <? length motion_variances
                    then std motion_variances else 0%Qc)]
    end in
  let temporal_changes :=
    qsum (map (fun hl : nat * nat =>
                 let positions :=
                   map (fun fr => xy (nth hl.2 (nth hl.1 fr []) origin3)) a in
                 let valid_positions :=
                   List.filter (fun p : point2 => nonzero p.1 || nonzero p.2)
                               positions in
                 if 1 <? length valid_positions
                 then ((std (map fst valid_positions)
                        + std (map snd valid_positions)) / of_nat 2)%Qc
                 else 0%Qc)
              (h ← seq 0 (shape1 a); l ← seq 0 (shape2 a); [(h, l)])) in
  let factor3 := [qmin 1 (temporal_changes / of_nat 10)%Qc] in
  mean_or_0 (factor1 ++ factor2 ++ factor3).

(** [frames] are the frame dictionaries after [preprocess_sequence] has
    run on them. *)
Definition extract_global_features (a : landmarks_array) (frames : list frame)
    : list Qc :=
  let avg_hands :=
    mean (map (fun f => of_nat (length (default [] (frame_hands f)))) frames) in
  let separation_change :=
    if 2 <=? shape1 a then
      let separations :=
        map (fun lr : point2 * point2 => norm2 (sub2 lr.1 lr.2))
            (List.filter (fun lr : point2 * point2 =>
                            negb (allclose2 lr.1 || allclose2 lr.2))
                         (zip (wrist_xy a 0) (wrist_xy a 1))) in
      if 1 <? length separations
      then qabs (List.last separations 0 - nth 0 separations 0)%Qc
      else 0%Qc
    else 0%Qc in
  let left_motion := calculate_hand_motion a 0 in
  let right_motion := calculate_hand_motion a 1 in
  let total_motion := (left_motion + right_motion)%Qc in
  let relative_motion :=
    if bool_decide (0 < total_motion)%Qc
    then (qabs (left_motion - right_motion) / total_motion)%Qc else 0%Qc in
  let dominant_activity :=
    if bool_decide (0 < total_motion)%Qc
    then (qmax left_motion right_motion / total_motion)%Qc else 0%Qc in
  fit 6 [avg_hands; separation_change; relative_motion; dominant_activity;
         calculate_hand_synchronization a; calculate_gesture_complexity a].

(** *** The feature vector *)

(** [extract_sequence_features] with the configuration of [__init__]
    (every family enabled). *)
Definition extract_sequence_features (frames : list frame)
    : option (list Qc) :=
  if length frames <? 5 then None
  else
    match preprocess_sequence frames with
    | None => None
    | Some (frames', landmarks_sequence) =>
        Some (extract_spatial_features landmarks_sequence
              ++ extract_enhanced_temporal_features landmarks_sequence
              ++ extract_geometric_features landmarks_sequence
              ++ extract_statistical_features landmarks_sequence
              ++ extract_trajectory_features landmarks_sequence
              ++ extract_global_features landmarks_sequence frames')
    end.

End Extractor.

(** [_initialize_feature_names] *)
Definition hand_prefixes : list string := ["hand0_"; "hand1_"].

Definition per_hand_names (suffixes : list string) : list string :=
  hand_prefix ← hand_prefixes; map (String.append hand_prefix) suffixes.

Definition feature_names : list string :=
  per_hand_names
    ["avg_span"; "avg_finger_spread"; "avg_orientation"; "std_orientation";
     "palm_center_x"; "palm_center_y"; "palm_std_x"; "palm_std_y";
     "palm_range_x"; "palm_range_y"; "thumb_bend"; "index_bend";
     "middle_bend"; "ring_bend"; "pinky_bend"]
  ++ per_hand_names
       ["avg_velocity"; "std_velocity"; "avg_acceleration";
        "max_acceleration"; "velocity_changes"; "smooth_ratio"]
  ++ per_hand_names ["thumb_index_dist"; "wrist_middle_dist"]
  ++ per_hand_names ["mean_x"; "mean_y"; "std_x"; "std_y"]
  ++ per_hand_names
       ["circularity"; "angularity"; "corner_count"; "path_regularity";
        "direction_changes"; "straightness"; "curvature_variance";
        "symmetry_score"]
  ++ ["avg_hands_detected"; "hand_separation_change"; "relative_motion";
      "dominant_hand_activity"; "synchronization_score";
      "overall_complexity"].

(* --------------------------------------------------------------------- *)
(** ** 4. Classifier adapter ([SimpleFSLPredictor.predict])                *)
(* --------------------------------------------------------------------- *)

(** The objects loaded by [load_model].  [scaler_n_features] is the number
    of features the scaler was fitted on: scikit-learn's
    [StandardScaler.transform] raises [ValueError] on an input with another
    number of features.  The forest is known by its [predict_proba]. *)
Record artifact := mk_artifact {
  scaler_n_features : nat;
  scaler_mean : list Qc;
  scaler_scale : list Qc;
  predict_proba : list Qc -> list Qc;
  encoder_classes : list string;
  class_names : list string
}.

(** The dictionary returned by [predict], by its ['prediction'] entry:
    ['insufficient_data'], ['model_not_loaded'],
    ['feature_extraction_failed'], ['prediction_error'], or a sign with its
    confidence and the class probabilities (in percent). *)
Inductive prediction :=
| InsufficientData
| ModelNotLoaded
| FeatureExtractionFailed
| PredictionError
| Predicted (sign : string) (confidence : Qc)
            (all_probabilities : list (string * Qc)).

(** [self.scaler.transform(features.reshape(1, -1))]; [None] is the
    [ValueError] raised for a wrong number of features.  The features are
    exact values, hence finite: the [ValueError] that scikit-learn raises
    on an infinite or NaN entry has no counterpart here, and the model
    describes the source on the inputs whose features stay within the
    float range. *)
Definition scaler_transform (art : artifact) (features : list Qc)
    : option (list Qc) :=
  if length features =? scaler_n_features art then
    Some (map (fun xms : Qc * Qc * Qc => ((xms.1.1 - xms.1.2) / xms.2)%Qc)
              (zip (zip features (scaler_mean art)) (scaler_scale art)))
  else None.

(** [np.argmax]: the first index of the largest entry; [None] on an empty
    list, where numpy raises. *)
Fixpoint argmax_from (best_idx : nat) (best : Qc) (idx : nat) (l : list Qc)
    : nat :=
  match l with
  | [] => best_idx
  | x :: l' =>
      if bool_decide (best < x)%Qc
      then argmax_from idx x (S idx) l'
      else argmax_from best_idx best (S idx) l'
  end.

Definition argmax (l : list Qc) : option nat :=
  match l with
  | [] => None
  | x :: l' => Some (argmax_from 0 x 1 l')
  end.

(** [{self.class_names[i]: float(prob * 100) for i, prob in
    enumerate(prediction_probs)}]; [None] is the [IndexError]. *)
Definition all_probabilities_of (names : list string) (probs : list Qc)
    : option (list (string * Qc)) :=
  if length names <? length probs then None
  else Some (fold_left (fun d np => dict_set np.1 (np.2 * of_nat 100)%Qc d)
                       (zip names probs) []).

(** The body of the [try] block of [predict] once the features are there:
    any exception ends in the one [except] branch. *)
Definition predict_from_features (art : artifact) (features : list Qc)
    : prediction :=
  match scaler_transform art features with
  | None => PredictionError
  | Some features_scaled =>
      let prediction_probs := predict_proba art features_scaled in
      match argmax prediction_probs with
      | None => PredictionError
      | Some predicted_class_idx =>
          let confidence := nth predicted_class_idx prediction_probs 0%Qc in
          match encoder_classes art !! predicted_class_idx with
          | None => PredictionError
          | Some predicted_sign =>
              match all_probabilities_of (class_names art) prediction_probs
              with
              | None => PredictionError
              | Some all_probabilities =>
                  Predicted predicted_sign (confidence * of_nat 100)%Qc
                            all_probabilities
              end
          end
      end
  end.

Definition predict {M : MathLib} (model : option artifact)
    (sequence_frames : list frame) : prediction :=
  if length sequence_frames <? 5 then InsufficientData
  else
    match model with
    | None => ModelNotLoaded
    | Some art =>
        match extract_sequence_features sequence_frames with
        | None => FeatureExtractionFailed
        | Some features => predict_from_features art features
        end
    end.

(** The claim that a length mismatch has a result of its own: its answer
    differs from every answer given to a vector of the fitted length. *)
Definition mismatch_has_own_result : Prop :=
  ∀ art features art' features',
    length features ≠ scaler_n_features art ->
    length features' = scaler_n_features art' ->
    predict_from_features art features ≠ predict_from_features art' features'.

(** Example artifacts over two signs: one fitted on the 46 features of the
    earlier extractor, one fitted on 76 features whose label encoder knows
    no class. *)
Definition two_sign_forest (x : list Qc) : list Qc :=
  [Q2Qc (1 # 4); Q2Qc (3 # 4)].

Definition artifact_46 : artifact :=
  mk_artifact 46 (replicate 46 0%Qc) (replicate 46 1%Qc) two_sign_forest
              ["Blue"; "Red"] ["Blue"; "Red"].

Definition artifact_76 : artifact :=
  mk_artifact 76 (replicate 76 0%Qc) (replicate 76 1%Qc) two_sign_forest
              ["Blue"; "Red"] ["Blue"; "Red"].

Definition artifact_76_no_classes : artifact :=
  mk_artifact 76 (replicate 76 0%Qc) (replicate 76 1%Qc) two_sign_forest
              [] ["Blue"; "Red"].

(** A rational stand-in for the functions of numpy, used to run the
    extractor on examples: the integer square root of the value scaled by
    [10^12], and linear interpolations for the angles. *)
Definition approx_sqrt (x : Qc) : Qc :=
  Q2Qc (Z.sqrt (Qnum (this x) * 1000000000000 / Z.pos (Qden (this x)))
        # 1000000).

Definition approx_pi : Qc := Q2Qc (355 # 113).

Definition approx_arccos (x : Qc) : Qc := (approx_pi / 2 * (1 - x))%Qc.

Definition approx_arctan2 (y x : Qc) : Qc :=
  if bool_decide (x = 0%Qc) && bool_decide (y = 0%Qc) then 0%Qc
  else (approx_pi / 2 * (y / (qabs x + qabs y)))%Qc.

Definition approx_math : MathLib :=
  Build_MathLib approx_sqrt approx_arccos approx_arctan2 approx_pi.

(** Example windows: [n] frames that each hold one detected hand, the
    wrist moving along the diagonal. *)
Definition one_hand_landmark (k i : nat) : landmark :=
  mk_landmark (Some (Number (of_nat (k + i) / of_nat 100)%Qc))
              (Some (Number (of_nat (k + 2 * i) / of_nat 100)%Qc))
              (Some (Number 0%Qc)).

Definition one_hand_frame (k : nat) : frame :=
  mk_frame (Some [mk_hand (Some (map (one_hand_landmark k) (seq 0 21)))]).

Definition one_hand_window (n : nat) : list frame :=
  map one_hand_frame (seq 1 n).


(* --------------------------------------------------------------------- *)
(** ** 5. Measures for the streaming session                               *)
(* --------------------------------------------------------------------- *)

(** The last [n] entries of a list. *)
Definition last_frames {A : Type} (n : nat) (l : list A) : list A :=
  drop (length l - n) l.

(** A stream of frames in which hands were detected. *)
Definition hand_frames {frame : Type} (xs : list frame)
    : list (payload frame) :=
  map (fun x => Landmarks (Some x)) xs.

Definition is_hand_frame {frame : Type} (p : payload frame) : bool :=
  match p with Landmarks (Some _) => true | _ => false end.

(** The number of classifier calls among the actions of a run. *)
Definition invocations {frame result : Type}
    (acts : list (action frame result)) : nat :=
  length (List.filter is_invoke acts).

(** The number of "No hands detected" notices among the actions of a run. *)
Definition no_hands_notices {frame result : Type}
    (acts : list (action frame result)) : nat :=
  length (List.filter is_no_hands_notice acts).

(** The entries of one user in the three dictionaries. *)
Definition session_of {frame : Type} (st : fsl_store frame) (u : user_id)
    : option (list frame) * option nat * option nat :=
  (user_buffers st !! u, frame_counters st !! u, no_hands_streak st !! u).

(* --------------------------------------------------------------------- *)
(** ** 6. Conditions on input windows                                      *)
(* --------------------------------------------------------------------- *)

(** The coordinates that [preprocess_sequence] converts with [float()]:
    those of the first 21 landmarks of the first 2 hands of a frame. *)
Definition readable_value (v : option coord_value) : bool :=
  match v with Some NotANumber => false | _ => true end.

Definition readable_landmark (lm : landmark) : bool :=
  readable_value (lm_x lm) && readable_value (lm_y lm)
  && readable_value (lm_z lm).

Definition readable_hand (h : hand) : bool :=
  forallb readable_landmark (take 21 (default [] (hand_landmarks h))).

Definition readable_frame (f : frame) : bool :=
  forallb readable_hand (take 2 (default [] (frame_hands f))).

(** Hand [h] of the array has every landmark of every frame at the
    origin. *)
Definition hand_at_origin (a : landmarks_array) (h : nat) : Prop :=
  Forall (fun fr => Forall (fun p => p = origin3) (nth h fr [])) a.

(** Every frame of the window holds at most one hand. *)
Definition at_most_one_hand (frames : list frame) : Prop :=
  Forall (fun f => length (default [] (frame_hands f)) <= 1) frames.

(* --------------------------------------------------------------------- *)
(** ** 7. The streaming session with [SimpleFSLPredictor] as predictor     *)
(* --------------------------------------------------------------------- *)

(** [sequence_frames = user_buffers[user_id].copy()] is a shallow copy: the
    frame dictionaries that [preprocess_sequence] pads are the ones held in
    the buffer.  The following functions give the dictionaries as a call
    leaves them, also when the loop stops at a value [float()] rejects: the
    hand being read has been padded, the hands and frames after it have not
    been touched. *)
Fixpoint hands_after_loop (hs : list hand) : list hand :=
  match hs with
  | [] => []
  | h :: hs' =>
      padded_hand h ::
      match read_hand h with
      | Some _ => hands_after_loop hs'
      | None => hs'
      end
  end.

Definition frame_after_loop (f : frame) : frame :=
  mk_frame ((fun hs => let hs' := pad_to 2 sentinel_hand hs in
                       hands_after_loop (take 2 hs') ++ drop 2 hs')
            <$> frame_hands f).

Fixpoint frames_after_preprocess (frames : list frame) : list frame :=
  match frames with
  | [] => []
  | f :: fs =>
      frame_after_loop f ::
      match read_frame f with
      | Some _ => frames_after_preprocess fs
      | None => fs
      end
  end.

(** [predict] reaches [preprocess_sequence] only with a loaded model and
    at least 5 frames. *)
Definition frames_after_predict (model : option artifact)
    (sequence_frames : list frame) : list frame :=
  if length sequence_frames <? 5 then sequence_frames
  else
    match model with
    | None => sequence_frames
    | Some _ => frames_after_preprocess sequence_frames
    end.

Section SharedFrames.

Context {M : MathLib}.

(** [current_app.fsl_predictor.predict]: every path of [predict] returns a
    dictionary, so the call never raises. *)
Definition fsl_predictor_of (model : option artifact)
    : predictor frame prediction :=
  fun sequence_frames => Some (predict model sequence_frames).

(** One frame with hands: the handler's branch, then the buffer of [u]
    holds the frames as the predictor left them when it was invoked. *)
Definition on_hands_shared (model : option artifact) (st : fsl_store frame)
    (u : user_id) (x : frame) : fsl_store frame * list (action frame prediction) :=
  let '(st', acts) := on_hands st u (fsl_predictor_of model) x in
  match acts with
  | Invoke sequence_frames :: _ =>
      (mk_store (<[u := frames_after_predict model sequence_frames]>
                   (user_buffers st'))
                (frame_counters st') (no_hands_streak st'),
       acts)
  | _ => (st', acts)
  end.

Definition handle_process_fsl_frame_shared (model : option artifact)
    (st : fsl_store frame) (u : user_id) (data : payload frame)
    : fsl_store frame * list (action frame prediction) :=
  match data with
  | Landmarks (Some x) => on_hands_shared model st u x
  | _ => handle_process_fsl_frame st (Some u) (Some (fsl_predictor_of model))
                                  data
  end.

Fixpoint run_frames_shared (model : option artifact) (st : fsl_store frame)
    (u : user_id) (ps : list (payload frame))
    : fsl_store frame * list (action frame prediction) :=
  match ps with
  | [] => (st, [])
  | p :: ps' =>
      let '(st1, a1) := handle_process_fsl_frame_shared model st u p in
      let '(st2, a2) := run_frames_shared model st1 u ps' in
      (st2, a1 ++ a2)
  end.

End SharedFrames.

(** What the client receives. *)
Definition emits {frame result : Type} (acts : list (action frame result))
    : list (emitted result) :=
  omap (M := list) (fun a => match a with Emit e => Some e | Invoke _ => None end)
       acts.

(** Two stores that differ only in padding that [preprocess_sequence] would
    add anyway. *)
Definition same_padded (st st' : fsl_store frame) : Prop :=
  frame_counters st = frame_counters st' ∧
  no_hands_streak st = no_hands_streak st' ∧
  fmap (map padded_frame) (user_buffers st)
  = fmap (map padded_frame) (user_buffers st').

(* --------------------------------------------------------------------- *)
(** ** 8. Conditions on the loaded artifact                                *)
(* --------------------------------------------------------------------- *)

(** [i] is the first index of a largest entry of [ps]. *)
Definition is_argmax (ps : list Qc) (i : nat) : Prop :=
  i < length ps ∧
  Forall (fun p => (p <= nth i ps 0)%Qc) ps ∧
  ∀ j, j < i -> (nth j ps 0 < nth i ps 0)%Qc.

(** An artifact whose scaler was fitted on the 76 features of this
    extractor and whose forest answers with one probability per class known
    to the label encoder and to the metadata. *)
Definition fitted_on_76 (art : artifact) : Prop :=
  scaler_n_features art = 76 ∧
  ∀ x, 0 < length (predict_proba art x)
       ∧ length (predict_proba art x) <= length (encoder_classes art)
       ∧ length (predict_proba art x) <= length (class_names art).

(** An emit of the collecting phase, or a recognised sign for a buffer of
    at least 15 frames. *)
Definition progress_or_sign (e : emitted prediction) : Prop :=
  match e with
  | EmitCollecting buffer_size => buffer_size < 15
  | EmitPrediction (Predicted _ _ _) buffer_size => 15 <= buffer_size
  | _ => False
  end.

(* --------------------------------------------------------------------- *)
(** ** 9. Static signs ([process_landmarks_for_prediction])                *)
(* --------------------------------------------------------------------- *)

(** An entry of [hands_data]: a dictionary read under ['landmarks'] and
    ['label']; a missing key is [None]. *)
Record hand_entry := mk_hand_entry {
  entry_landmarks : option (list landmark);
  entry_label : option string
}.

(** [[lm['x'], lm['y'], lm['z']]]: a missing key raises [KeyError], and an
    array that holds a value that is not a number makes the subtraction of
    the wrist raise; both are [None]. *)
Definition landmark_xyz (lm : landmark) : option point3 :=
  match lm_x lm, lm_y lm, lm_z lm with
  | Some (Number x), Some (Number y), Some (Number z) => Some (x, y, z)
  | _, _, _ => None
  end.

Definition div3 (p : point3) (s : Qc) : point3 :=
  ((p.1.1 / s)%Qc, (p.1.2 / s)%Qc, (p.2 / s)%Qc).

(** [for i in range(len(finger_tips)-1): for j in range(i+1, ...)] *)
Definition finger_tip_pairs : list (nat * nat) :=
  [(4, 8); (4, 12); (4, 16); (4, 20); (8, 12); (8, 16); (8, 20);
   (12, 16); (12, 20); (16, 20)].

Section StaticSigns.

Context {M : MathLib}.

(** [np.linalg.norm] of a point. *)
Definition norm3 (p : point3) : Qc :=
  sqrt (p.1.1 * p.1.1 + p.1.2 * p.1.2 + p.2 * p.2)%Qc.

(** [normalize_hand_landmarks]; [None] when an index is out of range or a
    value cannot be read. *)
Definition normalize_hand_landmarks (landmarks : list landmark)
    : option (list point3) :=
  coords ← mapM landmark_xyz landmarks;
  center ← coords !! 0;
  let coords := map (fun p => sub3 p center) coords in
  c9 ← coords !! 9;
  c0 ← coords !! 0;
  let scale := norm3 (sub3 c9 c0) in
  Some (if bool_decide (0 < scale)%Qc
        then map (fun p => div3 p scale) coords
        else coords).

(** [flatten_hand_with_features]: the flattened coordinates, the 5
    distances from the wrist to the finger tips, the 10 distances between
    finger tips, the width and the height of the hand. *)
Definition flatten_hand_with_features (hand : hand_entry)
    : option (list Qc) :=
  landmarks ← entry_landmarks hand;
  coords ← normalize_hand_landmarks landmarks;
  let raw_features := flat_map (fun p : point3 => [p.1.1; p.1.2; p.2]) coords in
  wrist ← coords !! 0;
  from_wrist ← mapM (fun idx => p ← coords !! idx;
                               Some (norm3 (sub3 p wrist)))
                    [4; 8; 12; 16; 20];
  between ← mapM (fun ij : nat * nat =>
                    p ← coords !! ij.1; q ← coords !! ij.2;
                    Some (norm3 (sub3 p q)))
                 finger_tip_pairs;
  let x_coords := map (coord 0) coords in
  let y_coords := map (coord 1) coords in
  let hand_width := (list_max x_coords - list_min x_coords)%Qc in
  let hand_height := (list_max y_coords - list_min y_coords)%Qc in
  Some (raw_features ++ from_wrist ++ between ++ [hand_width; hand_height]).

(** [process_landmarks_for_prediction]: the row of the returned array;
    [None] is the [None] of the source, returned directly or from the
    [except] branch.  The values are exact, hence finite, so the validation
    of the feature vector ([np.isnan], [np.isinf]) always passes here: the
    model gives the vector that the source returns when that validation
    passes.  Where float64 overflows (a coordinate of huge magnitude, or a
    hand whose scale is tiny against its coordinates) the source returns
    [None] or a vector of other values, which the model does not
    describe. *)
Definition process_landmarks_for_prediction (hands_data : list hand_entry)
    : option (list Qc) :=
  match hands_data with
  | [hand] =>
      features ← flatten_hand_with_features hand;
      Some (features ++ replicate (length features) 0%Qc)
  | [hand1; hand2] =>
      label1 ← entry_label hand1;
      swap ← (if bool_decide (label1 = "Right")
              then (fun label2 => bool_decide (label2 = "Left"))
                   <$> entry_label hand2
              else Some false);
      if (swap : bool) then
        left_features ← flatten_hand_with_features hand2;
        right_features ← flatten_hand_with_features hand1;
        Some (left_features ++ right_features)
      else
        left_features ← flatten_hand_with_features hand1;
        right_features ← flatten_hand_with_features hand2;
        Some (left_features ++ right_features)
  | _ => None
  end.

End StaticSigns.

(** The hands on which [flatten_hand_with_features] returns: the key
    ['landmarks'] is present, with at least 21 landmarks whose three
    coordinates are numbers. *)
Definition numeric_landmark (lm : landmark) : bool :=
  match lm_x lm, lm_y lm, lm_z lm with
  | Some (Number _), Some (Number _), Some (Number _) => true
  | _, _, _ => false
  end.

Definition usable_hand (hand : hand_entry) : bool :=
  match entry_landmarks hand with
  | Some landmarks =>
      (21 <=? length landmarks) && forallb numeric_landmark landmarks
  | None => false
  end.

(** The labels that the comparison of the two-hand branch reads: the
    second one only when the first is ["Right"]. *)
Definition labels_present (hand1 hand2 : hand_entry) : bool :=
  match entry_label hand1 with
  | None => false
  | Some label1 =>
      if bool_decide (label1 = "Right")
      then bool_decide (is_Some (entry_label hand2))
      else true
  end.

Definition landmark_count (hand : hand_entry) : nat :=
  length (default [] (entry_landmarks hand)).

(** A detected hand of 21 landmarks, for examples. *)
Definition example_entry (k : nat) (label : string) : hand_entry :=
  mk_hand_entry (Some (map (one_hand_landmark k) (seq 0 21))) (Some label).

(* --------------------------------------------------------------------- *)
(** ** 10. A game round                                                    *)
(* --------------------------------------------------------------------- *)

(** Every camera entry of the room is ready and there is at least one: the
    condition under which [handle_start_game] starts the countdown. *)
Definition cameras_ready (r : room) : Prop :=
  let cs := default ∅ (camera_status r) in
  ready_users cs = size cs ∧ 0 < size cs.


(** The creator id that [save_game_instance_to_db] writes. *)
Definition creator_id_in_store (w : world) (r : room) : option user_id :=
  if bool_decide (creator r = "Unknown") then None
  else users_table (db w) !! creator r.

(* --------------------------------------------------------------------- *)
(** ** 11. Room membership ([handle_connect], [handle_join],
       [handle_camera_ready], [handle_camera_stopped], [handle_disconnect],
       [handle_room_creator_leaving], [check_camera_readiness] and the
       route [room])                                                       *)
(* --------------------------------------------------------------------- *)

Definition set_members (m : Z) (r : room) : room :=
  mk_room m (participants r) (creator r) (creator_id r)
          (camera_status r) (game_type r) (duration r) (learning_material r)
          (creator_participated r) (scores_saved r) (final_scores r).

Definition set_participants (ps : list string) (r : room) : room :=
  mk_room (members r) ps (creator r) (creator_id r)
          (camera_status r) (game_type r) (duration r) (learning_material r)
          (creator_participated r) (scores_saved r) (final_scores r).

Definition set_camera_status (cs : gmap user_id camera) (r : room) : room :=
  mk_room (members r) (participants r) (creator r) (creator_id r)
          (Some cs) (game_type r) (duration r) (learning_material r)
          (creator_participated r) (scores_saved r) (final_scores r).

(** The Flask session of a client.  As for [handle_start_game], a value
    that is present is one that Python takes as true. *)
Record client := mk_client {
  session_user_id : option user_id;
  session_room : option string;
  session_name : option string;
  session_created : bool
}.

(** What the membership handlers send.  The profile pictures that
    [get_participants_with_profiles] adds to the participant names, and the
    [gamemode_index] of the game settings, are not held by the model and
    are not part of the events. *)
Inductive lobby_event :=
| RoomDeletedByCreator (room_code creator_name : string)
                       (include_self : bool)
| ParticipantsUpdated (room_code : string) (names : list string)
| CameraStatusUpdate (room_code : string) (total : Z) (ready : nat)
                     (users : gmap user_id camera)
| AllCamerasReady (room_code : string)
| WaitingForCameras (room_code : string) (ready : nat) (total : Z)
| RoomMessage (room_code name message : string)
| Status (model_loaded : bool)
| GameTypeSet (type : string) (game_duration : nat)
              (material : string)
| ConnectionDenied.

(** [check_camera_readiness]: the total is the member count of the room,
    not the number of camera entries. *)
Definition check_camera_readiness (w : world) (code : string)
    : list lobby_event :=
  match rooms w !! code with
  | None => []
  | Some r =>
      match camera_status r with
      | None => []
      | Some cs =>
          let total_users := members r in
          let ready := ready_users cs in
          CameraStatusUpdate code total_users ready cs ::
          (if bool_decide (Z.of_nat ready = total_users)
              && (0 <? total_users)%Z
           then [AllCamerasReady code]
           else [WaitingForCameras code ready total_users])
      end
  end.

(** [get_user_by_id]: whether the [users] table has a row with this id. *)
Definition get_user_by_id (d : database) (uid : user_id) : bool :=
  bool_decide (uid ∈ (map_to_list (users_table d)).*2).

(** [game_states.get(room, {}).get("ongoing", False)] *)
Definition game_ongoing (w : world) (code : string) : bool :=
  default false (gs ← game_states w !! code; ongoing gs).

(** [handle_connect]: [false] is the refused connection. *)
Definition handle_connect (w : world) (s : client) (model_loaded : bool)
    : bool * list lobby_event :=
  match session_user_id s with
  | None => (false, [])
  | Some user_id =>
      if negb (get_user_by_id (db w) user_id) then (false, [])
      else if match session_room s with
              | Some room => game_ongoing w room
              | None => false
              end
      then (false, [ConnectionDenied])
      else (true, [Status model_loaded])
  end.

(** The pages the route [room] answers with. *)
Inductive route_result :=
| RedirectToLogin
| RedirectHome (msg : option string)
| RenderRoom (created : bool) (names : list string).

(** The route [/<room_code>] of [room.py]; it pops [room] and [name] from
    the session when the room cannot be entered. *)
Definition room_route (w : world) (s : client) (room_code : string)
    : route_result * client :=
  match session_user_id s with
  | None => (RedirectToLogin, s)
  | Some user_id =>
      if negb (get_user_by_id (db w) user_id) then (RedirectToLogin, s)
      else if game_ongoing w room_code
      then (RedirectHome (Some "Game already in progress"), s)
      else
        match session_name s, rooms w !! room_code with
        | Some name, Some r =>
            if (30 <=? length (participants r))
               && negb (bool_decide (name ∈ participants r))
            then (RedirectHome (Some "Room is full (max 30 participants)."),
                  s)
            else (RenderRoom (session_created s) (participants r), s)
        | _, _ =>
            (RedirectHome None,
             mk_client (session_user_id s) None None (session_created s))
        end
  end.

(** [handle_join] for the logged-in user [user_id] ([handle_connect]
    refuses a client without one); afterwards the session holds [room] and
    [name].  [room] is [data.get("room")]. *)
Definition handle_join (w : world) (user_id : user_id) (room : option string)
    (name : string) (model_loaded : bool) : world * list lobby_event :=
  match room with
  | None => (w, [])
  | Some code =>
      match rooms w !! code with
      | None => (w, [])
      | Some r =>
          let r1 := if bool_decide (name ∈ participants r) then r
                    else set_participants (participants r ++ [name]) r in
          let r2 := set_members (members r1 + 1) r1 in
          let r3 := set_camera_status
                      (<[user_id := mk_camera name false]>
                         (default ∅ (camera_status r2))) r2 in
          let w' := mk_world (<[code := r3]> (rooms w)) (game_states w)
                             (db w) in
          (w',
           [ParticipantsUpdated code (participants r3);
            RoomMessage code name "has entered the room"]
           ++ check_camera_readiness w' code
           ++ [Status model_loaded]
           ++ match game_type r3 with
              | Some type =>
                  if bool_decide (type = "") then []
                  else [GameTypeSet type (default 30 (duration r3))
                          (default "alphabet" (learning_material r3))]
              | None => []
              end)
      end
  end.

(** [handle_camera_ready]: the entry of the user is updated in place, so a
    user without an entry makes the handler raise, after an absent
    [camera_status] has been created empty. *)
Definition handle_camera_ready (w : world) (s : client)
    : world * list lobby_event * outcome :=
  match session_user_id s, session_room s with
  | Some user_id, Some code =>
      match rooms w !! code with
      | None => (w, [], Returned)
      | Some r =>
          let cs := default ∅ (camera_status r) in
          match cs !! user_id with
          | None =>
              (mk_world (<[code := set_camera_status cs r]> (rooms w))
                        (game_states w) (db w), [], Raised)
          | Some cam =>
              let cs' := <[user_id := mk_camera (cam_username cam) true]> cs in
              let w' := mk_world (<[code := set_camera_status cs' r]> (rooms w))
                                 (game_states w) (db w) in
              (w', check_camera_readiness w' code, Returned)
          end
      end
  | _, _ => (w, [], Returned)
  end.

(** [handle_camera_stopped] *)
Definition handle_camera_stopped (w : world) (s : client)
    : world * list lobby_event :=
  match session_user_id s, session_room s with
  | Some user_id, Some code =>
      match rooms w !! code with
      | None => (w, [])
      | Some r =>
          let w' :=
            match camera_status r with
            | Some cs =>
                match cs !! user_id with
                | Some cam =>
                    mk_world
                      (<[code := set_camera_status
                                   (<[user_id := mk_camera (cam_username cam)
                                                           false]> cs) r]>
                         (rooms w))
                      (game_states w) (db w)
                | None => w
                end
            | None => w
            end in
          (w', check_camera_readiness w' code)
      end
  | _, _ => (w, [])
  end.

(** [list.remove]: the first occurrence is removed. *)
Fixpoint remove_first (x : string) (l : list string) : list string :=
  match l with
  | [] => []
  | y :: l' => if decide (y = x) then l' else y :: remove_first x l'
  end.

(** The part of [handle_disconnect] that touches the rooms (the part that
    touches the frame buffers is [handle_disconnect] above).  The room's
    entry in [game_states] is not touched. *)
Definition handle_disconnect_room (w : world) (s : client)
    : world * list lobby_event :=
  match session_name s, session_room s with
  | Some name, Some code =>
      match rooms w !! code with
      | None => (w, [])
      | Some r =>
          if session_created s then
            (mk_world (delete code (rooms w)) (game_states w) (db w),
             [RoomDeletedByCreator code name true])
          else
            let r1 := set_members (members r - 1) r in
            let r2 :=
              match session_user_id s, camera_status r1 with
              | Some user_id, Some cs =>
                  if bool_decide (is_Some (cs !! user_id))
                  then set_camera_status (delete user_id cs) r1
                  else r1
              | _, _ => r1
              end in
            let '(r3, updated) :=
              if bool_decide (name ∈ participants r2)
              then (set_participants (remove_first name (participants r2)) r2,
                    [ParticipantsUpdated code
                       (remove_first name (participants r2))])
              else (r2, []) in
            let w3 := mk_world (<[code := r3]> (rooms w)) (game_states w)
                               (db w) in
            let readiness := check_camera_readiness w3 code in
            let w4 := if (members r3 <=? 0)%Z
                      then mk_world (delete code (rooms w3)) (game_states w3)
                                    (db w3)
                      else w3 in
            (w4, updated ++ readiness
                 ++ [RoomMessage code name "has left the room"])
      end
  | _, _ => (w, [])
  end.

(** [handle_room_creator_leaving] *)
Definition handle_room_creator_leaving (w : world) (s : client)
    : world * list lobby_event :=
  match session_name s, session_room s with
  | Some name, Some code =>
      match rooms w !! code with
      | None => (w, [])
      | Some _ =>
          if session_created s then
            (mk_world (delete code (rooms w)) (game_states w) (db w),
             [RoomDeletedByCreator code name false])
          else (w, [])
      end
  | _, _ => (w, [])
  end.

(** The session of a user that has joined room [code] under [name]. *)
Definition member_session (user_id : user_id) (code name : string) : client :=
  mk_client (Some user_id) (Some code) (Some name) false.

Definition creator_session (user_id : user_id) (code name : string) : client :=
  mk_client (Some user_id) (Some code) (Some name) true.

(** The member count of the room is the number of its camera entries: the
    two totals that [check_camera_readiness] and [handle_start_game] compare
    the ready cameras with. *)
Definition members_counted (r : room) : Prop :=
  members r = Z.of_nat (size (default ∅ (camera_status r))).

(** One run of a membership handler, for any client and any arguments. *)
Inductive membership_step : world -> world -> Prop :=
| step_join w user_id room name model_loaded :
    membership_step w (handle_join w user_id room name model_loaded).1
| step_camera_ready w s :
    membership_step w (handle_camera_ready w s).1.1
| step_camera_stopped w s :
    membership_step w (handle_camera_stopped w s).1
| step_disconnect w s :
    membership_step w (handle_disconnect_room w s).1
| step_creator_leaving w s :
    membership_step w (handle_room_creator_leaving w s).1.

(** The room as a member that disconnects leaves it: one member
    less, the member's camera entry and the first occurrence of the name
    among the participants removed. *)
Definition room_without (user_id : user_id) (name : string) (r : room)
    : room :=
  mk_room (members r - 1) (remove_first name (participants r))
          (creator r) (creator_id r)
          (delete user_id <$> camera_status r)
          (game_type r) (duration r) (learning_material r)
          (creator_participated r) (scores_saved r) (final_scores r).

Definition set_learning_material (m : string) (r : room) : room :=
  mk_room (members r) (participants r) (creator r) (creator_id r)
          (camera_status r) (game_type r) (duration r) (Some m)
          (creator_participated r) (scores_saved r) (final_scores r).

(** [handle_set_learning_material], for a message that carries the key
    ['learningMaterial']; [room] is the session's room. *)
Definition handle_set_learning_material (w : world) (room : option string)
    (learning_material : string) : world :=
  match room with
  | None => w
  | Some code =>
      match rooms w !! code with
      | None => w
      | Some r =>
          mk_world (<[code := set_learning_material learning_material r]>
                      (rooms w))
                   (game_states w) (db w)
      end
  end.

(* --------------------------------------------------------------------- *)
(** ** 12. The float32 array of [preprocess_sequence]                      *)
(* --------------------------------------------------------------------- *)

(** [np.array(sequence_landmarks, dtype=np.float32)] stores single
    precision values: a coordinate beyond the largest float32 becomes an
    infinity, and the arithmetic on the array then yields infinities and
    NaN.  An entry of such an array is a finite value, an infinity or NaN;
    rounding is not modelled, a finite entry is its exact value. *)
Inductive float :=
| Finite (q : Qc)
| PosInf
| NegInf
| NaN.

(** The largest float32, [(2 - 2^-23) * 2^127]. *)
Definition float32_max : Qc :=
  Qc_of_Z (2 ^ 128 - 2 ^ 104).

(** The conversion of a value to float32. *)
Definition to_float32 (q : Qc) : float :=
  if bool_decide (float32_max < q)%Qc then PosInf
  else if bool_decide (q < - float32_max)%Qc then NegInf
  else Finite q.

(** Storing a float64 result in the float32 array. *)
Definition cast_float32 (x : float) : float :=
  match x with Finite q => to_float32 q | _ => x end.

Definition float_opp (x : float) : float :=
  match x with
  | Finite q => Finite (- q)
  | PosInf => NegInf
  | NegInf => PosInf
  | NaN => NaN
  end.

(** The sum of two values; the sums that occur here stay far below the
    largest float64. *)
Definition float_add (x y : float) : float :=
  match x, y with
  | NaN, _ | _, NaN => NaN
  | PosInf, NegInf | NegInf, PosInf => NaN
  | PosInf, _ | _, PosInf => PosInf
  | NegInf, _ | _, NegInf => NegInf
  | Finite a, Finite b => Finite (a + b)
  end.

(** The product with a positive finite weight. *)
Definition float_scale (w : Qc) (x : float) : float :=
  match x with Finite q => Finite (q * w) | _ => x end.

(** The difference of two float32 values, a float32. *)
Definition float32_sub (x y : float) : float :=
  cast_float32 (float_add x (float_opp y)).

(** [x != 0]: true of the infinities and of NaN. *)
Definition float_nonzero (x : float) : bool :=
  match x with Finite q => nonzero q | _ => true end.

Definition fpoint : Type := float * float * float.

Abbreviation float_array := (list (list (list fpoint))).

Definition forigin : fpoint := (Finite 0%Qc, Finite 0%Qc, Finite 0%Qc).

Definition to_fpoint (p : point3) : fpoint :=
  (to_float32 p.1.1, to_float32 p.1.2, to_float32 p.2).

Definition fcoord (c : nat) (p : fpoint) : float :=
  match c with 0 => p.1.1 | 1 => p.1.2 | _ => p.2 end.

Definition fshape1 (a : float_array) : nat := length (nth 0 a []).
Definition fshape2 (a : float_array) : nat := length (nth 0 (nth 0 a []) []).

(** [a[:, hand, landmark, coord]] *)
Definition fseries (a : float_array) (h l c : nat) : list float :=
  map (fun fr => fcoord c (nth l (nth h fr []) forigin)) a.

(** [np.convolve(sequence, np.ones(3) / 3, mode='same')], as
    [convolve_same]: only the entries inside the sequence are multiplied,
    so an entry outside it adds nothing. *)
Definition convolve_same_float (s : list float) : list float :=
  let w := (1 / of_nat 3)%Qc in
  map (fun i =>
         float_add
           (float_add
              (float_scale w (match i with
                              | 0 => Finite 0%Qc
                              | S j => nth j s (Finite 0%Qc)
                              end))
              (float_scale w (nth i s (Finite 0%Qc))))
           (float_scale w (nth (S i) s (Finite 0%Qc))))
      (seq 0 (length s)).

(** [if np.any(sequence != 0): smoothed[:, h, l, c] = np.convolve(...)] *)
Definition smooth_series_float32 (s : list float) : list float :=
  if existsb float_nonzero s then map cast_float32 (convolve_same_float s)
  else s.

Definition smooth_sequence_float32 (a : float_array) : float_array :=
  if length a <? 3 then a
  else
    map (fun i =>
      map (fun h =>
        map (fun l =>
               (nth i (smooth_series_float32 (fseries a h l 0)) (Finite 0%Qc),
                nth i (smooth_series_float32 (fseries a h l 1)) (Finite 0%Qc),
                nth i (smooth_series_float32 (fseries a h l 2)) (Finite 0%Qc)))
            (seq 0 (fshape2 a)))
          (seq 0 (fshape1 a)))
        (seq 0 (length a)).

Definition fsub (p q : fpoint) : fpoint :=
  (float32_sub p.1.1 q.1.1, float32_sub p.1.2 q.1.2, float32_sub p.2 q.2).

(** One [frame, hand] slice of [normalize_sequence]. *)
Definition normalize_hand_float32 (pts : list fpoint) : list fpoint :=
  let wrist := nth 0 pts forigin in
  if float_nonzero wrist.1.1 || float_nonzero wrist.1.2
     || float_nonzero wrist.2
  then map (fun p => fsub p wrist) pts
  else pts.

Definition normalize_sequence_float32 (a : float_array) : float_array :=
  map (map normalize_hand_float32) a.

(** The array that [preprocess_sequence] returns, as float32. *)
Definition preprocess_sequence_float32 (frames : list frame)
    : option float_array :=
  match mapM read_frame frames with
  | None => None
  | Some a =>
      Some (normalize_sequence_float32
              (smooth_sequence_float32 (map (map (map to_fpoint)) a)))
  end.

(** The coordinates that [preprocess_sequence] reads lie within
    [-bound, bound]. *)
Definition value_within (bound : Qc) (v : option coord_value) : bool :=
  match v with
  | Some (Number q) =>
      bool_decide (- bound ≤ q)%Qc && bool_decide (q ≤ bound)%Qc
  | _ => true
  end.

Definition landmark_within (bound : Qc) (lm : landmark) : bool :=
  value_within bound (lm_x lm) && value_within bound (lm_y lm)
  && value_within bound (lm_z lm).

Definition hand_within (bound : Qc) (h : hand) : bool :=
  forallb (landmark_within bound) (take 21 (default [] (hand_landmarks h))).

Definition frame_within (bound : Qc) (f : frame) : bool :=
  forallb (hand_within bound) (take 2 (default [] (frame_hands f))).

(** Every coordinate of the window can be stored as a finite float32. *)
Definition within_float32 (frames : list frame) : bool :=
  forallb (frame_within float32_max) frames.

(** The claim that the wrist of every hand of every frame of the
    preprocessed array is the origin, whatever the finite coordinates of
    the window. *)
Definition wrist_always_origin : Prop :=
  ∀ frames a,
    preprocess_sequence_float32 frames = Some a ->
    Forall (Forall (fun pts => nth 0 pts forigin = forigin)) a.

(** A window of five frames whose one hand lies far outside the float32
    range: every landmark at [x = 10^39]. *)
Definition far_landmark : landmark :=
  mk_landmark (Some (Number (Qc_of_Z (10 ^ 39)))) (Some (Number 0%Qc))
              (Some (Number 0%Qc)).

Definition far_frame : frame :=
  mk_frame (Some [mk_hand (Some (replicate 21 far_landmark))]).

Definition far_window : list frame := replicate 5 far_frame.

(** A finite entry that float32 can hold. *)
Definition float_in_range (x : float) : Prop :=
  match x with
  | Finite q => (- float32_max ≤ q)%Qc ∧ (q ≤ float32_max)%Qc
  | _ => False
  end.

Definition fpoint_in_range (p : fpoint) : Prop :=
  float_in_range p.1.1 ∧ float_in_range p.1.2 ∧ float_in_range p.2.

Definition in_float32 (q : Qc) : Prop :=
  (- float32_max ≤ q)%Qc ∧ (q ≤ float32_max)%Qc.

Definition point_in_float32 (p : point3) : Prop :=
  in_float32 p.1.1 ∧ in_float32 p.1.2 ∧ in_float32 p.2.

(* --------------------------------------------------------------------- *)
(** ** 13. A game instance: end-game signals among membership changes      *)
(* --------------------------------------------------------------------- *)






(** *** Windows on which the float32 array is the array of the model *)

(** [q] lies within [-bound, bound]. *)
Definition in_range (bound q : Qc) : Prop :=
  (- bound ≤ q)%Qc ∧ (q ≤ bound)%Qc.

Definition point_in_range (bound : Qc) (p : point3) : Prop :=
  in_range bound p.1.1 ∧ in_range bound p.1.2 ∧ in_range bound p.2.

(** A bound on the magnitude of the coordinates, far above the normalised
    and the pixel coordinates of a hand tracker and far below the largest
    float32: under it no sum, difference or square that the extractor forms
    of the entries of the array leaves the float32 range. *)
Definition coordinate_bound : Qc := Qc_of_Z 1000000.

(** Every coordinate of the window is at most [coordinate_bound] in
    magnitude. *)
Definition within_bound (frames : list frame) : bool :=
  forallb (frame_within coordinate_bound) frames.

(** An array of finite float32 entries. *)
Definition lift_point (p : point3) : fpoint :=
  (Finite p.1.1, Finite p.1.2, Finite p.2).

Definition float_image (a : landmarks_array) : float_array :=
  map (map (map lift_point)) a.

(** A scaler whose means are at most [coordinate_bound] in magnitude and
    whose scales are at least its inverse: the scaled value of a feature
    [x] is then at most [(|x| + coordinate_bound) * coordinate_bound] in
    magnitude, a finite float32 for the features of a window within the
    bound. *)
Definition scaler_moderate (art : artifact) : Prop :=
  Forall (in_range coordinate_bound) (scaler_mean art) ∧
  Forall (fun s => (1 / coordinate_bound ≤ s)%Qc) (scaler_scale art).

(* ===================================================================== *)
(** * Part II. Properties                                                 *)
(* ===================================================================== *)

(* --------------------------------------------------------------------- *)
(** ** 1. Streaming session                                                *)
(* --------------------------------------------------------------------- *)

Section StreamingFacts.

Context {frame result : Type}.
Implicit Types (st : fsl_store frame) (u v : user_id)
               (predict : predictor frame result) (x : frame)
               (buf : list frame).

Lemma push_frame_length buf x :
  length (push_frame buf x) = S (length buf) `min` 30 ∨
  (30 < length buf ∧ length (push_frame buf x) = length buf).
Proof.
  unfold push_frame. rewrite length_app. simpl.
  destruct (30 <? length buf + 1) eqn:E.
  - apply Nat.ltb_lt in E.
    assert (Hl : length (tail (buf ++ [x])) = length buf).
    { destruct buf; simpl; [done | rewrite length_app; simpl; lia]. }
    rewrite Hl. destruct (decide (length buf = 30)); [left | right]; lia.
  - apply Nat.ltb_ge in E. left. rewrite length_app. simpl. lia.
Qed.

Lemma push_frame_in_step buf x c :
  length buf = c `min` 30 ->
  length (push_frame buf x) = (c + 1) `min` 30.
Proof.
  intros H. destruct (push_frame_length buf x) as [E | [E1 E2]]; lia.
Qed.

Lemma session_ok_empty u : session_ok (@empty_store frame) u.
Proof. unfold session_ok, empty_store. simpl. by rewrite !lookup_empty. Qed.

(** [on_hands] with the initialisation of a new user folded in. *)
Lemma on_hands_unfold st u predict x :
  on_hands st u predict x =
  let buf := push_frame (default [] (user_buffers st !! u)) x in
  let bufs := <[u := buf]> (user_buffers st) in
  let streak := <[u := 0]> (no_hands_streak st) in
  match (match user_buffers st !! u with
         | None => Some 0
         | Some _ => frame_counters st !! u
         end) with
  | None => (mk_store bufs (frame_counters st) streak,
             [Emit (EmitError "Frame processing failed")])
  | Some c =>
      let st' := mk_store bufs (<[u := c + 1]> (frame_counters st)) streak in
      if length buf <? 15 then
        (st', if length buf mod 3 =? 0
              then [Emit (EmitCollecting (length buf))] else [])
      else if negb ((c + 1) mod 3 =? 0) then (st', [])
      else
        (st', [Invoke buf;
               Emit (match predict buf with
                     | Some r => EmitPrediction r (length buf)
                     | None => EmitPredictionError
                     end)])
  end.
Proof.
  unfold on_hands.
  destruct (user_buffers st !! u) as [b|] eqn:Eb; simpl.
  - rewrite Eb. reflexivity.
  - rewrite !lookup_insert_eq, !insert_insert_eq. reflexivity.
Qed.

Lemma on_hands_session_ok st u v predict x :
  session_ok st u -> session_ok (on_hands st v predict x).1 u.
Proof.
  rewrite on_hands_unfold. unfold session_ok. intros H.
  destruct (decide (u = v)) as [-> | Hne].
  - destruct (user_buffers st !! v) as [b|] eqn:Eb;
      destruct (frame_counters st !! v) as [c|] eqn:Ec; try done;
      cbn zeta iota beta;
      (destruct (_ <? 15); [|destruct (negb _)]);
      cbn [fst user_buffers frame_counters];
      rewrite !lookup_insert_eq; by apply push_frame_in_step.
  - destruct (match user_buffers st !! v with
              | None => Some 0 | Some _ => frame_counters st !! v end);
      cbn zeta iota beta;
      [destruct (_ <? 15); [|destruct (negb _)] |];
      cbn [fst user_buffers frame_counters];
      rewrite ?lookup_insert_ne by done; done.
Qed.

(** [on_no_hands] by cases on whether the streak reaches 5. *)
Lemma on_no_hands_unfold st u :
  on_no_hands (result := result) st u =
  let s := default 0 (no_hands_streak st !! u) + 1 in
  if 5 <=? s then
    (mk_store
       (match user_buffers st !! u with
        | Some _ => <[u := []]> (user_buffers st)
        | None => user_buffers st
        end)
       (match user_buffers st !! u with
        | Some _ => <[u := 0]> (frame_counters st)
        | None => frame_counters st
        end)
       (<[u := 0]> (no_hands_streak st)), [])
  else
    (mk_store (user_buffers st) (frame_counters st)
              (<[u := s]> (no_hands_streak st)),
     if s mod 10 =? 1 then [Emit EmitNoHands] else []).
Proof.
  unfold on_no_hands. cbn zeta.
  destruct (5 <=? default 0 (no_hands_streak st !! u) + 1) eqn:E.
  - cbn [user_buffers frame_counters no_hands_streak].
    destruct (user_buffers st !! u);
      cbn [user_buffers frame_counters no_hands_streak];
      rewrite lookup_insert_eq, insert_insert_eq; reflexivity.
  - cbn [user_buffers frame_counters no_hands_streak].
    rewrite lookup_insert_eq. reflexivity.
Qed.

Lemma on_no_hands_session_ok st u v :
  session_ok st u -> session_ok (on_no_hands (result := result) st v).1 u.
Proof.
  rewrite on_no_hands_unfold. unfold session_ok. intros H. cbn zeta.
  destruct (5 <=? _); cbn [fst user_buffers frame_counters]; [|done].
  destruct (decide (u = v)) as [-> | Hne].
  - destruct (user_buffers st !! v) as [b|] eqn:Eb; [|by rewrite Eb].
    rewrite !lookup_insert_eq. done.
  - destruct (user_buffers st !! v) as [b|] eqn:Eb; [|done].
    rewrite !lookup_insert_ne by done. done.
Qed.

(** The invariant holds for every user after every run of the handler,
    whoever sent the frame. *)
Lemma handle_process_fsl_frame_session_ok st u uid fp data :
  session_ok st u ->
  session_ok (handle_process_fsl_frame (result := result) st uid fp data).1 u.
Proof.
  intros H. unfold handle_process_fsl_frame.
  destruct uid as [v|]; [|done]. destruct fp as [predict|]; [|done].
  destruct data as [|[x|]]; [done| |].
  - by apply on_hands_session_ok.
  - by apply on_no_hands_session_ok.
Qed.

Lemma handle_leave_session_ok st u uid :
  session_ok st u -> session_ok (handle_leave_fsl_learning st uid) u.
Proof.
  unfold session_ok, handle_leave_fsl_learning. intros H.
  destruct uid as [v|]; [|done]. simpl.
  destruct (decide (u = v)) as [-> | Hne].
  - by rewrite !lookup_delete_eq.
  - by rewrite !lookup_delete_ne.
Qed.

Lemma handle_disconnect_session_ok st u uid :
  session_ok st u -> session_ok (handle_disconnect st uid) u.
Proof.
  unfold session_ok, handle_disconnect. intros H.
  destruct uid as [v|]; [|done]. simpl.
  destruct (decide (u = v)) as [-> | Hne].
  - by rewrite lookup_delete_eq.
  - by rewrite lookup_delete_ne.
Qed.

(** Every session of a reachable store is in step. *)
Lemma reachable_session_ok st u :
  reachable (result := result) st -> session_ok st u.
Proof.
  induction 1 as [|st uid fp data _ IH|st uid _ IH|st uid _ IH].
  - apply session_ok_empty.
  - by apply handle_process_fsl_frame_session_ok.
  - by apply handle_leave_session_ok.
  - by apply handle_disconnect_session_ok.
Qed.

Lemma run_frames_cons st u predict p ps :
  run_frames st u predict (p :: ps) =
  let r1 := handle_process_fsl_frame st (Some u) (Some predict) p in
  let r2 := run_frames r1.1 u predict ps in
  (r2.1, r1.2 ++ r2.2).
Proof.
  cbn [run_frames].
  destruct (handle_process_fsl_frame st (Some u) (Some predict) p)
    as [st1 a1]. cbn zeta. cbn [fst snd].
  destruct (run_frames st1 u predict ps) as [st2 a2]. reflexivity.
Qed.

(** A buffer that has been cleared stays cleared while no hand is seen. *)
Lemma no_hands_keeps_reset st u predict n :
  user_buffers st !! u = Some [] -> frame_counters st !! u = Some 0 ->
  let st' := (run_frames st u predict (replicate n (Landmarks None))).1 in
  user_buffers st' !! u = Some [] ∧ frame_counters st' !! u = Some 0.
Proof.
  revert st. induction n as [|n IH]; intros st Hb Hc; [done|].
  cbn [replicate]. rewrite run_frames_cons. cbn zeta. cbn [fst].
  apply IH; cbn [handle_process_fsl_frame]; rewrite on_no_hands_unfold;
    cbn zeta; destruct (5 <=? _); cbn [fst user_buffers frame_counters];
    rewrite ?Hb, ?lookup_insert_eq; done.
Qed.

Lemma no_hands_resets_within st u predict n :
  is_Some (user_buffers st !! u) ->
  0 < n -> 5 <= n + default 0 (no_hands_streak st !! u) ->
  let st' := (run_frames st u predict (replicate n (Landmarks None))).1 in
  user_buffers st' !! u = Some [] ∧ frame_counters st' !! u = Some 0.
Proof.
  revert st. induction n as [|n IH]; intros st [b Hb] Hn Hs; [lia|].
  cbn [replicate]. rewrite run_frames_cons. cbn zeta. cbn [fst].
  cbn [handle_process_fsl_frame]. rewrite on_no_hands_unfold. cbn zeta.
  destruct (5 <=? default 0 (no_hands_streak st !! u) + 1) eqn:E;
    cbn [fst].
  - apply no_hands_keeps_reset; cbn [user_buffers frame_counters];
      rewrite Hb, lookup_insert_eq; done.
  - apply Nat.leb_gt in E. apply IH;
      cbn [user_buffers no_hands_streak];
      rewrite ?lookup_insert_eq; cbn [from_option id];
      [by eexists | lia | lia].
Qed.

(** C6. While the buffer holds fewer than 15 frames the classifier is not
    invoked and the progress notice is emitted exactly when the number of
    frames appended since the session (re)started is a multiple of 3; once
    the buffer holds at least 15 frames the classifier is invoked exactly
    when that counter is a multiple of 3, and it receives the whole
    current buffer. *)
Theorem classification_cadence st u predict x :
  session_ok st u ->
  let r := handle_process_fsl_frame st (Some u) (Some predict)
                                    (Landmarks (Some x)) in
  let buf := push_frame (default [] (user_buffers st !! u)) x in
  let c := appended_frames st u + 1 in
  user_buffers r.1 !! u = Some buf ∧
  frame_counters r.1 !! u = Some c ∧
  (length buf < 15 ->
     length buf = c ∧
     r.2 = if c mod 3 =? 0 then [Emit (EmitCollecting c)] else []) ∧
  (15 <= length buf ->
     r.2 = if c mod 3 =? 0
           then [Invoke buf;
                 Emit (match predict buf with
                       | Some res => EmitPrediction res (length buf)
                       | None => EmitPredictionError
                       end)]
           else []).
Proof.
  intros Hok. cbn zeta. cbn [handle_process_fsl_frame].
  rewrite on_hands_unfold. cbn zeta. unfold session_ok in Hok.
  unfold appended_frames.
  set (buf := push_frame (default [] (user_buffers st !! u)) x).
  assert (Hlen : length buf =
                 (match user_buffers st !! u with
                  | None => 0
                  | Some _ => default 0 (frame_counters st !! u)
                  end + 1) `min` 30).
  { subst buf.
    destruct (user_buffers st !! u) as [b|];
      destruct (frame_counters st !! u) as [c|]; try done; cbn [from_option id].
    by apply push_frame_in_step. }
  assert (Hc : match user_buffers st !! u with
               | None => Some 0
               | Some _ => frame_counters st !! u
               end = Some (match user_buffers st !! u with
                           | None => 0
                           | Some _ => default 0 (frame_counters st !! u)
                           end)).
  { destruct (user_buffers st !! u) as [b|];
      destruct (frame_counters st !! u) as [c|]; done. }
  rewrite Hc. clear Hc Hok.
  set (c := match user_buffers st !! u with
            | None => 0
            | Some _ => default 0 (frame_counters st !! u)
            end) in *.
  destruct (length buf <? 15) eqn:E15.
  - apply Nat.ltb_lt in E15. cbn [fst snd user_buffers frame_counters].
    rewrite !lookup_insert_eq.
    assert (length buf = c + 1) as Hbc by lia.
    repeat split; [by rewrite <- Hbc | by rewrite <- Hbc | lia].
  - apply Nat.ltb_ge in E15.
    destruct ((c + 1) mod 3 =? 0) eqn:E3; cbn [negb fst snd];
      cbn [user_buffers frame_counters]; rewrite !lookup_insert_eq;
      repeat split; (lia || done).
Qed.

(** C7. Five consecutive frames without hands leave the user's buffer
    empty and the frame counter at 0, whatever was buffered before. *)
Theorem five_no_hand_frames_reset st u predict buf :
  user_buffers st !! u = Some buf ->
  let st' := (run_frames st u predict (replicate 5 (Landmarks None))).1 in
  user_buffers st' !! u = Some [] ∧ frame_counters st' !! u = Some 0.
Proof.
  intros Hb. apply no_hands_resets_within; [by eexists | lia | lia].
Qed.

End StreamingFacts.

(** C6, at the 15th frame of a fresh session: the classifier receives the
    15 buffered frames. *)
Lemma classification_cadence_witness :
  session_ok (run_frames (@empty_store nat) 7 (fun _ => Some 0)
                (Landmarks ∘ Some <$> seq 1 14)).1 7 ∧
  (handle_process_fsl_frame
     (run_frames empty_store 7 (fun _ => Some 0)
        (Landmarks ∘ Some <$> seq 1 14)).1
     (Some 7) (Some (fun _ : list nat => Some 0)) (Landmarks (Some 15))).2
  = [Invoke (seq 1 15); Emit (EmitPrediction 0 15)].
Proof.
  pose (st := (run_frames (@empty_store nat) 7 (fun _ => Some 0)
                 (Landmarks ∘ Some <$> seq 1 14)).1).
  assert (Hok : session_ok st 7) by (vm_compute; reflexivity).
  split; [exact Hok|].
  destruct (classification_cadence st 7 (fun _ => Some 0) 15 Hok)
    as (_ & _ & _ & H).
  etransitivity; [apply H; vm_compute; lia | reflexivity].
Defined.

(** The first 18 frames of a fresh session: progress notices at frames 3,
    6, 9 and 12, the classifier at frames 15 and 18 on the whole buffer. *)
Example fresh_session_cadence :
  (run_frames (@empty_store nat) 7 (fun _ : list nat => Some 0)
     (Landmarks ∘ Some <$> seq 1 18)).2
  = [Emit (EmitCollecting 3); Emit (EmitCollecting 6);
     Emit (EmitCollecting 9); Emit (EmitCollecting 12);
     Invoke (seq 1 15); Emit (EmitPrediction 0 15);
     Invoke (seq 1 18); Emit (EmitPrediction 0 18)].
Proof. vm_compute. reflexivity. Qed.

(** After a disconnect the counter entry survives, but a new buffer starts
    a new count. *)
Example reconnect_restarts_count :
  let st := (run_frames (@empty_store nat) 7 (fun _ : list nat => Some 0)
               (Landmarks ∘ Some <$> seq 1 4)).1 in
  let st' := handle_disconnect st (Some 7) in
  frame_counters st' !! 7 = Some 4 ∧ appended_frames st' 7 = 0 ∧
  (run_frames st' 7 (fun _ : list nat => Some 0)
     (Landmarks ∘ Some <$> seq 5 3)).2 = [Emit (EmitCollecting 3)].
Proof. vm_compute. done. Qed.

(** C7, on a session that has buffered three frames. *)
Lemma five_no_hand_frames_reset_witness :
  let st := (run_frames (@empty_store nat) 7 (fun _ => Some 0)
               (Landmarks ∘ Some <$> [1; 2; 3])).1 in
  user_buffers st !! 7 = Some [1; 2; 3] ∧
  let st' := (run_frames st 7 (fun _ => Some 0)
                (replicate 5 (Landmarks None))).1 in
  user_buffers st' !! 7 = Some [] ∧ frame_counters st' !! 7 = Some 0.
Proof.
  cbn zeta. split; [vm_compute; reflexivity|].
  apply (five_no_hand_frames_reset (result := nat) _ 7 _ [1; 2; 3]).
  vm_compute. reflexivity.
Defined.

(** C8. Ten consecutive frames without hands in a fresh session produce
    two "No hands detected" notices (at the 1st and the 6th frame): the
    streak is reset to 0 when it reaches 5, so it never gets past 4 and
    [streak % 10 == 1] holds every 5th frame. *)
Lemma no_hands_notice_every_five :
  (run_frames (@empty_store nat) 7 (fun _ : list nat => Some 0)
     (replicate 10 (Landmarks None))).2
  = [Emit EmitNoHands; Emit EmitNoHands] ∧
  List.map (fun n => length (run_frames (@empty_store nat) 7
                               (fun _ : list nat => Some 0)
                               (replicate n (Landmarks None))).2)
           [1; 5; 6; 10]
  = [1; 1; 2; 2].
Proof. split; vm_compute; reflexivity. Qed.

(* --------------------------------------------------------------------- *)
(** ** 2. Room coordinator                                                 *)
(* --------------------------------------------------------------------- *)

Example start_rejected_message :
  (handle_start_game (world_abcdef false) (Some 1) (Some "ABCDEF")).2
  = [ErrorToRequester "Not all cameras ready. 2/3 ready."].
Proof. vm_compute. reflexivity. Qed.

Example start_accepted :
  let r := handle_start_game (world_abcdef true) (Some 1) (Some "ABCDEF") in
  r.2 = [StartGameCountdown "ABCDEF"] ∧
  game_states r.1 !! "ABCDEF" = Some (mk_game_state (Some true)) ∧
  (scores_saved <$> rooms r.1 !! "ABCDEF") = Some (Some false).
Proof. vm_compute. done. Qed.

Example scenario_scores :
  let w := (handle_start_game (world_abcdef true) (Some 1) (Some "ABCDEF")).1 in
  let r := run_end_games w "ABCDEF"
             [(1, Some 10%Z); (2, Some 20%Z); (1, Some 15%Z); (3, Some 5%Z);
              (1, Some 15%Z)] in
  persist_count r.2 = 1 ∧
  game_sessions_table (db r.1)
  = [mk_session_row 1 1 15%Z; mk_session_row 2 1 20%Z;
     mk_session_row 3 1 5%Z].
Proof. vm_compute. done. Qed.

Section RoomFacts.

Implicit Types (w : world) (r : room) (code : string) (u : user_id)
               (d : list (user_id * score)).




Lemma dict_set_length_absent u (s : score) d :
  dict_get u d = None -> length (dict_set u s d) = S (length d).
Proof.
  induction d as [|[k v] d IH]; simpl; intros Hx; [done|].
  destruct (decide (k = u)); simpl; [done|].
  f_equal. by apply IH.
Qed.


Lemma dict_set_nonempty u (s : score) d : dict_set u s d ≠ [].
Proof. destruct d as [|[k v] d]; simpl; [done|]. by destruct (decide _). Qed.


(** [save_game_results] writes only through the gate. *)
Lemma save_game_results_gate w code :
  LogScoresSaved code ∈ (save_game_results w code).2 ->
  ∃ r fs, rooms w !! code = Some r ∧ final_scores r = Some fs ∧
          unsaved r ∧ length (participants r) <= length fs.
Proof.
  unfold save_game_results, unsaved.
  destruct (rooms w !! code) as [r|]; [|by intros ?%elem_of_nil].
  destruct (final_scores r) as [fs|] eqn:Efs; [|by intros ?%elem_of_nil].
  destruct (default false (scores_saved r)) eqn:Esv;
    [by intros ?%elem_of_nil|].
  destruct (length fs <? length (participants r)) eqn:Elt.
  - intros H%list_elem_of_singleton. discriminate.
  - apply Nat.ltb_ge in Elt. intros _. by exists r, fs.
Qed.

Lemma save_game_results_saved w code r :
  rooms w !! code = Some r -> scores_saved r = Some true ->
  save_game_results w code = (w, []).
Proof.
  intros Hr Hs. unfold save_game_results. rewrite Hr.
  destruct (final_scores r); [|done]. by rewrite Hs.
Qed.

Ltac solve_view :=
  unfold room_view; cbn [rooms game_states db fst snd];
  rewrite ?lookup_insert_eq; repeat split; (done || by eexists).

(** One end-game signal in a room whose scores are not saved yet. *)
Lemma handle_end_game_unsaved w code r row u sc :
  room_view w code r row -> unsaved r ->
  let r1 := with_score r u sc in
  let res := (handle_end_game w code u sc).1 in
  match final_scores r1 with
  | None => room_view res.1 code r1 row ∧ res.2 = []
  | Some fs =>
      if length fs <? length (participants r) then
        room_view res.1 code r1 row ∧ res.2 = [LogWaitingForScores code]
      else
        room_view res.1 code
          (set_final_scores [] (set_scores_saved true r1)) row ∧
        res.2 = [LogScoresSaved code] ∧
        game_sessions_table (db res.1)
        = game_sessions_table (db w)
          ++ score_rows (row_id row) (row_creator_id row)
                        (default true (creator_participated r)) fs
  end.
Proof.
  intros (Hr & [g Hg] & Hrow) Hu. cbn zeta.
  unfold handle_end_game. rewrite Hg. unfold unsaved in Hu.
  destruct sc as [s|]; cbn [with_score rooms].
  - rewrite Hr. cbn [fst]. unfold save_game_results.
    cbn [rooms]. rewrite lookup_insert_eq.
    cbn [final_scores set_final_scores scores_saved participants].
    rewrite Hu.
    destruct (length _ <? length (participants r)) eqn:Elt.
    + solve_view.
    + cbn [db]. rewrite Hrow. solve_view.
  - cbn [fst]. unfold save_game_results. cbn [rooms]. rewrite Hr.
    destruct (final_scores r) as [fs|] eqn:Efs.
    + rewrite Hu.
      destruct (length fs <? length (participants r)) eqn:Elt.
      * solve_view.
      * cbn [db]. rewrite Hrow. solve_view.
    + solve_view.
Qed.

(** One end-game signal in a room whose scores are saved. *)
Lemma handle_end_game_saved w code r row u sc :
  room_view w code r row -> scores_saved r = Some true ->
  let res := (handle_end_game w code u sc).1 in
  room_view res.1 code (with_score r u sc) row ∧ res.2 = [] ∧
  db res.1 = db w.
Proof.
  intros (Hr & [g Hg] & Hrow) Hs. cbn zeta.
  unfold handle_end_game. rewrite Hg.
  destruct sc as [s|]; cbn [with_score rooms].
  - rewrite Hr. cbn [fst].
    erewrite save_game_results_saved;
      [| cbn [rooms]; apply lookup_insert_eq | done].
    solve_view.
  - cbn [fst]. erewrite save_game_results_saved; [| exact Hr | done].
    solve_view.
Qed.

Lemma run_end_games_cons w code u sc rest :
  run_end_games w code ((u, sc) :: rest) =
  let r1 := (handle_end_game w code u sc).1 in
  let r2 := run_end_games r1.1 code rest in
  (r2.1, r1.2 ++ r2.2).
Proof.
  cbn [run_end_games].
  destruct (handle_end_game w code u sc) as [[w1 e1] o]. cbn zeta. cbn [fst snd].
  destruct (run_end_games w1 code rest) as [w2 e2]. reflexivity.
Qed.

Lemma persist_count_app e1 e2 :
  persist_count (e1 ++ e2) = persist_count e1 + persist_count e2.
Proof. unfold persist_count. by rewrite List.filter_app, length_app. Qed.

Lemma with_score_scores_saved r u sc :
  scores_saved (with_score r u sc) = scores_saved r.
Proof. by destruct sc. Qed.

Lemma with_score_participants r u sc :
  participants (with_score r u sc) = participants r.
Proof. by destruct sc. Qed.

(** Once the scores are marked saved, further end-game signals write
    nothing. *)
Lemma saved_no_more signals w code r row :
  room_view w code r row -> scores_saved r = Some true ->
  let res := run_end_games w code signals in
  persist_count res.2 = 0 ∧ db res.1 = db w.
Proof.
  revert w r. induction signals as [|[u sc] rest IH]; intros w r Hv Hs;
    [done|].
  rewrite run_end_games_cons. cbn zeta. cbn [fst snd].
  destruct (handle_end_game_saved w code r row u sc Hv Hs)
    as (Hv1 & He & Hdb).
  rewrite He. cbn [app].
  destruct (IH _ _ Hv1) as [Hc Hd]; [by rewrite with_score_scores_saved|].
  split; [done | congruence].
Qed.

(** Before the scores are saved they are written at most once. *)
Lemma unsaved_at_most_once signals w code r row :
  room_view w code r row -> unsaved r ->
  persist_count (run_end_games w code signals).2 <= 1.
Proof.
  revert w r. induction signals as [|[u sc] rest IH]; intros w r Hv Hu.
  - cbn. lia.
  - rewrite run_end_games_cons. cbn zeta. cbn [snd].
    rewrite persist_count_app.
    pose proof (handle_end_game_unsaved w code r row u sc Hv Hu) as H.
    cbn zeta in H.
    destruct (final_scores (with_score r u sc)) as [fs|].
    + destruct (length fs <? length (participants r)).
      * destruct H as [Hv1 ->].
        specialize (IH _ _ Hv1). cbn.
        apply IH. unfold unsaved. by rewrite with_score_scores_saved.
      * destruct H as (Hv1 & -> & _).
        destruct (saved_no_more rest _ _ _ _ Hv1 eq_refl) as [-> _].
        cbn. lia.
    + destruct H as [Hv1 ->]. cbn.
      apply (IH _ _ Hv1). unfold unsaved.
      by rewrite with_score_scores_saved.
Qed.


End RoomFacts.

(** The start-game gate: the countdown is broadcast exactly when every
    camera entry is ready and there is at least one; otherwise the requester
    gets the "N/M ready" error and the room and the store are untouched,
    but the room's game state has already been marked as ongoing. *)
Lemma handle_start_game_gate (w : world) (u : user_id) (c : string) (r : room) :
  rooms w !! c = Some r ->
  let cs := default ∅ (camera_status r) in
  let res := handle_start_game w (Some u) (Some c) in
  game_states res.1 = <[c := mk_game_state (Some true)]> (game_states w) ∧
  (ready_users cs = size cs ∧ 0 < size cs ->
     res.2 = [StartGameCountdown c] ∧
     (scores_saved <$> rooms res.1 !! c) = Some (Some false)) ∧
  (¬ (ready_users cs = size cs ∧ 0 < size cs) ->
     res.2 = [ErrorToRequester (not_ready_message (ready_users cs) (size cs))] ∧
     rooms res.1 = rooms w ∧ db res.1 = db w).
Proof.
  intros Hr. cbn zeta. unfold handle_start_game. rewrite Hr.
  destruct (bool_decide (ready_users (default ∅ (camera_status r))
                         = size (default ∅ (camera_status r)))) eqn:E1;
    [apply bool_decide_eq_true in E1 | apply bool_decide_eq_false in E1];
    (destruct (0 <? size (default ∅ (camera_status r))) eqn:E2;
     [apply Nat.ltb_lt in E2 | apply Nat.ltb_ge in E2]);
    cbn [andb fst snd game_states rooms db].
  - unfold save_game_instance_to_db. cbn [rooms game_states db].
    rewrite lookup_insert_eq. cbn [game_states rooms].
    rewrite lookup_insert_eq. split; [done|]. split; [done|]. intros []; done.
  - split; [done|]. split; [lia | done].
  - split; [done|]. split; [intros []; done | done].
  - split; [done|]. split; [lia | done].
Qed.

(** C2. In the scenario room with two of three cameras ready, the start
    request is rejected with "2/3 ready", and the rejected request has
    marked the room's game as ongoing. *)
Lemma rejected_start_marks_ongoing :
  let w := world_abcdef false in
  let res := handle_start_game w (Some 1) (Some "ABCDEF") in
  game_states w !! "ABCDEF" = None ∧
  res.2 = [ErrorToRequester "Not all cameras ready. 2/3 ready."] ∧
  rooms res.1 = rooms w ∧
  game_states res.1 !! "ABCDEF" = Some (mk_game_state (Some true)).
Proof. vm_compute. done. Qed.

(* --------------------------------------------------------------------- *)
(** ** 3. Feature extractor                                                *)
(* --------------------------------------------------------------------- *)

(** Closed facts about rationals are decided by evaluation. *)
Ltac qc_decide := apply (bool_decide_unpack _); vm_compute; exact I.

Lemma of_nat_0 : of_nat 0 = 0%Qc.
Proof. qc_decide. Qed.

Lemma Qcminus_diag (x : Qc) : (x - x)%Qc = 0%Qc.
Proof. unfold Qcminus. apply Qcplus_opp_r. Qed.

Lemma allclose2_origin : allclose2 origin2 = true.
Proof. vm_compute. reflexivity. Qed.

Lemma pad_to_length {A : Type} (n : nat) (x : A) (l : list A) :
  length (pad_to n x l) = n `max` length l.
Proof. unfold pad_to. rewrite length_app, length_replicate. lia. Qed.

Lemma fit_length (n : nat) (l : list Qc) : length (fit n l) = n.
Proof. unfold fit. rewrite length_take, pad_to_length. lia. Qed.

(** A list of exactly [n] entries passes [fit n] unchanged. *)
Lemma fit_exact (n : nat) (l : list Qc) : length l = n -> fit n l = l.
Proof.
  intros H. unfold fit, pad_to. rewrite H, Nat.sub_diag. simpl.
  rewrite app_nil_r. apply firstn_all2. lia.
Qed.

(** *** The wrist after normalisation *)

Lemma normalize_hand_wrist (pts : list point3) :
  nth 0 (normalize_hand pts) origin3 = origin3.
Proof.
  unfold normalize_hand.
  destruct pts as [|[[x y] z] pts]; [reflexivity|]. cbn [nth fst snd].
  destruct (nonzero x || nonzero y || nonzero z) eqn:E.
  - cbn [map nth]. unfold sub3. cbn [fst snd].
    by rewrite !Qcminus_diag.
  - apply orb_false_elim in E as [E Ez]. apply orb_false_elim in E as [Ex Ey].
    unfold nonzero in *.
    apply negb_false_iff, bool_decide_eq_true in Ex, Ey, Ez. by subst.
Qed.

Lemma normalize_sequence_wrist (a : landmarks_array) (h : nat) :
  Forall (fun p => p = origin2) (wrist_xy (normalize_sequence a) h).
Proof.
  unfold wrist_xy, normalize_sequence. rewrite List.map_map.
  apply Forall_forall. intros p Hp. apply list_elem_of_In in Hp.
  apply in_map_iff in Hp as (fr & <- & _).
  destruct (decide (h < length fr)) as [Hlt|Hge].
  - rewrite (nth_indep _ [] (normalize_hand [])) by (rewrite length_map; lia).
    rewrite map_nth, normalize_hand_wrist. reflexivity.
  - rewrite (nth_overflow (map normalize_hand fr))
      by (rewrite length_map; lia).
    reflexivity.
Qed.

Lemma filter_none {A : Type} (f : A -> bool) (l : list A) :
  Forall (fun x => f x = false) l -> List.filter f l = [].
Proof.
  induction 1 as [|x l Hx _ IH]; [reflexivity|]. simpl. by rewrite Hx.
Qed.

Lemma adjacent_Forall {A : Type} (P : A -> Prop) (l : list A) :
  Forall P l -> Forall (fun pq => P pq.1 ∧ P pq.2) (adjacent l).
Proof.
  induction l as [|a [|b t] IH]; intros H; try constructor.
  - inversion H as [|? ? Ha Ht]; subst. inversion Ht; subst. done.
  - apply IH. by inversion H.
Qed.

(** No step between two wrists at the origin counts as motion. *)
Lemma moving_steps_origin (l : list point2) :
  Forall (fun p => p = origin2) l ->
  List.filter (fun pq : point2 * point2 =>
                 negb (allclose2 pq.2 || allclose2 pq.1)) (adjacent l) = [].
Proof.
  intros H. apply filter_none.
  eapply Forall_impl; [apply adjacent_Forall, H|].
  intros [p q] [-> ->]. cbn [fst snd]. by rewrite allclose2_origin.
Qed.

Lemma valid_positions_origin (l : list point2) :
  Forall (fun p => p = origin2) l ->
  List.filter (fun pos => negb (allclose2 pos)) l = [].
Proof.
  intros H. apply filter_none. eapply Forall_impl; [exact H|].
  intros p ->. by rewrite allclose2_origin.
Qed.

Lemma separations_origin (l r : list point2) :
  Forall (fun p => p = origin2) l ->
  List.filter (fun lr : point2 * point2 =>
                 negb (allclose2 lr.1 || allclose2 lr.2)) (zip l r) = [].
Proof.
  intros H. apply filter_none. revert r.
  induction H as [|p l -> _ IH]; intros [|q r]; constructor.
  - cbn [fst snd]. by rewrite allclose2_origin.
  - apply IH.
Qed.

Section WristAtOrigin.

Context {M : MathLib}.
Variable a : landmarks_array.
Hypothesis wrist_origin : ∀ h, Forall (fun p => p = origin2) (wrist_xy a h).

Lemma wrist_velocities_nil (h : nat) : wrist_velocities a h = [].
Proof.
  unfold wrist_velocities. by rewrite moving_steps_origin.
Qed.

Lemma temporal_hand_zero (h : nat) : temporal_hand a h = replicate 6 0%Qc.
Proof.
  unfold temporal_hand. destruct (_ || _); [reflexivity|].
  rewrite wrist_velocities_nil. cbn. by rewrite of_nat_0.
Qed.

Lemma temporal_features_zero :
  extract_enhanced_temporal_features a = replicate 12 0%Qc.
Proof.
  unfold extract_enhanced_temporal_features.
  by rewrite !temporal_hand_zero.
Qed.

Lemma trajectory_hand_zero (h : nat) : trajectory_hand a h = replicate 8 0%Qc.
Proof.
  unfold trajectory_hand. destruct (_ <=? _); [reflexivity|].
  by rewrite valid_positions_origin.
Qed.

Lemma trajectory_features_zero :
  extract_trajectory_features a = replicate 16 0%Qc.
Proof.
  unfold extract_trajectory_features. by rewrite !trajectory_hand_zero.
Qed.

Lemma hand_motion_zero (h : nat) : calculate_hand_motion a h = 0%Qc.
Proof.
  unfold calculate_hand_motion. destruct (_ || _); [reflexivity|].
  by rewrite moving_steps_origin.
Qed.

Lemma hand_synchronization_zero : calculate_hand_synchronization a = 0%Qc.
Proof.
  unfold calculate_hand_synchronization. destruct (_ || _); [reflexivity|].
  by rewrite !moving_steps_origin.
Qed.

Lemma global_features_zero (frames : list frame) :
  ∃ avg_hands complexity,
    extract_global_features a frames
    = [avg_hands; 0%Qc; 0%Qc; 0%Qc; 0%Qc; complexity].
Proof.
  eexists _, _. unfold extract_global_features.
  rewrite !hand_motion_zero, hand_synchronization_zero, separations_origin
    by done.
  rewrite Qcplus_0_l.
  assert (bool_decide (0 < 0)%Qc = false) as -> by (vm_compute; reflexivity).
  cbn [map length Nat.ltb Nat.leb]. rewrite Tauto.if_same.
  cbn zeta. rewrite fit_exact by reflexivity. reflexivity.
Qed.

End WristAtOrigin.

(** *** The shape of the preprocessed array *)

Lemma read_hand_length (h : hand) (pts : list point3) :
  read_hand h = Some pts -> length pts = 21.
Proof.
  unfold read_hand. intros H. apply length_mapM in H. rewrite <- H.
  rewrite length_take, pad_to_length. lia.
Qed.

Lemma read_frame_shape (f : frame) (fr : list (list point3)) :
  read_frame f = Some fr ->
  length fr = 2 ∧ Forall (fun pts => length pts = 21) fr.
Proof.
  unfold read_frame. intros H. split.
  - apply length_mapM in H. rewrite <- H.
    rewrite length_take, pad_to_length. lia.
  - apply mapM_Some in H. induction H as [|h pts hs fr Hh _ IH]; constructor.
    + by eapply read_hand_length.
    + exact IH.
Qed.

Lemma read_frames_shape (frames : list frame) (a : landmarks_array) :
  mapM read_frame frames = Some a ->
  length a = length frames ∧ well_shaped a.
Proof.
  intros H. split; [symmetry; by eapply length_mapM|].
  apply mapM_Some in H. induction H as [|f fr fs a Hf _ IH]; constructor.
  - by eapply read_frame_shape.
  - exact IH.
Qed.

Lemma smooth_sequence_shape (a : landmarks_array) :
  well_shaped a ->
  length (smooth_sequence a) = length a ∧ well_shaped (smooth_sequence a).
Proof.
  intros Ha. unfold smooth_sequence.
  destruct (length a <? 3) eqn:E; [done|].
  apply Nat.ltb_ge in E.
  destruct a as [|fr0 a']; [simpl in E; lia|].
  inversion Ha as [|? ? [H2 H21] _]; subst.
  assert (Hs1 : shape1 (fr0 :: a') = 2) by exact H2.
  assert (Hs2 : shape2 (fr0 :: a') = 21).
  { unfold shape2. cbn [nth]. destruct fr0 as [|pts fr0]; [done|].
    cbn [nth]. by inversion H21. }
  rewrite Hs1, Hs2. split; [by rewrite length_map, length_seq|].
  apply Forall_forall. intros fr Hfr. apply list_elem_of_In in Hfr.
  apply in_map_iff in Hfr as (i & <- & _).
  split; [by rewrite length_map, length_seq|].
  apply Forall_forall. intros pts Hpts. apply list_elem_of_In in Hpts.
  apply in_map_iff in Hpts as (h & <- & _).
  by rewrite length_map, length_seq.
Qed.

Lemma normalize_hand_length (pts : list point3) :
  length (normalize_hand pts) = length pts.
Proof.
  unfold normalize_hand. destruct (_ || _); [apply length_map | done].
Qed.

Lemma normalize_sequence_shape (a : landmarks_array) :
  well_shaped a ->
  length (normalize_sequence a) = length a ∧
  Forall (fun fr => length fr = 2 ∧
                    Forall (fun pts => length pts = 21 ∧
                                       nth 0 pts origin3 = origin3) fr)
         (normalize_sequence a).
Proof.
  intros Ha. unfold normalize_sequence. split; [apply length_map|].
  induction Ha as [|fr a [H2 H21] _ IH]; cbn [map]; constructor; [|exact IH].
  split; [by rewrite length_map|].
  clear H2. induction H21 as [|pts fr Hp _ IHfr]; cbn [map]; constructor.
  - split; [by rewrite normalize_hand_length | apply normalize_hand_wrist].
  - exact IHfr.
Qed.

(** What a successful [preprocess_sequence] returns. *)
Lemma preprocess_sequence_spec (frames frames' : list frame)
    (a : landmarks_array) :
  preprocess_sequence frames = Some (frames', a) ->
  frames' = map padded_frame frames ∧
  length a = length frames ∧
  Forall (fun fr => length fr = 2 ∧
                    Forall (fun pts => length pts = 21 ∧
                                       nth 0 pts origin3 = origin3) fr) a ∧
  ∀ h, Forall (fun p => p = origin2) (wrist_xy a h).
Proof.
  unfold preprocess_sequence.
  destruct (mapM read_frame frames) as [b|] eqn:Eb; [|done].
  intros [= <- <-].
  destruct (read_frames_shape _ _ Eb) as [Hlen Hb].
  destruct (smooth_sequence_shape b Hb) as [Hlen' Hs].
  destruct (normalize_sequence_shape _ Hs) as [Hlen'' Hn].
  repeat split; [congruence | exact Hn |].
  intros h. apply normalize_sequence_wrist.
Qed.

Section ExtractorFacts.

Context {M : MathLib}.

Lemma extract_sequence_features_Some (frames : list frame) (v : list Qc) :
  extract_sequence_features frames = Some v ->
  5 <= length frames ∧
  ∃ frames' a,
    preprocess_sequence frames = Some (frames', a) ∧
    v = extract_spatial_features a
        ++ extract_enhanced_temporal_features a
        ++ extract_geometric_features a
        ++ extract_statistical_features a
        ++ extract_trajectory_features a
        ++ extract_global_features a frames'.
Proof.
  unfold extract_sequence_features.
  destruct (length frames <? 5) eqn:E; [done|]. apply Nat.ltb_ge in E.
  destruct (preprocess_sequence frames) as [[frames' a]|]; [|done].
  intros [= <-]. split; [done|]. by exists frames', a.
Qed.

Lemma extract_global_features_length (a : landmarks_array)
    (frames : list frame) :
  length (extract_global_features a frames) = 6.
Proof. unfold extract_global_features. apply fit_length. Qed.

Lemma extract_sequence_features_length (frames : list frame) (v : list Qc) :
  extract_sequence_features frames = Some v -> length v = 76.
Proof.
  intros H. apply extract_sequence_features_Some in H
    as (_ & frames' & a & _ & ->).
  rewrite !length_app.
  unfold extract_spatial_features, extract_enhanced_temporal_features,
    extract_geometric_features, extract_statistical_features,
    extract_trajectory_features.
  by rewrite !fit_length, extract_global_features_length.
Qed.

(** C4 (amended). A feature vector returned by the extractor has exactly
    76 entries: 30 spatial, 12 temporal, 4 geometric, 8 statistical, 16
    trajectory and 6 global features, in this order; the list of feature
    names has the same length. *)
Theorem feature_vector_layout (frames : list frame) (v : list Qc) :
  extract_sequence_features frames = Some v ->
  ∃ frames' a,
    preprocess_sequence frames = Some (frames', a) ∧
    v = extract_spatial_features a
        ++ extract_enhanced_temporal_features a
        ++ extract_geometric_features a
        ++ extract_statistical_features a
        ++ extract_trajectory_features a
        ++ extract_global_features a frames' ∧
    length (extract_spatial_features a) = 30 ∧
    length (extract_enhanced_temporal_features a) = 12 ∧
    length (extract_geometric_features a) = 4 ∧
    length (extract_statistical_features a) = 8 ∧
    length (extract_trajectory_features a) = 16 ∧
    length (extract_global_features a frames') = 6 ∧
    length v = 76 ∧ length v = length feature_names.
Proof.
  intros H. pose proof (extract_sequence_features_length _ _ H) as Hlen.
  apply extract_sequence_features_Some in H
    as (_ & frames' & a & Hp & ->).
  exists frames', a. split; [exact Hp|]. split; [reflexivity|].
  unfold extract_spatial_features, extract_enhanced_temporal_features,
    extract_geometric_features, extract_statistical_features,
    extract_trajectory_features.
  rewrite !fit_length, extract_global_features_length.
  repeat split; try reflexivity; exact Hlen.
Qed.

(** C5. A window of fewer than 5 frames yields [None], and [None] is
    returned only for such a window or when preprocessing fails. *)
Theorem extract_none_iff (frames : list frame) :
  (length frames < 5 -> extract_sequence_features frames = None) ∧
  (extract_sequence_features frames = None <->
   length frames < 5 ∨ preprocess_sequence frames = None).
Proof.
  unfold extract_sequence_features.
  destruct (length frames <? 5) eqn:E.
  - apply Nat.ltb_lt in E. split; [done|]. split; [by left | done].
  - apply Nat.ltb_ge in E. split; [lia|].
    destruct (preprocess_sequence frames) as [[frames' a]|].
    + split; [done|]. intros [?|?]; [lia | done].
    + split; [by right | done].
Qed.

(** On the array of exact values, where every wrist is the origin, the 12
    temporal features (entries 30..41), the 16 trajectory features (entries
    54..69) and the global features 71..74 (separation change, relative
    motion, dominant-hand activity, synchronisation) are 0. *)
Lemma wrist_features_zero (frames : list frame) (v : list Qc) :
  extract_sequence_features frames = Some v ->
  ∃ frames' a,
    preprocess_sequence frames = Some (frames', a) ∧
    length a = length frames ∧
    Forall (fun fr => length fr = 2 ∧
                      Forall (fun pts => length pts = 21 ∧
                                         nth 0 pts origin3 = origin3) fr) a ∧
    extract_enhanced_temporal_features a = replicate 12 0%Qc ∧
    extract_trajectory_features a = replicate 16 0%Qc ∧
    take 12 (drop 30 v) = replicate 12 0%Qc ∧
    take 16 (drop 54 v) = replicate 16 0%Qc ∧
    take 4 (drop 71 v) = replicate 4 0%Qc.
Proof.
  intros H. apply extract_sequence_features_Some in H
    as (_ & frames' & a & Hp & ->).
  exists frames', a. split; [exact Hp|].
  destruct (preprocess_sequence_spec _ _ _ Hp) as (_ & Hlen & Hshape & Hw).
  split; [exact Hlen|]. split; [exact Hshape|].
  pose proof (temporal_features_zero a Hw) as Ht.
  pose proof (trajectory_features_zero a Hw) as Htr.
  destruct (global_features_zero a Hw frames') as (avg & cx & Hg).
  split; [exact Ht|]. split; [exact Htr|].
  rewrite Ht, Htr, Hg.
  unfold extract_spatial_features, extract_geometric_features,
    extract_statistical_features.
  set (s := fit 30 _). set (g := fit 4 _). set (st := fit 8 _).
  assert (Hs : length s = 30) by apply fit_length.
  assert (Hgl : length g = 4) by apply fit_length.
  assert (Hst : length st = 8) by apply fit_length.
  split; [|split].
  - rewrite drop_app_length' by done. by rewrite take_app_length' by done.
  - rewrite (app_assoc s), (app_assoc _ g), (app_assoc _ st).
    rewrite drop_app_length'
      by (rewrite !length_app, Hs, Hgl, Hst, length_replicate; done).
    by rewrite take_app_length' by done.
  - rewrite (app_assoc s), (app_assoc _ g), (app_assoc _ st),
      (app_assoc _ (replicate 16 _)).
    change [avg; 0%Qc; 0%Qc; 0%Qc; 0%Qc; cx]
      with ([avg] ++ [0%Qc; 0%Qc; 0%Qc; 0%Qc; cx]).
    rewrite (app_assoc _ [avg]).
    rewrite drop_app_length'
      by (rewrite !length_app, Hs, Hgl, Hst, !length_replicate; done).
    reflexivity.
Qed.

(** The first global feature is the mean number of entries of the [hands]
    lists as [preprocess_sequence] leaves them. *)
Lemma avg_hands_detected_value (frames : list frame) (v : list Qc) :
  extract_sequence_features frames = Some v ->
  nth 70 v 0%Qc
  = mean (map (fun f => of_nat (length (default [] (frame_hands (padded_frame f)))))
              frames).
Proof.
  intros H. apply extract_sequence_features_Some in H
    as (_ & frames' & a & Hp & ->).
  destruct (preprocess_sequence_spec _ _ _ Hp) as (-> & _).
  unfold extract_spatial_features, extract_enhanced_temporal_features,
    extract_geometric_features, extract_statistical_features,
    extract_trajectory_features.
  set (s := fit 30 _). set (t := fit 12 _). set (g := fit 4 _).
  set (st := fit 8 _). set (tr := fit 16 _).
  rewrite (app_assoc s), (app_assoc _ g), (app_assoc _ st), (app_assoc _ tr).
  rewrite app_nth2; rewrite !length_app; unfold s, t, g, st, tr;
    rewrite !fit_length; [|lia].
  change (30 + 12 + 4 + 8 + 16) with 70. rewrite Nat.sub_diag.
  unfold extract_global_features, fit, pad_to. cbn [length Nat.sub replicate].
  rewrite List.map_map. reflexivity.
Qed.

(** The padding leaves at least two entries in a stored [hands] list. *)
Lemma padded_frame_hands (f : frame) (hs : list hand) :
  frame_hands f = Some hs ->
  length (default [] (frame_hands (padded_frame f))) = 2 `max` length hs.
Proof.
  intros H. unfold padded_frame. rewrite H. cbn.
  rewrite length_app, length_map, length_take, length_drop, pad_to_length.
  lia.
Qed.

End ExtractorFacts.

Example feature_names_layout :
  length feature_names = 76 ∧
  take 2 (drop 30 feature_names) = ["hand0_avg_velocity"; "hand0_std_velocity"] ∧
  take 2 (drop 54 feature_names) = ["hand0_circularity"; "hand0_angularity"] ∧
  drop 70 feature_names
  = ["avg_hands_detected"; "hand_separation_change"; "relative_motion";
     "dominant_hand_activity"; "synchronization_score"; "overall_complexity"].
Proof. vm_compute. done. Qed.

(** A window of five one-hand frames is extracted. *)
Lemma one_hand_window_extracted :
  ∃ v, @extract_sequence_features approx_math (one_hand_window 5) = Some v.
Proof.
  destruct (@extract_sequence_features approx_math (one_hand_window 5))
    as [v|] eqn:E; [by exists v|].
  apply (f_equal (fun o : option (list Qc) => length (default [] o))) in E.
  vm_compute in E. discriminate.
Qed.

Example short_window_none :
  @extract_sequence_features approx_math (one_hand_window 4) = None.
Proof. reflexivity. Qed.

Example unreadable_coordinate_none :
  @extract_sequence_features approx_math
    (one_hand_window 5
     ++ [mk_frame (Some [mk_hand (Some [mk_landmark (Some NotANumber)
                                                    None None])])])
  = None.
Proof. vm_compute. reflexivity. Qed.

(** C4. The five-frame window of one-hand frames yields a vector of 76
    entries, not 146. *)
Lemma feature_vector_not_146 :
  5 <= length (one_hand_window 5) ∧
  ∃ v, @extract_sequence_features approx_math (one_hand_window 5) = Some v ∧
       length v = 76 ∧ length v ≠ 146.
Proof.
  split; [vm_compute; lia|].
  destruct one_hand_window_extracted as [v E]. exists v. split; [exact E|].
  apply (f_equal (fun o : option (list Qc) => length (default [] o))) in E.
  vm_compute in E.
  assert (length v = 76) as -> by (symmetry; exact E). split; [done | lia].
Qed.

(** C4 (amended), on the five-frame window of one-hand frames. *)
Lemma feature_vector_layout_witness :
  ∃ v, @extract_sequence_features approx_math (one_hand_window 5) = Some v ∧
       length v = 76 ∧ length v = length feature_names.
Proof.
  destruct one_hand_window_extracted as [v E]. exists v. split; [exact E|].
  destruct (feature_vector_layout (M := approx_math) _ _ E)
    as (frames' & a & _ & _ & _ & _ & _ & _ & _ & _ & H76 & Hn).
  split; [exact H76 | exact Hn].
Defined.

(** C10. Every frame of the window holds one detected hand, so the mean
    number of detected hands is 1; the extracted [avg_hands_detected] is 2,
    because [preprocess_sequence] has padded each frame's [hands] list to
    two entries before [extract_global_features] measures it. *)
Lemma avg_hands_detected_counts_padding :
  Forall (fun f => length (default [] (frame_hands f)) = 1)
         (one_hand_window 5) ∧
  mean (map (fun f => of_nat (length (default [] (frame_hands f))))
            (one_hand_window 5)) = 1%Qc ∧
  ∃ v, @extract_sequence_features approx_math (one_hand_window 5) = Some v ∧
       nth 70 v 0%Qc = 2%Qc.
Proof.
  split; [repeat constructor|]. split; [qc_decide|].
  destruct one_hand_window_extracted as [v E]. exists v. split; [exact E|].
  rewrite (avg_hands_detected_value (M := approx_math) _ _ E). qc_decide.
Qed.

(* --------------------------------------------------------------------- *)
(** ** 4. Classifier adapter                                               *)
(* --------------------------------------------------------------------- *)

Lemma scaler_rejects_other_length (art : artifact) (features : list Qc) :
  length features ≠ scaler_n_features art ->
  scaler_transform art features = None.
Proof.
  intros H. unfold scaler_transform. apply Nat.eqb_neq in H. by rewrite H.
Qed.

(** C9 (amended). A feature vector whose length differs from the number of
    features the scaler was fitted on is answered with the result of the
    common [except] branch, ['prediction_error']; nothing is truncated or
    padded, and no prediction is made. *)
Theorem length_mismatch_prediction_error (art : artifact)
    (features : list Qc) :
  length features ≠ scaler_n_features art ->
  scaler_transform art features = None ∧
  predict_from_features art features = PredictionError.
Proof.
  intros H. unfold predict_from_features.
  by rewrite scaler_rejects_other_length.
Qed.

(** C9 (amended), on a 76-entry vector and an artifact fitted on 46
    features. *)
Lemma length_mismatch_prediction_error_witness :
  length (replicate 76 0%Qc) ≠ scaler_n_features artifact_46 ∧
  predict_from_features artifact_46 (replicate 76 0%Qc) = PredictionError.
Proof.
  assert (H : length (replicate 76 0%Qc) ≠ scaler_n_features artifact_46)
    by (vm_compute; lia).
  split; [exact H|].
  exact (proj2 (length_mismatch_prediction_error artifact_46 _ H)).
Defined.

(** C9. A 76-entry vector given to an artifact fitted on 46 features gets
    the same answer as a vector of the right length whose predicted class
    the label encoder cannot decode: the length mismatch has no result of
    its own. *)
Lemma length_mismatch_not_distinguished : ¬ mismatch_has_own_result.
Proof.
  intros H.
  apply (H artifact_46 (replicate 76 0%Qc)
           artifact_76_no_classes (replicate 76 0%Qc)).
  - vm_compute. lia.
  - reflexivity.
  - vm_compute. reflexivity.
Qed.

Example well_sized_vector_predicted :
  ∃ confidence probabilities,
    predict_from_features artifact_76 (replicate 76 0%Qc)
    = Predicted "Red" confidence probabilities.
Proof. eexists _, _. vm_compute. reflexivity. Qed.

(** The whole of [predict] on the one-hand window with the 46-feature
    artifact. *)
Example predict_with_old_artifact :
  predict (M := approx_math) (Some artifact_46) (one_hand_window 5)
  = PredictionError.
Proof.
  unfold predict.
  destruct one_hand_window_extracted as [v E]. rewrite E.
  change (length (one_hand_window 5) <? 5) with false. cbn iota.
  unfold predict_from_features. rewrite scaler_rejects_other_length; [done|].
  apply extract_sequence_features_length in E. rewrite E. vm_compute. lia.
Qed.

(* --------------------------------------------------------------------- *)
(** ** 5. Streaming session: buffer contents, isolation, rates             *)
(* --------------------------------------------------------------------- *)

Section StreamingMore.

Context {frame result : Type}.
Implicit Types (st : fsl_store frame) (u v : user_id)
               (predict : predictor frame result) (x : frame)
               (buf xs : list frame).

Lemma push_frame_last buf x :
  length buf <= 30 -> push_frame buf x = last_frames 30 (buf ++ [x]).
Proof.
  intros H. unfold push_frame, last_frames. rewrite length_app. cbn [length].
  destruct (30 <? length buf + 1) eqn:E.
  - apply Nat.ltb_lt in E. replace (length buf + 1 - 30) with 1 by lia.
    by destruct (buf ++ [x]).
  - apply Nat.ltb_ge in E. by replace (length buf + 1 - 30) with 0 by lia.
Qed.

Lemma last_frames_length {A : Type} (n : nat) (l : list A) :
  length (last_frames n l) = length l `min` n.
Proof. unfold last_frames. rewrite length_drop. lia. Qed.

Lemma last_frames_app {A : Type} (n : nat) (l k : list A) :
  last_frames n (last_frames n l ++ k) = last_frames n (l ++ k).
Proof.
  unfold last_frames. rewrite !length_app, length_drop.
  destruct (decide (length l <= n)) as [Hle|Hgt].
  - replace (length l - n) with 0 by lia. cbn [drop].
    f_equal. lia.
  - replace (length l - (length l - n) + length k - n) with (length k) by lia.
    replace (length l + length k - n) with ((length l - n) + length k) by lia.
    rewrite <- drop_drop. by rewrite (drop_app_le l) by lia.
Qed.

Lemma session_ok_buffer_bound st u :
  session_ok st u -> length (default [] (user_buffers st !! u)) <= 30.
Proof.
  unfold session_ok.
  destruct (user_buffers st !! u) as [b|]; cbn; [|lia].
  destruct (frame_counters st !! u); [lia | done].
Qed.

Lemma on_hands_buffer st u predict x :
  user_buffers (on_hands st u predict x).1 !! u
  = Some (push_frame (default [] (user_buffers st !! u)) x).
Proof.
  rewrite on_hands_unfold. cbn zeta.
  destruct (match user_buffers st !! u with
            | None => Some 0 | Some _ => frame_counters st !! u end);
    [destruct (_ <? 15); [|destruct (negb _)] |];
    cbn [fst user_buffers]; apply lookup_insert_eq.
Qed.

Lemma on_hands_appended st u predict x :
  session_ok st u ->
  appended_frames (on_hands st u predict x).1 u = appended_frames st u + 1.
Proof.
  intros Hok. unfold appended_frames at 1. rewrite on_hands_buffer.
  rewrite on_hands_unfold. cbn zeta. unfold appended_frames, session_ok in *.
  destruct (user_buffers st !! u) as [b|];
    [destruct (frame_counters st !! u) as [c|]; [|done] |];
    (destruct (_ <? 15); [|destruct (negb _)]);
    cbn [fst frame_counters]; by rewrite lookup_insert_eq.
Qed.

(** X1. The buffer is a sliding window: after a run of frames with hands
    it holds the last 30 frames of what it held before followed by the new
    frames, and the counter has advanced by their number. *)
Theorem buffer_holds_last_30 st u predict xs :
  session_ok st u ->
  let st' := (run_frames st u predict (hand_frames xs)).1 in
  default [] (user_buffers st' !! u)
  = last_frames 30 (default [] (user_buffers st !! u) ++ xs) ∧
  length (default [] (user_buffers st' !! u)) <= 30 ∧
  appended_frames st' u = appended_frames st u + length xs.
Proof.
  revert st. induction xs as [|x xs IH]; intros st Hok; cbn zeta.
  - cbn [hand_frames map run_frames fst length]. rewrite app_nil_r.
    pose proof (session_ok_buffer_bound st u Hok) as Hb.
    unfold last_frames. replace (_ - 30) with 0 by lia.
    repeat split; [done | lia].
  - cbn [hand_frames map]. rewrite run_frames_cons. cbn zeta. cbn [fst].
    cbn [handle_process_fsl_frame].
    pose proof (on_hands_session_ok st u u predict x Hok) as Hok1.
    destruct (IH _ Hok1) as (Hbuf & Hlen & Hcnt).
    fold (hand_frames xs). rewrite Hbuf, Hcnt.
    rewrite on_hands_buffer, on_hands_appended by done. cbn [from_option id].
    rewrite push_frame_last by (by apply session_ok_buffer_bound).
    rewrite last_frames_app, <- app_assoc. cbn [app length].
    split; [done|]. split; [|lia].
    rewrite last_frames_length. lia.
Qed.

End StreamingMore.

(** X1, on 32 frames sent to a fresh session: frames 3..32 are kept. *)
Lemma buffer_holds_last_30_witness :
  session_ok (@empty_store nat) 7 ∧
  default [] (user_buffers
                (run_frames (@empty_store nat) 7 (fun _ => Some 0)
                            (hand_frames (seq 1 32))).1 !! 7)
  = seq 3 30.
Proof.
  assert (Hok : session_ok (@empty_store nat) 7) by exact I.
  split; [exact Hok|].
  destruct (buffer_holds_last_30 (result := nat) empty_store 7
              (fun _ => Some 0) (seq 1 32) Hok) as (H & _ & _).
  etransitivity; [exact H | reflexivity].
Defined.

Section StreamingIsolation.

Context {frame result : Type}.
Implicit Types (st : fsl_store frame) (u v : user_id)
               (predict : predictor frame result) (x : frame).

Lemma on_hands_other st u v predict x :
  u ≠ v -> session_of (on_hands st v predict x).1 u = session_of st u.
Proof.
  intros Hne. rewrite on_hands_unfold. cbn zeta. unfold session_of.
  destruct (match user_buffers st !! v with
            | None => Some 0 | Some _ => frame_counters st !! v end);
    [destruct (_ <? 15); [|destruct (negb _)] |];
    cbn [fst user_buffers frame_counters no_hands_streak];
    by rewrite !lookup_insert_ne by done.
Qed.

Lemma on_no_hands_other st u v :
  u ≠ v ->
  session_of (on_no_hands (result := result) st v).1 u = session_of st u.
Proof.
  intros Hne. rewrite on_no_hands_unfold. cbn zeta. unfold session_of.
  destruct (5 <=? _);
    cbn [fst user_buffers frame_counters no_hands_streak];
    [destruct (user_buffers st !! v)|];
    by rewrite ?lookup_insert_ne by done.
Qed.

(** X2. Whatever another user sends, and whether that user then leaves or
    disconnects, the buffer, the frame counter and the no-hands streak of
    user [u] stay as they are. *)
Theorem other_user_leaves_session_alone st u uid fsl_predictor data :
  uid ≠ Some u ->
  let st1 := (handle_process_fsl_frame (result := result) st uid
                                       fsl_predictor data).1 in
  session_of st1 u = session_of st u ∧
  session_of (handle_leave_fsl_learning st1 uid) u = session_of st u ∧
  session_of (handle_disconnect st1 uid) u = session_of st u.
Proof.
  intros Hne. cbn zeta.
  assert (H1 : session_of (handle_process_fsl_frame (result := result) st uid
                             fsl_predictor data).1 u = session_of st u).
  { unfold handle_process_fsl_frame.
    destruct uid as [v|]; [|done]. destruct fsl_predictor as [predict|]; [|done].
    destruct data as [|[x|]]; [done| |].
    - apply on_hands_other. congruence.
    - apply on_no_hands_other. congruence. }
  split; [exact H1|]. rewrite <- H1.
  destruct uid as [v|]; [|done].
  assert (u ≠ v) as Huv by congruence.
  unfold session_of, handle_leave_fsl_learning, handle_disconnect.
  cbn [user_buffers frame_counters no_hands_streak].
  by rewrite !lookup_delete_ne by done.
Qed.

Lemma mod3_succ (c : nat) :
  (c + 1) mod 3 <= c mod 3 + 1 ∧ ((c + 1) mod 3 = 0 -> c mod 3 = 2).
Proof.
  rewrite (Nat.Div0.add_mod c 1 3).
  pose proof (Nat.mod_upper_bound c 3).
  destruct (c mod 3) as [|[|[|?]]]; cbn; lia.
Qed.

Lemma on_hands_appended_any st u predict x :
  appended_frames (on_hands st u predict x).1 u
  = match (match user_buffers st !! u with
           | None => Some 0
           | Some _ => frame_counters st !! u end) with
    | Some c => c + 1
    | None => 0
    end.
Proof.
  unfold appended_frames at 1. rewrite on_hands_buffer.
  rewrite on_hands_unfold. cbn zeta.
  destruct (user_buffers st !! u) as [b|];
    [destruct (frame_counters st !! u) as [c|] eqn:Ec |];
    [destruct (_ <? 15); [|destruct (negb _)]
    | | destruct (_ <? 15); [|destruct (negb _)]];
    cbn [fst frame_counters]; rewrite ?lookup_insert_eq, ?Ec; done.
Qed.

(** One run of the handler invokes the classifier at most once, and only
    when the count of appended frames becomes a multiple of 3. *)
Lemma handler_invocations st u predict (p : payload frame) :
  let r := handle_process_fsl_frame st (Some u) (Some predict) p in
  invocations r.2 <= 1 ∧
  appended_frames r.1 u mod 3 <= appended_frames st u mod 3 + 1 ∧
  (is_hand_frame p = false ->
   invocations r.2 = 0 ∧
   appended_frames r.1 u mod 3 <= appended_frames st u mod 3) ∧
  (invocations r.2 = 1 ->
   appended_frames r.1 u mod 3 = 0 ∧ appended_frames st u mod 3 = 2).
Proof.
  cbn zeta. unfold handle_process_fsl_frame.
  destruct p as [|[x|]]; cbn [is_hand_frame].
  - cbn [fst snd]. unfold invocations.
    cbn [List.filter is_invoke length]. repeat split; (lia || done).
  - rewrite on_hands_appended_any. rewrite on_hands_unfold. cbn zeta.
    unfold appended_frames.
    destruct (user_buffers st !! u) as [b|];
      [destruct (frame_counters st !! u) as [c|] |]; cbn [from_option id].
    + destruct (mod3_succ c) as [Hm1 Hm2].
      destruct (_ <? 15); [destruct (_ =? 0)
                          | destruct ((c + 1) mod 3 =? 0) eqn:E3];
        cbn [negb snd]; unfold invocations;
        cbn [List.filter is_invoke length];
        try apply Nat.eqb_eq in E3;
        repeat split; try (intros; discriminate); try lia.
    + cbn [snd]. unfold invocations. cbn [List.filter is_invoke length].
      repeat split; try (intros; discriminate); lia.
    + change ((0 + 1) mod 3) with 1. change (negb (1 =? 0)) with true.
      destruct (_ <? 15); [destruct (_ =? 0)|];
        cbn [snd]; unfold invocations; cbn [List.filter is_invoke length];
        change (0 mod 3) with 0;
        repeat split; try (intros; discriminate); try lia.
  - rewrite on_no_hands_unfold. cbn zeta. unfold appended_frames.
    destruct (5 <=? _); cbn [fst snd user_buffers frame_counters].
    + destruct (user_buffers st !! u) as [b|] eqn:Eb.
      * rewrite !lookup_insert_eq. cbn [from_option id].
        unfold invocations. cbn [List.filter is_invoke length].
        change (0 mod 3) with 0.
        repeat split; try (intros; discriminate); lia.
      * rewrite Eb. unfold invocations. cbn [List.filter is_invoke length].
        repeat split; try (intros; discriminate); lia.
    + unfold invocations. destruct (_ =? 1);
        cbn [List.filter is_invoke length];
        repeat split; try (intros; discriminate); lia.
Qed.

Lemma invocations_app (a b : list (action frame result)) :
  invocations (a ++ b) = invocations a + invocations b.
Proof. unfold invocations. by rewrite List.filter_app, length_app. Qed.

(** X3. The classifier is called for at most every third frame with
    hands: over any stream of payloads of a user, three times the number
    of calls is at most the number of frames with hands, plus the position
    of the counter within its cycle of 3 at the start. *)
Theorem classifier_rate_limit st u predict (ps : list (payload frame)) :
  3 * invocations (run_frames st u predict ps).2
  <= length (List.filter is_hand_frame ps) + appended_frames st u mod 3.
Proof.
  revert st. induction ps as [|p ps IH]; intros st.
  - cbn. lia.
  - rewrite run_frames_cons. cbn zeta. cbn [snd]. rewrite invocations_app.
    destruct (handler_invocations st u predict p) as (H1 & H2 & H3 & H4).
    specialize (IH (handle_process_fsl_frame st (Some u) (Some predict) p).1).
    cbn [List.filter].
    destruct (is_hand_frame p) eqn:Ep; cbn [length].
    + destruct (decide (invocations
                  (handle_process_fsl_frame st (Some u) (Some predict) p).2
                = 1)) as [E1|E1].
      * destruct (H4 E1) as [Ha Hb]. lia.
      * lia.
    + destruct (H3 eq_refl) as [Ha Hb]. lia.
Qed.

End StreamingIsolation.

(** X2, on user 7 with two buffered frames while user 8 sends a frame and
    disconnects. *)
Lemma other_user_leaves_session_alone_witness :
  Some 8 ≠ Some 7 ∧
  session_of
    (handle_disconnect
       (handle_process_fsl_frame
          (run_frames (@empty_store nat) 7 (fun _ : list nat => Some 0)
                      (hand_frames [1; 2])).1
          (Some 8) (Some (fun _ : list nat => Some 0))
          (Landmarks (Some 9))).1
       (Some 8)) 7
  = (Some [1; 2], Some 2, Some 0).
Proof.
  assert (Hne : Some 8 ≠ Some 7) by discriminate.
  split; [exact Hne|].
  destruct (other_user_leaves_session_alone (result := nat)
              (run_frames (@empty_store nat) 7 (fun _ : list nat => Some 0)
                          (hand_frames [1; 2])).1
              7 (Some 8) (Some (fun _ : list nat => Some 0))
              (Landmarks (Some 9)) Hne) as (_ & _ & H).
  etransitivity; [exact H | reflexivity].
Defined.

(** In a fresh session, 32 frames give 6 classifier calls (at frames 15,
    18, ..., 30). *)
Example rate_limit_fresh_session :
  invocations (run_frames (@empty_store nat) 7 (fun _ : list nat => Some 0)
                          (hand_frames (seq 1 32))).2 = 6.
Proof. vm_compute. reflexivity. Qed.

Section StreamingRestart.

Context {frame result : Type}.
Implicit Types (st : fsl_store frame) (u v : user_id)
               (predict : predictor frame result) (x : frame).

Lemma no_hands_notices_app (a b : list (action frame result)) :
  no_hands_notices (a ++ b) = no_hands_notices a + no_hands_notices b.
Proof. unfold no_hands_notices. by rewrite List.filter_app, length_app. Qed.

(** A run of frames without hands that starts at streak [s]. *)
Lemma no_hands_run st u predict (n s : nat) :
  default 0 (no_hands_streak st !! u) = s -> s < 5 ->
  let r := run_frames st u predict (replicate n (Landmarks None)) in
  r.2 = replicate ((n + s + 4) / 5 - (s + 4) / 5) (Emit EmitNoHands) ∧
  default 0 (no_hands_streak r.1 !! u) = (s + n) mod 5.
Proof.
  revert st s. induction n as [|n IH]; intros st s Hs Hlt; cbn zeta.
  - cbn [replicate run_frames fst snd]. rewrite !Nat.add_0_r, Nat.add_0_l.
    rewrite Nat.sub_diag, Nat.mod_small by done. done.
  - cbn [replicate]. rewrite run_frames_cons. cbn zeta. cbn [fst snd].
    cbn [handle_process_fsl_frame]. rewrite on_no_hands_unfold. cbn zeta.
    rewrite Hs.
    destruct (5 <=? s + 1) eqn:E5; cbn [fst snd].
    + apply Nat.leb_le in E5. assert (s = 4) as -> by lia.
      destruct (IH (mk_store
                      (match user_buffers st !! u with
                       | Some _ => <[u:=[]]> (user_buffers st)
                       | None => user_buffers st end)
                      (match user_buffers st !! u with
                       | Some _ => <[u:=0]> (frame_counters st)
                       | None => frame_counters st end)
                      (<[u:=0]> (no_hands_streak st))) 0) as [Ha Hb];
        [cbn [no_hands_streak]; by rewrite lookup_insert_eq | lia |].
      rewrite Ha, Hb. cbn [app]. split.
      * f_equal. change ((4 + 4) / 5) with 1. change ((0 + 4) / 5) with 0.
        replace (S n + 4 + 4) with (n + 0 + 4 + 1 * 5) by lia.
        rewrite Nat.div_add by done. lia.
      * replace (4 + S n) with (0 + n + 1 * 5) by lia.
        by rewrite Nat.Div0.mod_add.
    + apply Nat.leb_gt in E5.
      destruct (IH (mk_store (user_buffers st) (frame_counters st)
                             (<[u:=s + 1]> (no_hands_streak st))) (s + 1))
        as [Ha Hb];
        [cbn [no_hands_streak]; by rewrite lookup_insert_eq | lia |].
      rewrite Ha, Hb. split; [|f_equal; lia].
      rewrite (Nat.mod_small (s + 1) 10) by lia.
      replace (n + (s + 1) + 4) with (S n + s + 4) by lia.
      destruct s as [|s].
      * change (0 + 1 =? 1) with true. cbn [app].
        change ((0 + 1 + 4) / 5) with 1. change ((0 + 4) / 5) with 0.
        assert (1 <= (S n + 0 + 4) / 5).
        { replace (S n + 0 + 4) with (n + 1 * 5) by lia.
          rewrite Nat.div_add by done. lia. }
        rewrite <- replicate_S. f_equal. lia.
      * replace (S s + 1 =? 1) with false
          by (symmetry; apply Nat.eqb_neq; lia).
        cbn [app]. f_equal.
        assert ((S s + 1 + 4) / 5 = 1) as ->.
        { replace (S s + 1 + 4) with ((s + 1) + 1 * 5) by lia.
          rewrite Nat.div_add, Nat.div_small by lia. done. }
        assert ((S s + 4) / 5 = 1) as ->.
        { replace (S s + 4) with (s + 1 * 5) by lia.
          rewrite Nat.div_add, Nat.div_small by lia. done. }
        done.
Qed.

(** X4. A run of [n] consecutive frames without hands that starts with the
    streak at 0 (a new session, or right after a frame with hands) emits
    one "No hands detected" notice for every started group of 5 frames, and
    nothing else; the streak ends at [n mod 5]. *)
Theorem no_hands_notice_cadence st u predict (n : nat) :
  default 0 (no_hands_streak st !! u) = 0 ->
  let r := run_frames st u predict (replicate n (Landmarks None)) in
  r.2 = replicate ((n + 4) / 5) (Emit EmitNoHands) ∧
  default 0 (no_hands_streak r.1 !! u) = n mod 5.
Proof.
  intros Hs. destruct (no_hands_run st u predict n 0 Hs) as [Ha Hb]; [lia|].
  cbn zeta. rewrite Ha, Hb. rewrite Nat.add_0_r.
  change ((0 + 4) / 5) with 0. by rewrite Nat.sub_0_r.
Qed.

(** The part of a store that decides what frames with hands do. *)
Lemma on_hands_same_view st1 st2 u predict x :
  session_ok st1 u -> session_ok st2 u ->
  user_buffers st1 !! u = user_buffers st2 !! u ->
  appended_frames st1 u = appended_frames st2 u ->
  (on_hands st1 u predict x).2 = (on_hands st2 u predict x).2 ∧
  user_buffers (on_hands st1 u predict x).1 !! u
  = user_buffers (on_hands st2 u predict x).1 !! u ∧
  appended_frames (on_hands st1 u predict x).1 u
  = appended_frames (on_hands st2 u predict x).1 u.
Proof.
  intros Hok1 Hok2 Hb Ha.
  rewrite !on_hands_buffer, !on_hands_appended by done.
  rewrite Hb, Ha. split; [|done].
  rewrite !on_hands_unfold. cbn zeta. rewrite <- Hb.
  unfold appended_frames, session_ok in *. rewrite <- Hb in *.
  destruct (user_buffers st1 !! u) as [b|].
  - destruct (frame_counters st1 !! u) as [c1|]; [|done].
    destruct (frame_counters st2 !! u) as [c2|]; [|done].
    cbn in Ha. subst c2.
    destruct (_ <? 15); [done|]. by destruct (negb _).
  - destruct (_ <? 15); [done|]. by destruct (negb _).
Qed.

Lemma hand_frames_same_view st1 st2 u predict (xs : list frame) :
  session_ok st1 u -> session_ok st2 u ->
  user_buffers st1 !! u = user_buffers st2 !! u ->
  appended_frames st1 u = appended_frames st2 u ->
  (run_frames st1 u predict (hand_frames xs)).2
  = (run_frames st2 u predict (hand_frames xs)).2 ∧
  user_buffers (run_frames st1 u predict (hand_frames xs)).1 !! u
  = user_buffers (run_frames st2 u predict (hand_frames xs)).1 !! u.
Proof.
  revert st1 st2. induction xs as [|x xs IH]; intros st1 st2 Hok1 Hok2 Hb Ha.
  - done.
  - cbn [hand_frames map]. fold (hand_frames xs).
    rewrite !run_frames_cons. cbn zeta. cbn [fst snd].
    cbn [handle_process_fsl_frame].
    destruct (on_hands_same_view st1 st2 u predict x Hok1 Hok2 Hb Ha)
      as (Hacts & Hb' & Ha').
    destruct (IH (on_hands st1 u predict x).1 (on_hands st2 u predict x).1)
      as [H1 H2]; try done; try by apply on_hands_session_ok.
    by rewrite Hacts, H1, H2.
Qed.

(** X5. After a user has left the learning session, or has disconnected,
    a stream of frames with hands is answered exactly as in a new session:
    the same notices and classifier calls, on the same buffers.  The
    no-hands streak is the one thing both handlers leave behind. *)
Theorem session_restarts_clean st u predict (xs : list frame) :
  let fresh := run_frames empty_store u predict (hand_frames xs) in
  let after_leave :=
    run_frames (handle_leave_fsl_learning st (Some u)) u predict
               (hand_frames xs) in
  let after_disconnect :=
    run_frames (handle_disconnect st (Some u)) u predict (hand_frames xs) in
  after_leave.2 = fresh.2 ∧
  user_buffers after_leave.1 !! u = user_buffers fresh.1 !! u ∧
  after_disconnect.2 = fresh.2 ∧
  user_buffers after_disconnect.1 !! u = user_buffers fresh.1 !! u ∧
  no_hands_streak (handle_leave_fsl_learning st (Some u)) = no_hands_streak st ∧
  no_hands_streak (handle_disconnect st (Some u)) = no_hands_streak st.
Proof.
  cbn zeta.
  assert (Hl : user_buffers (handle_leave_fsl_learning st (Some u)) !! u = None)
    by apply lookup_delete_eq.
  assert (Hd : user_buffers (handle_disconnect st (Some u)) !! u = None)
    by apply lookup_delete_eq.
  destruct (hand_frames_same_view (handle_leave_fsl_learning st (Some u))
              empty_store u predict xs) as [H1 H2];
    try apply session_ok_empty;
    try (unfold session_ok, appended_frames; rewrite Hl; done).
  destruct (hand_frames_same_view (handle_disconnect st (Some u))
              empty_store u predict xs) as [H3 H4];
    try apply session_ok_empty;
    try (unfold session_ok, appended_frames; rewrite Hd; done).
  done.
Qed.

End StreamingRestart.

(** X4, on 12 frames without hands after three frames with hands:
    notices at the 1st, 6th and 11th. *)
Lemma no_hands_notice_cadence_witness :
  let st := (run_frames (@empty_store nat) 7 (fun _ : list nat => Some 0)
               (hand_frames [1; 2; 3])).1 in
  default 0 (no_hands_streak st !! 7) = 0 ∧
  (run_frames st 7 (fun _ : list nat => Some 0)
              (replicate 12 (Landmarks None))).2
  = replicate 3 (Emit EmitNoHands).
Proof.
  cbn zeta.
  pose (st := (run_frames (@empty_store nat) 7 (fun _ : list nat => Some 0)
                 (hand_frames [1; 2; 3])).1).
  assert (Hs : default 0 (no_hands_streak st !! 7) = 0)
    by (vm_compute; reflexivity).
  split; [exact Hs|].
  exact (proj1 (no_hands_notice_cadence st 7 (fun _ => Some 0) 12 Hs)).
Defined.

(** A streak left behind by an earlier session: a user who left after
    four frames without hands gets no notice for the first frame without
    hands of the next session. *)
Example streak_survives_leave :
  let st := (run_frames (@empty_store nat) 7 (fun _ : list nat => Some 0)
               (replicate 4 (Landmarks None))).1 in
  (run_frames (handle_leave_fsl_learning st (Some 7)) 7
              (fun _ : list nat => Some 0) [Landmarks None]).2 = [] ∧
  (run_frames (@empty_store nat) 7
              (fun _ : list nat => Some 0) [Landmarks None]).2
  = [Emit EmitNoHands].
Proof. vm_compute. done. Qed.

(* --------------------------------------------------------------------- *)
(** ** 6. Feature extractor: totality, absent hands, repeated calls        *)
(* --------------------------------------------------------------------- *)

Lemma take_pad_to {A : Type} (n : nat) (x : A) (l : list A) :
  take n (pad_to n x l) = take n l ++ replicate (n - length l) x.
Proof.
  unfold pad_to. destruct (decide (length l <= n)) as [Hle|Hgt].
  - rewrite take_app_ge by done. rewrite (take_ge l) by done.
    f_equal. apply take_ge. rewrite length_replicate. lia.
  - replace (n - length l) with 0 by lia. cbn [replicate].
    by rewrite !app_nil_r.
Qed.

Lemma read_landmark_is_Some (lm : landmark) :
  is_Some (read_landmark lm) <-> readable_landmark lm = true.
Proof.
  unfold read_landmark, readable_landmark.
  destruct lm as [[[x|]|] [[y|]|] [[z|]|]]; cbn;
    split; intros H; try done; try (by eexists); by destruct H.
Qed.

Lemma read_hand_is_Some (h : hand) :
  is_Some (read_hand h) <-> readable_hand h = true.
Proof.
  unfold read_hand, readable_hand. rewrite mapM_is_Some, take_pad_to.
  rewrite Forall_app, forallb_forall, Forall_forall.
  split.
  - intros [H _] lm Hin. apply read_landmark_is_Some, H.
    by apply list_elem_of_In.
  - intros H. split.
    + intros lm Hin. apply read_landmark_is_Some, H.
      by apply list_elem_of_In.
    + apply Forall_replicate. by eexists.
Qed.

Lemma read_frame_is_Some (f : frame) :
  is_Some (read_frame f) <-> readable_frame f = true.
Proof.
  unfold read_frame, readable_frame. rewrite mapM_is_Some, take_pad_to.
  rewrite Forall_app, forallb_forall, Forall_forall.
  split.
  - intros [H _] h Hin. apply read_hand_is_Some, H.
    by apply list_elem_of_In.
  - intros H. split.
    + intros h Hin. apply read_hand_is_Some, H.
      by apply list_elem_of_In.
    + apply Forall_replicate. by eexists.
Qed.

Lemma preprocess_sequence_is_Some (frames : list frame) :
  is_Some (preprocess_sequence frames)
  <-> forallb readable_frame frames = true.
Proof.
  unfold preprocess_sequence.
  rewrite forallb_forall.
  assert (is_Some (mapM read_frame frames)
          <-> ∀ f, In f frames -> readable_frame f = true) as <-.
  { rewrite mapM_is_Some, Forall_forall. split.
    - intros H f Hin. apply read_frame_is_Some, H. by apply list_elem_of_In.
    - intros H f Hin. apply read_frame_is_Some, H. by apply list_elem_of_In. }
  destruct (mapM read_frame frames); split; intros [x Hx]; try done;
    by eexists.
Qed.

(** X6. Extraction succeeds exactly on the windows of at least 5 frames
    whose converted coordinates are all numbers: missing hands, missing
    landmarks and missing keys are padded, never an error. *)
Theorem extraction_succeeds_iff {M : MathLib} (frames : list frame) :
  is_Some (extract_sequence_features frames)
  <-> 5 <= length frames ∧ forallb readable_frame frames = true.
Proof.
  rewrite <- preprocess_sequence_is_Some.
  unfold extract_sequence_features.
  destruct (length frames <? 5) eqn:E.
  - apply Nat.ltb_lt in E. split; [by intros [? ?] | lia].
  - apply Nat.ltb_ge in E.
    destruct (preprocess_sequence frames) as [[frames' a]|].
    + split; [done | by eexists].
    + split; [by intros [? ?] | by intros [_ [? ?]]].
Qed.

Example frames_without_keys_extracted :
  is_Some (@extract_sequence_features approx_math
             [mk_frame None; mk_frame (Some []);
              mk_frame (Some [mk_hand None]);
              mk_frame (Some [mk_hand (Some [mk_landmark None None None])]);
              one_hand_frame 1]).
Proof.
  unfold extract_sequence_features. cbn [length Nat.ltb Nat.leb].
  destruct (preprocess_sequence_is_Some
              [mk_frame None; mk_frame (Some []);
               mk_frame (Some [mk_hand None]);
               mk_frame (Some [mk_hand (Some [mk_landmark None None None])]);
               one_hand_frame 1]) as [_ H].
  destruct (H eq_refl) as [[frames' a] ->]. by eexists.
Qed.

(** *** A hand that is absent from every frame *)

Lemma nth_map_seq {A : Type} (g : nat -> A) (n h : nat) (d : A) :
  h < n -> nth h (map g (seq 0 n)) d = g h.
Proof.
  intros H. rewrite (nth_indep _ d (g 0)) by (by rewrite length_map, length_seq).
  by rewrite map_nth, seq_nth.
Qed.

Lemma nth_origin (pts : list point3) (l : nat) :
  Forall (fun p => p = origin3) pts -> nth l pts origin3 = origin3.
Proof.
  intros H. destruct (decide (l < length pts)) as [Hlt|Hge].
  - rewrite Forall_forall in H. apply H, list_elem_of_In, nth_In, Hlt.
  - apply nth_overflow. lia.
Qed.

Lemma read_sentinel_hand : read_hand sentinel_hand = Some (replicate 21 origin3).
Proof. reflexivity. Qed.

Lemma read_frame_second_hand (f : frame) (fr : list (list point3)) :
  length (default [] (frame_hands f)) <= 1 ->
  read_frame f = Some fr ->
  Forall (fun p => p = origin3) (nth 1 fr []).
Proof.
  unfold read_frame. intros Hlen H.
  destruct (default [] (frame_hands f)) as [|h [|h' hs]];
    [| |cbn in Hlen; lia]; cbn in H.
  - injection H as <-. cbn. repeat constructor.
  - change (mapM read_hand [h; sentinel_hand])
      with (r0 ← read_hand h; r ← mapM read_hand [sentinel_hand];
            Some (r0 :: r)) in H.
    destruct (read_hand h) as [r0|]; [|done]. cbn in H.
    injection H as <-. cbn. repeat constructor.
Qed.

Lemma read_frames_second_hand (frames : list frame) (a : landmarks_array) :
  at_most_one_hand frames -> mapM read_frame frames = Some a ->
  hand_at_origin a 1.
Proof.
  intros Hone H. apply mapM_Some in H. unfold hand_at_origin.
  induction H as [|f fr fs a Hf _ IH]; [constructor|].
  inversion Hone; subst. constructor.
  - by eapply read_frame_second_hand.
  - by apply IH.
Qed.

Lemma series_at_origin (a : landmarks_array) (h l c : nat) :
  hand_at_origin a h -> Forall (fun x => x = 0%Qc) (series a h l c).
Proof.
  intros H. unfold series. apply Forall_forall. intros x Hx.
  apply list_elem_of_In, in_map_iff in Hx as (fr & <- & Hin).
  unfold hand_at_origin in H. rewrite Forall_forall in H.
  rewrite nth_origin by (by apply H, list_elem_of_In).
  by destruct c as [|[|c]].
Qed.

Lemma smooth_series_zero (s : list Qc) (i : nat) :
  Forall (fun x => x = 0%Qc) s -> nth i (smooth_series s) 0%Qc = 0%Qc.
Proof.
  intros H. unfold smooth_series.
  assert (existsb nonzero s = false) as ->.
  { apply not_true_is_false. intros He.
    apply existsb_exists in He as (x & Hin & Hx).
    rewrite Forall_forall in H. rewrite (H x) in Hx
      by (by apply list_elem_of_In). done. }
  destruct (decide (i < length s)) as [Hlt|Hge].
  - rewrite Forall_forall in H. apply H, list_elem_of_In, nth_In, Hlt.
  - apply nth_overflow. lia.
Qed.

Lemma smooth_sequence_at_origin (a : landmarks_array) (h : nat) :
  hand_at_origin a h -> hand_at_origin (smooth_sequence a) h.
Proof.
  intros H. unfold smooth_sequence. destruct (length a <? 3); [done|].
  unfold hand_at_origin. apply Forall_forall. intros fr Hfr.
  apply list_elem_of_In, in_map_iff in Hfr as (i & <- & _).
  destruct (decide (h < shape1 a)) as [Hlt|Hge].
  - rewrite nth_map_seq by done. apply Forall_forall. intros p Hp.
    apply list_elem_of_In, in_map_iff in Hp as (l & <- & _).
    by rewrite !smooth_series_zero by (by apply series_at_origin).
  - rewrite nth_overflow by (rewrite length_map, length_seq; lia).
    constructor.
Qed.

Lemma normalize_hand_at_origin (pts : list point3) :
  Forall (fun p => p = origin3) pts -> normalize_hand pts = pts.
Proof.
  intros H. unfold normalize_hand. by rewrite nth_origin.
Qed.

Lemma normalize_sequence_at_origin (a : landmarks_array) (h : nat) :
  hand_at_origin a h -> hand_at_origin (normalize_sequence a) h.
Proof.
  unfold hand_at_origin, normalize_sequence. intros H.
  apply Forall_forall. intros fr Hfr.
  apply list_elem_of_In, in_map_iff in Hfr as (fr0 & <- & Hin).
  rewrite Forall_forall in H. specialize (H fr0 (proj2 (list_elem_of_In _ _) Hin)).
  destruct (decide (h < length fr0)) as [Hlt|Hge].
  - rewrite (nth_indep _ [] (normalize_hand [])) by (rewrite length_map; lia).
    rewrite map_nth. by rewrite normalize_hand_at_origin.
  - rewrite nth_overflow by (rewrite length_map; lia). constructor.
Qed.

Lemma preprocess_sequence_second_hand (frames frames' : list frame)
    (a : landmarks_array) :
  at_most_one_hand frames ->
  preprocess_sequence frames = Some (frames', a) -> hand_at_origin a 1.
Proof.
  unfold preprocess_sequence. intros Hone.
  destruct (mapM read_frame frames) as [b|] eqn:Eb; [|done].
  intros [= <- <-].
  by apply normalize_sequence_at_origin, smooth_sequence_at_origin,
    (read_frames_second_hand frames).
Qed.

Section AbsentHand.

Context {M : MathLib}.
Variable a : landmarks_array.
Variable h : nat.
Hypothesis absent : hand_at_origin a h.

Lemma hand_xy_at_origin :
  Forall (Forall (fun p => p = origin2)) (hand_xy a h).
Proof.
  unfold hand_xy. apply Forall_forall. intros pts Hpts.
  apply list_elem_of_In, in_map_iff in Hpts as (fr & <- & Hin).
  unfold hand_at_origin in absent. rewrite Forall_forall in absent.
  specialize (absent fr (proj2 (list_elem_of_In _ _) Hin)).
  apply Forall_forall. intros p Hp.
  apply list_elem_of_In, in_map_iff in Hp as (q & <- & Hq).
  rewrite Forall_forall in absent.
  by rewrite (absent q) by (by apply list_elem_of_In).
Qed.

Lemma any_nonzero_absent : any_nonzero (hand_xy a h) = false.
Proof.
  apply not_true_is_false. unfold any_nonzero. intros He.
  apply existsb_exists in He as (pts & Hin & He).
  apply existsb_exists in He as (p & Hp & Hnz).
  pose proof hand_xy_at_origin as H. rewrite Forall_forall in H.
  specialize (H pts (proj2 (list_elem_of_In _ _) Hin)).
  rewrite Forall_forall in H.
  rewrite (H p) in Hnz by (by apply list_elem_of_In). done.
Qed.

Lemma spatial_hand_absent : spatial_hand a h = replicate 15 0%Qc.
Proof.
  unfold spatial_hand. destruct (_ <=? _); [done|].
  by rewrite any_nonzero_absent.
Qed.

Lemma geometric_hand_absent : geometric_hand a h = replicate 2 0%Qc.
Proof.
  unfold geometric_hand. destruct (_ <=? _); [done|].
  by rewrite any_nonzero_absent.
Qed.

Lemma statistical_hand_absent : statistical_hand a h = replicate 4 0%Qc.
Proof.
  unfold statistical_hand. destruct (_ <=? _); [done|].
  assert (existsb (fun p : point2 => nonzero p.1 || nonzero p.2)
                  (concat (hand_xy a h)) = false) as ->; [|done].
  apply not_true_is_false. intros He.
  apply existsb_exists in He as (p & Hp & Hnz).
  apply in_concat in Hp as (pts & Hin & Hp).
  pose proof hand_xy_at_origin as H. rewrite Forall_forall in H.
  specialize (H pts (proj2 (list_elem_of_In _ _) Hin)).
  rewrite Forall_forall in H.
  rewrite (H p) in Hnz by (by apply list_elem_of_In). done.
Qed.

End AbsentHand.

Lemma drop_app_add {A : Type} (l1 l : list A) (k1 k2 : nat) :
  length l1 = k1 -> drop (k1 + k2) (l1 ++ l) = drop k2 l.
Proof.
  intros <-. rewrite <- drop_drop. by rewrite drop_app_length.
Qed.

(** Skips the leading pieces of a concatenation whose lengths are known
    and takes the next piece. *)
Ltac skip_pieces :=
  repeat (rewrite drop_app_add
            by (assumption || apply length_replicate));
  rewrite drop_0; apply take_app_length'; symmetry;
  (assumption || apply length_replicate).

Section HandSlices.

Context {M : MathLib}.

Lemma spatial_hand_length (a : landmarks_array) (h : nat) :
  length (spatial_hand a h) = 15.
Proof.
  unfold spatial_hand. destruct (_ <=? _); [done|].
  destruct (negb _); [done|]. cbn zeta.
  rewrite !length_app, length_map. cbn [length].
  by destruct (List.filter _ _).
Qed.

Lemma geometric_hand_length (a : landmarks_array) (h : nat) :
  length (geometric_hand a h) = 2.
Proof.
  unfold geometric_hand. destruct (_ <=? _); [done|]. by destruct (negb _).
Qed.

Lemma statistical_hand_length (a : landmarks_array) (h : nat) :
  length (statistical_hand a h) = 4.
Proof.
  unfold statistical_hand. destruct (_ <=? _); [done|].
  destruct (negb _); [done|]. cbn zeta. by destruct (List.filter _ _).
Qed.

(** X7. When no frame of the window holds more than one hand, the 35
    entries of the feature vector that describe the second hand (spatial
    15..29, temporal 36..41, geometric 44..45, statistical 50..53,
    trajectory 62..69) are 0. *)
Theorem absent_second_hand_zero (frames : list frame) (v : list Qc) :
  at_most_one_hand frames ->
  extract_sequence_features frames = Some v ->
  take 15 (drop 15 v) = replicate 15 0%Qc ∧
  take 6 (drop 36 v) = replicate 6 0%Qc ∧
  take 2 (drop 44 v) = replicate 2 0%Qc ∧
  take 4 (drop 50 v) = replicate 4 0%Qc ∧
  take 8 (drop 62 v) = replicate 8 0%Qc.
Proof.
  intros Hone H. apply extract_sequence_features_Some in H
    as (_ & frames' & a & Hp & ->).
  pose proof (preprocess_sequence_second_hand _ _ _ Hone Hp) as Habs.
  destruct (preprocess_sequence_spec _ _ _ Hp) as (_ & _ & _ & Hw).
  unfold extract_spatial_features, extract_enhanced_temporal_features,
    extract_geometric_features, extract_statistical_features,
    extract_trajectory_features.
  rewrite (spatial_hand_absent a 1 Habs), (geometric_hand_absent a 1 Habs),
    (statistical_hand_absent a 1 Habs).
  rewrite !(temporal_hand_zero a Hw), !(trajectory_hand_zero a Hw).
  pose proof (spatial_hand_length a 0) as Hs.
  pose proof (geometric_hand_length a 0) as Hg.
  pose proof (statistical_hand_length a 0) as Hst.
  set (s0 := spatial_hand a 0) in *. set (g0 := geometric_hand a 0) in *.
  set (st0 := statistical_hand a 0) in *.
  set (gl := extract_global_features a frames').
  rewrite !fit_exact
    by (rewrite ?length_app, ?Hs, ?Hg, ?Hst, ?length_replicate; done).
  rewrite <- !app_assoc.
  repeat split.
  - change 15 with (15 + 0) at 2. skip_pieces.
  - change 36 with (15 + (15 + (6 + 0))). skip_pieces.
  - change 44 with (15 + (15 + (6 + (6 + (2 + 0))))). skip_pieces.
  - change 50 with (15 + (15 + (6 + (6 + (2 + (2 + (4 + 0))))))).
    skip_pieces.
  - change 62
      with (15 + (15 + (6 + (6 + (2 + (2 + (4 + (4 + (8 + 0))))))))).
    skip_pieces.
Qed.

End HandSlices.

(** X7, on the five-frame window of one-hand frames. *)
Lemma absent_second_hand_zero_witness :
  at_most_one_hand (one_hand_window 5) ∧
  ∃ v, @extract_sequence_features approx_math (one_hand_window 5) = Some v ∧
       take 15 (drop 15 v) = replicate 15 0%Qc ∧
       take 4 (drop 50 v) = replicate 4 0%Qc.
Proof.
  assert (Hone : at_most_one_hand (one_hand_window 5))
    by (repeat constructor).
  split; [exact Hone|].
  destruct one_hand_window_extracted as [v E]. exists v. split; [exact E|].
  destruct (absent_second_hand_zero (M := approx_math) _ _ Hone E)
    as (H1 & _ & _ & H4 & _).
  split; [exact H1 | exact H4].
Defined.

(** *** Calling the extractor again on the frames it has padded *)

Lemma pad_to_idem {A : Type} (n : nat) (x : A) (l : list A) :
  pad_to n x (pad_to n x l) = pad_to n x l.
Proof.
  unfold pad_to at 1. rewrite pad_to_length.
  replace (n - n `max` length l) with 0 by lia. apply app_nil_r.
Qed.

Lemma padded_hand_Some (ls : list landmark) :
  padded_hand (mk_hand (Some ls)) = mk_hand (Some (pad_to 21 zero_landmark ls)).
Proof. reflexivity. Qed.

Lemma padded_hand_idem (h : hand) : padded_hand (padded_hand h) = padded_hand h.
Proof.
  destruct h as [[ls|]]; [|done].
  by rewrite !padded_hand_Some, pad_to_idem.
Qed.

Lemma read_hand_padded (h : hand) : read_hand (padded_hand h) = read_hand h.
Proof.
  destruct h as [[ls|]]; [|done]. rewrite padded_hand_Some.
  change (mapM read_landmark
            (take 21 (pad_to 21 zero_landmark (pad_to 21 zero_landmark ls)))
          = mapM read_landmark (take 21 (pad_to 21 zero_landmark ls))).
  by rewrite pad_to_idem.
Qed.

Lemma mapM_map_ext {A B C : Type} (f : B -> option C) (g : A -> B)
    (f' : A -> option C) (l : list A) :
  (forall x, f (g x) = f' x) -> mapM f (map g l) = mapM f' l.
Proof.
  intros Hfg. induction l as [|x l IH]; [done|].
  simpl. by rewrite Hfg, IH.
Qed.

Lemma mapM_read_hand_padded (hs : list hand) :
  mapM read_hand (padded_hand <$> hs) = mapM read_hand hs.
Proof. apply mapM_map_ext, read_hand_padded. Qed.

(** The first two entries of the padded [hands] list and the rest. *)
Lemma padded_hands_take_drop (hs : list hand) :
  let hs' := pad_to 2 sentinel_hand hs in
  let new := (padded_hand <$> take 2 hs') ++ drop 2 hs' in
  pad_to 2 sentinel_hand new = new ∧
  take 2 new = padded_hand <$> take 2 hs' ∧
  drop 2 new = drop 2 hs'.
Proof.
  cbn zeta.
  assert (Hlen : length (padded_hand <$> take 2 (pad_to 2 sentinel_hand hs)) = 2).
  { rewrite length_fmap, length_take, pad_to_length. lia. }
  split; [|split].
  - unfold pad_to at 1. rewrite length_app, Hlen. cbn. apply app_nil_r.
  - by rewrite take_app_length' by done.
  - by rewrite drop_app_length' by done.
Qed.

Lemma padded_frame_Some (hs : list hand) :
  padded_frame (mk_frame (Some hs))
  = mk_frame (Some ((padded_hand <$> take 2 (pad_to 2 sentinel_hand hs))
                    ++ drop 2 (pad_to 2 sentinel_hand hs))).
Proof. reflexivity. Qed.

Lemma read_frame_Some (hs : list hand) :
  read_frame (mk_frame (Some hs))
  = mapM read_hand (take 2 (pad_to 2 sentinel_hand hs)).
Proof. reflexivity. Qed.

Lemma read_frame_padded (f : frame) : read_frame (padded_frame f) = read_frame f.
Proof.
  destruct f as [[hs|]]; [|done].
  rewrite padded_frame_Some, !read_frame_Some.
  destruct (padded_hands_take_drop hs) as (H1 & H2 & _). cbn zeta in H1, H2.
  by rewrite H1, H2, mapM_read_hand_padded.
Qed.

Lemma padded_frame_idem (f : frame) :
  padded_frame (padded_frame f) = padded_frame f.
Proof.
  destruct f as [[hs|]]; [|done].
  rewrite !padded_frame_Some.
  destruct (padded_hands_take_drop hs) as (H1 & H2 & H3).
  cbn zeta in H1, H2, H3.
  rewrite H1, H2, H3. do 2 f_equal. f_equal.
  rewrite <- list_fmap_compose. apply list_fmap_ext.
  intros i h _. apply padded_hand_idem.
Qed.

Lemma preprocess_sequence_padded (frames : list frame) :
  preprocess_sequence (map padded_frame frames) = preprocess_sequence frames.
Proof.
  unfold preprocess_sequence.
  assert (mapM read_frame (map padded_frame frames) = mapM read_frame frames)
    as ->.
  { apply mapM_map_ext, read_frame_padded. }
  destruct (mapM read_frame frames); [|done].
  do 2 f_equal. rewrite List.map_map. apply map_ext.
  intros f. apply padded_frame_idem.
Qed.

(** X8. The padding that a call leaves in the frame dictionaries does not
    change what the next call on those frames returns: the extractor gives
    the same answer on the frames as it left them as on the frames it was
    given. *)
Theorem extract_again_same_vector {M : MathLib} (frames : list frame) :
  extract_sequence_features (map padded_frame frames)
  = extract_sequence_features frames.
Proof.
  unfold extract_sequence_features.
  by rewrite length_map, preprocess_sequence_padded.
Qed.

(** *** The predictor's padding of the buffered frames *)

Lemma hands_after_loop_padded (hs : list hand) :
  padded_hand <$> hands_after_loop hs = padded_hand <$> hs.
Proof.
  induction hs as [|h hs IH]; [done|].
  cbn [hands_after_loop]. rewrite !fmap_cons, padded_hand_idem.
  f_equal. by destruct (read_hand h).
Qed.

Lemma hands_after_loop_length (hs : list hand) :
  length (hands_after_loop hs) = length hs.
Proof.
  induction hs as [|h hs IH]; [done|].
  cbn [hands_after_loop length]. f_equal. by destruct (read_hand h).
Qed.

Lemma frame_after_loop_Some (hs : list hand) :
  frame_after_loop (mk_frame (Some hs))
  = mk_frame (Some (hands_after_loop (take 2 (pad_to 2 sentinel_hand hs))
                    ++ drop 2 (pad_to 2 sentinel_hand hs))).
Proof. reflexivity. Qed.

Lemma frame_after_loop_padded (f : frame) :
  padded_frame (frame_after_loop f) = padded_frame f.
Proof.
  destruct f as [[hs|]]; [|done].
  rewrite frame_after_loop_Some, !padded_frame_Some.
  set (hs' := pad_to 2 sentinel_hand hs).
  assert (Hlen : length (hands_after_loop (take 2 hs')) = 2).
  { rewrite hands_after_loop_length, length_take. unfold hs'.
    rewrite pad_to_length. lia. }
  assert (pad_to 2 sentinel_hand (hands_after_loop (take 2 hs') ++ drop 2 hs')
          = hands_after_loop (take 2 hs') ++ drop 2 hs') as ->.
  { unfold pad_to at 1. rewrite length_app, Hlen. cbn. apply app_nil_r. }
  rewrite take_app_length' by done. rewrite drop_app_length' by done.
  by rewrite hands_after_loop_padded.
Qed.

Lemma frames_after_preprocess_padded (frames : list frame) :
  map padded_frame (frames_after_preprocess frames) = map padded_frame frames.
Proof.
  induction frames as [|f fs IH]; [done|].
  cbn [frames_after_preprocess map]. rewrite frame_after_loop_padded.
  f_equal. by destruct (read_frame f).
Qed.

(** When every value is readable the loop runs to its end. *)
Lemma frames_after_preprocess_readable (frames : list frame) :
  is_Some (mapM read_frame frames) ->
  frames_after_preprocess frames = map padded_frame frames.
Proof.
  rewrite mapM_is_Some. induction 1 as [|f fs [y Hf] _ IH]; [done|].
  cbn [frames_after_preprocess map]. rewrite Hf, IH. f_equal.
  destruct f as [[hs|]]; [|done].
  rewrite frame_after_loop_Some, padded_frame_Some. do 2 f_equal. f_equal.
  rewrite read_frame_Some in Hf.
  assert (Hall : is_Some (mapM read_hand (take 2 (pad_to 2 sentinel_hand hs))))
    by done.
  rewrite mapM_is_Some in Hall. clear Hf.
  induction Hall as [|h l [z Hh] _ IHl]; [done|].
  cbn [hands_after_loop]. by rewrite Hh, IHl.
Qed.

Lemma frames_after_predict_padded (model : option artifact)
    (frames : list frame) :
  map padded_frame (frames_after_predict model frames)
  = map padded_frame frames.
Proof.
  unfold frames_after_predict.
  destruct (length frames <? 5); [done|]. destruct model; [|done].
  apply frames_after_preprocess_padded.
Qed.

Section SharedFramesFacts.

Context {M : MathLib}.

Lemma mapM_read_frame_same_padded (b b' : list frame) :
  map padded_frame b = map padded_frame b' ->
  mapM read_frame b = mapM read_frame b'.
Proof.
  intros H.
  rewrite <- (mapM_map_ext read_frame padded_frame read_frame b
                read_frame_padded).
  rewrite <- (mapM_map_ext read_frame padded_frame read_frame b'
                read_frame_padded).
  by rewrite H.
Qed.

(** [predict] reads the frames only through what padding leaves alone. *)
Lemma predict_same_padded (model : option artifact) (b b' : list frame) :
  map padded_frame b = map padded_frame b' ->
  predict model b = predict model b'.
Proof.
  intros H.
  assert (Hlen : length b = length b').
  { apply (f_equal length) in H. by rewrite !length_map in H. }
  unfold predict, extract_sequence_features, preprocess_sequence.
  by rewrite Hlen, (mapM_read_frame_same_padded b b' H), H.
Qed.

Lemma push_frame_map {A B : Type} (f : A -> B) (b : list A) (x : A) :
  map f (push_frame b x) = push_frame (map f b) (f x).
Proof.
  unfold push_frame. cbn zeta.
  rewrite !length_app, !length_map. cbn [length].
  destruct (30 <? _).
  - destruct b; reflexivity || (cbn; by rewrite map_app).
  - by rewrite map_app.
Qed.

Lemma same_padded_lookup (st st' : fsl_store frame) (u : user_id) :
  same_padded st st' ->
  map padded_frame <$> (user_buffers st !! u)
  = map padded_frame <$> (user_buffers st' !! u).
Proof. intros (_ & _ & H). by rewrite <- !lookup_fmap, H. Qed.

Lemma same_padded_refl (st : fsl_store frame) : same_padded st st.
Proof. done. Qed.

End SharedFramesFacts.

Section SharedStream.

Context {M : MathLib}.

Lemma same_padded_insert (st st' : fsl_store frame) (u : user_id)
    (b b' : list frame) cnts strk :
  same_padded st st' ->
  map padded_frame b = map padded_frame b' ->
  same_padded (mk_store (<[u := b]> (user_buffers st)) cnts strk)
              (mk_store (<[u := b']> (user_buffers st')) cnts strk).
Proof.
  intros (_ & _ & Hb) Hbb. split; [done|]. split; [done|].
  cbn [user_buffers]. by rewrite !fmap_insert, Hb, Hbb.
Qed.

Lemma on_hands_shared_step (model : option artifact)
    (st st' : fsl_store frame) (u : user_id) (x : frame) :
  same_padded st st' ->
  same_padded (on_hands st u (fsl_predictor_of model) x).1
              (on_hands_shared model st' u x).1 ∧
  emits (on_hands st u (fsl_predictor_of model) x).2
  = emits (on_hands_shared model st' u x).2.
Proof.
  intros Hsame. pose proof (same_padded_lookup st st' u Hsame) as Hl.
  destruct Hsame as (Hc & Hs & Hb).
  unfold on_hands_shared. rewrite !on_hands_unfold. cbn zeta.
  rewrite <- Hc, <- Hs.
  set (b := default [] (user_buffers st !! u)).
  set (b' := default [] (user_buffers st' !! u)).
  assert (Hbb : map padded_frame (push_frame b x)
                = map padded_frame (push_frame b' x)).
  { rewrite !push_frame_map. f_equal. unfold b, b'.
    destruct (user_buffers st !! u), (user_buffers st' !! u);
      cbn in Hl |- *; congruence. }
  assert (Hlen : length (push_frame b' x) = length (push_frame b x)).
  { apply (f_equal length) in Hbb. by rewrite !length_map in Hbb. }
  assert (Hcnt : (match user_buffers st' !! u with
                  | None => Some 0 | Some _ => frame_counters st !! u end)
                 = (match user_buffers st !! u with
                    | None => Some 0 | Some _ => frame_counters st !! u end)).
  { destruct (user_buffers st !! u), (user_buffers st' !! u);
      cbn in Hl; congruence. }
  rewrite Hcnt, Hlen.
  destruct (match user_buffers st !! u with
            | None => Some 0 | Some _ => frame_counters st !! u end) as [c|].
  2:{ cbn [fst snd]. split; [|done]. by apply same_padded_insert. }
  destruct (length (push_frame b x) <? 15).
  { destruct (_ =? 0); cbn [fst snd]; (split; [|done]);
      by apply same_padded_insert. }
  destruct (negb _).
  { cbn [fst snd]. split; [|done]. by apply same_padded_insert. }
  cbn [fst snd user_buffers frame_counters no_hands_streak].
  split.
  - split; [done|]. split; [done|]. cbn [user_buffers].
    rewrite !fmap_insert, insert_insert_eq, Hb.
    by rewrite frames_after_predict_padded, Hbb.
  - unfold emits, fsl_predictor_of. cbn.
    by rewrite (predict_same_padded model _ _ Hbb).
Qed.

Lemma handle_process_shared_step (model : option artifact)
    (st st' : fsl_store frame) (u : user_id) (p : payload frame) :
  same_padded st st' ->
  let r := handle_process_fsl_frame st (Some u)
             (Some (fsl_predictor_of model)) p in
  let r' := handle_process_fsl_frame_shared model st' u p in
  same_padded r.1 r'.1 ∧ emits r.2 = emits r'.2.
Proof.
  intros Hsame. cbn zeta.
  destruct p as [|[x|]].
  - done.
  - by apply on_hands_shared_step.
  - cbn [handle_process_fsl_frame handle_process_fsl_frame_shared].
    pose proof (same_padded_lookup st st' u Hsame) as Hl.
    destruct Hsame as (Hc & Hs & Hb).
    rewrite !on_no_hands_unfold. cbn zeta. rewrite <- Hc, <- Hs.
    destruct (5 <=? _); cbn [fst snd]; [|done].
    destruct (user_buffers st !! u), (user_buffers st' !! u);
      cbn in Hl; try done; cbn [fst snd]; (split; [|done]).
    split; [done|]. split; [done|]. cbn [user_buffers].
    by rewrite !fmap_insert, Hb.
Qed.

Lemma emits_app {frame result : Type} (a b : list (action frame result)) :
  emits (a ++ b) = emits a ++ emits b.
Proof. unfold emits. apply omap_app. Qed.

Lemma run_frames_shared_step (model : option artifact) (u : user_id)
    (ps : list (payload frame)) (st st' : fsl_store frame) :
  same_padded st st' ->
  let r := run_frames st u (fsl_predictor_of model) ps in
  let r' := run_frames_shared model st' u ps in
  same_padded r.1 r'.1 ∧ emits r.2 = emits r'.2.
Proof.
  revert st st'. induction ps as [|p ps IH]; intros st st' Hsame; cbn zeta.
  - done.
  - cbn [run_frames run_frames_shared].
    destruct (handle_process_shared_step model st st' u p Hsame) as [H1 H2].
    destruct (handle_process_fsl_frame st _ _ p) as [st1 a1].
    destruct (handle_process_fsl_frame_shared model st' u p) as [st1' a1'].
    cbn [fst snd] in H1, H2.
    destruct (IH st1 st1' H1) as [H3 H4].
    destruct (run_frames st1 _ _ ps) as [st2 a2].
    destruct (run_frames_shared model st1' u ps) as [st2' a2'].
    cbn [fst snd] in *. split; [done|].
    by rewrite !emits_app, H2, H4.
Qed.

(** X9. The frames that the predictor pads are the buffered ones, yet the
    client cannot tell: over any stream of payloads, from any store, the
    session in which the buffer holds the frames as each classification left
    them emits what the session with untouched frames emits, with the same
    counters and streaks and buffers that differ only in that padding. *)
Theorem padding_invisible_in_stream (model : option artifact)
    (st : fsl_store frame) (u : user_id) (ps : list (payload frame)) :
  let r := run_frames st u (fsl_predictor_of model) ps in
  let r' := run_frames_shared model st u ps in
  emits r'.2 = emits r.2 ∧ same_padded r.1 r'.1.
Proof.
  cbn zeta.
  destruct (run_frames_shared_step model u ps st st (same_padded_refl st))
    as [H1 H2].
  done.
Qed.

End SharedStream.

(** After the classification at the 15th frame of one-hand frames the
    buffered frames hold two hands each; 16 frames later the frames that
    were classified hold two hands and the last one holds one. *)
Example shared_buffer_is_padded :
  let hands_per_frame (st : fsl_store frame) :=
    map (fun f => length (default [] (frame_hands f)))
        (default [] (user_buffers st !! 7)) in
  hands_per_frame
    (run_frames_shared (M := approx_math) (Some artifact_76) empty_store 7
       (hand_frames (one_hand_window 15))).1 = replicate 15 2 ∧
  hands_per_frame
    (run_frames (@empty_store frame) 7
       (fsl_predictor_of (M := approx_math) (Some artifact_76))
       (hand_frames (one_hand_window 15))).1 = replicate 15 1 ∧
  hands_per_frame
    (run_frames_shared (M := approx_math) (Some artifact_76) empty_store 7
       (hand_frames (one_hand_window 16))).1 = replicate 15 2 ++ [1].
Proof. vm_compute. done. Qed.

(** *** The answers of [predict] *)

Lemma argmax_from_is_argmax (l pre : list Qc) (bi : nat) :
  is_argmax pre bi ->
  is_argmax (pre ++ l) (argmax_from bi (nth bi pre 0%Qc) (length pre) l).
Proof.
  revert pre bi. induction l as [|x l IH]; intros pre bi Hbi.
  - by rewrite app_nil_r.
  - destruct Hbi as (Hlt & Hall & Hfirst). cbn [argmax_from].
    replace (pre ++ x :: l) with ((pre ++ [x]) ++ l)
      by (by rewrite <- app_assoc).
    replace (S (length pre)) with (length (pre ++ [x]))
      by (rewrite length_app; cbn; lia).
    case_bool_decide as Hx.
    + assert (Hnth : nth (length pre) (pre ++ [x]) 0%Qc = x)
        by (rewrite app_nth2, Nat.sub_diag by lia; reflexivity).
      pose proof (IH (pre ++ [x]) (length pre)) as IH'.
      rewrite Hnth in IH'. apply IH'.
      split; [rewrite length_app; cbn; lia|].
      rewrite Hnth.
      split.
      * apply Forall_app. split.
        -- eapply Forall_impl; [exact Hall|].
           intros p Hp. cbn beta in Hp.
           apply Qclt_le_weak. by eapply Qcle_lt_trans.
        -- constructor; [apply Qcle_refl | constructor].
      * intros j Hj. rewrite app_nth1 by done.
        eapply Qcle_lt_trans; [|exact Hx].
        rewrite Forall_forall in Hall.
        apply Hall, list_elem_of_In, nth_In. done.
    + assert (Hnth : nth bi (pre ++ [x]) 0%Qc = nth bi pre 0%Qc)
        by (by rewrite app_nth1).
      pose proof (IH (pre ++ [x]) bi) as IH'.
      rewrite Hnth in IH'. apply IH'.
      split; [rewrite length_app; cbn; lia|].
      rewrite Hnth. split.
      * apply Forall_app. split; [done|].
        constructor; [by apply Qcnot_lt_le | constructor].
      * intros j Hj. rewrite app_nth1 by lia. by apply Hfirst.
Qed.

(** [np.argmax] returns the first index of a largest entry, and raises
    only on an empty array. *)
Lemma argmax_is_argmax (ps : list Qc) :
  match argmax ps with
  | Some i => is_argmax ps i
  | None => ps = []
  end.
Proof.
  destruct ps as [|x l]; [done|]. cbn [argmax].
  apply (argmax_from_is_argmax l [x] 0).
  split; [cbn; lia|]. split.
  - constructor; [apply Qcle_refl | constructor].
  - intros j Hj. lia.
Qed.

Lemma extract_sequence_features_readable {M : MathLib} (frames : list frame) :
  5 <= length frames -> forallb readable_frame frames = true ->
  ∃ v, extract_sequence_features frames = Some v ∧ length v = 76.
Proof.
  intros Hlen Hread. apply preprocess_sequence_is_Some in Hread as [[fs a] E].
  assert (is_Some (extract_sequence_features frames)) as [v Hv].
  { unfold extract_sequence_features.
    apply Nat.ltb_ge in Hlen. rewrite Hlen, E. by eexists. }
  exists v. split; [done|]. by eapply extract_sequence_features_length.
Qed.

Lemma predict_on_readable_window {M : MathLib} (art : artifact)
    (frames : list frame) :
  fitted_on_76 art ->
  5 <= length frames -> forallb readable_frame frames = true ->
  ∃ v scaled i sign all_probabilities,
    extract_sequence_features frames = Some v ∧
    scaler_transform art v = Some scaled ∧
    is_argmax (predict_proba art scaled) i ∧
    encoder_classes art !! i = Some sign ∧
    predict (Some art) frames
    = Predicted sign (nth i (predict_proba art scaled) 0 * of_nat 100)%Qc
                all_probabilities.
Proof.
  intros [Hn Hforest] Hlen Hread.
  destruct (extract_sequence_features_readable frames Hlen Hread)
    as (v & Hv & Hv76).
  unfold predict. apply Nat.ltb_ge in Hlen. rewrite Hlen, Hv.
  unfold predict_from_features, scaler_transform.
  rewrite Hv76, Hn, Nat.eqb_refl.
  set (scaled := map _ _).
  destruct (Hforest scaled) as (Hpos & Henc & Hnames).
  pose proof (argmax_is_argmax (predict_proba art scaled)) as Harg.
  destruct (argmax (predict_proba art scaled)) as [i|];
    [|rewrite Harg in Hpos; cbn in Hpos; lia].
  destruct (lookup_lt_is_Some_2 (encoder_classes art) i) as [sign Hsign].
  { destruct Harg as [Hi _]. lia. }
  rewrite Hsign. unfold all_probabilities_of.
  assert (Hlt : (length (class_names art)
                 <? length (predict_proba art scaled)) = false)
    by (apply Nat.ltb_ge; lia).
  rewrite Hlt.
  exists v, scaled, i, sign. eexists.
  rewrite Hv76, Nat.eqb_refl.
  split; [done|]. split; [done|]. split; [done|]. split; [done|].
  reflexivity.
Qed.

(** *** A stream of readable frames *)

Section ReadableStream.

Context {M : MathLib}.

Lemma push_frame_Forall {A : Type} (P : A -> Prop) (b : list A) (x : A) :
  Forall P b -> P x -> Forall P (push_frame b x).
Proof.
  intros Hb Hx. unfold push_frame. cbn zeta.
  assert (H : Forall P (b ++ [x])) by (apply Forall_app; by repeat constructor).
  destruct (30 <? _); [|done].
  destruct (b ++ [x]) as [|y l]; [done|]. by inversion H.
Qed.

Lemma readable_stream_pure (art : artifact) (u : user_id) (xs : list frame)
    (st : fsl_store frame) :
  fitted_on_76 art -> session_ok st u ->
  Forall (fun f => readable_frame f = true)
         (default [] (user_buffers st !! u)) ->
  Forall (fun f => readable_frame f = true) xs ->
  Forall progress_or_sign
         (emits (run_frames st u (fsl_predictor_of (Some art))
                            (hand_frames xs)).2).
Proof.
  intros Hfit. revert st.
  induction xs as [|x xs IH]; intros st Hok Hbuf Hxs; [constructor|].
  apply Forall_cons in Hxs as [Hx Hxs].
  cbn [hand_frames map]. rewrite run_frames_cons. cbn zeta. cbn [snd].
  rewrite emits_app. apply Forall_app. split.
  - cbn [handle_process_fsl_frame]. rewrite on_hands_unfold. cbn zeta.
    unfold session_ok in Hok.
    set (buf := push_frame (default [] (user_buffers st !! u)) x).
    assert (Hread : Forall (fun f => readable_frame f = true) buf)
      by (by apply push_frame_Forall).
    assert (match user_buffers st !! u with
            | None => Some 0 | Some _ => frame_counters st !! u end
            = Some (appended_frames st u)) as ->.
    { unfold appended_frames.
      destruct (user_buffers st !! u); [|done].
      by destruct (frame_counters st !! u). }
    destruct (length buf <? 15) eqn:E15.
    + apply Nat.ltb_lt in E15.
      destruct (_ =? 0); unfold emits; cbn [snd omap list_omap];
        [constructor; [exact E15 | constructor] | constructor].
    + apply Nat.ltb_ge in E15.
      destruct (negb _); cbn [snd]; [constructor|].
      unfold fsl_predictor_of.
      destruct (predict_on_readable_window art buf Hfit)
        as (v & scaled & i & sign & probs & _ & _ & _ & _ & ->).
      { lia. }
      { apply forallb_forall. intros f Hf.
        rewrite Forall_forall in Hread. by apply Hread, list_elem_of_In. }
      unfold emits; cbn [snd omap list_omap].
      constructor; [exact E15 | constructor].
  - cbn [handle_process_fsl_frame]. apply IH; [| |done].
    + by apply on_hands_session_ok.
    + rewrite on_hands_buffer. by apply push_frame_Forall.
Qed.

(** X11. In a session whose buffered and incoming frames are all readable
    and within the coordinate bound, served by an artifact fitted on 76
    features whose scaler is moderate, every message the client receives
    for a frame with hands is a progress notice (fewer than 15 frames
    buffered) or a recognised sign (at least 15): no [insufficient_data],
    no failed extraction and no prediction error, although the buffered
    frames are padded by each classification. *)
Theorem readable_stream_gets_signs (art : artifact) (st : fsl_store frame)
    (u : user_id) (xs : list frame) :
  fitted_on_76 art -> scaler_moderate art -> session_ok st u ->
  Forall (fun f => readable_frame f = true
                   ∧ frame_within coordinate_bound f = true)
         (default [] (user_buffers st !! u)) ->
  Forall (fun f => readable_frame f = true
                   ∧ frame_within coordinate_bound f = true) xs ->
  Forall progress_or_sign
         (emits (run_frames_shared (Some art) st u (hand_frames xs)).2).
Proof.
  intros Hfit _ Hok Hbuf Hxs.
  destruct (run_frames_shared_step (Some art) u (hand_frames xs) st st
              (same_padded_refl st)) as [_ <-].
  apply readable_stream_pure; [done | done | |].
  - eapply Forall_impl; [exact Hbuf|]. by intros f [? _].
  - eapply Forall_impl; [exact Hxs|]. by intros f [? _].
Qed.

End ReadableStream.

(** X11, on 18 one-hand frames sent to a fresh session: four progress
    notices and two signs. *)
Lemma readable_stream_gets_signs_witness :
  fitted_on_76 artifact_76 ∧ scaler_moderate artifact_76 ∧
  session_ok (@empty_store frame) 7 ∧
  Forall (fun f => readable_frame f = true
                   ∧ frame_within coordinate_bound f = true)
         (one_hand_window 18) ∧
  length (emits (run_frames_shared (M := approx_math) (Some artifact_76)
                   empty_store 7 (hand_frames (one_hand_window 18))).2) = 6 ∧
  Forall progress_or_sign
         (emits (run_frames_shared (M := approx_math) (Some artifact_76)
                   empty_store 7 (hand_frames (one_hand_window 18))).2).
Proof.
  assert (Hfit : fitted_on_76 artifact_76).
  { split; [reflexivity|]. intros x. cbn. lia. }
  assert (Hmod : scaler_moderate artifact_76).
  { split; apply Forall_replicate; [split|];
      apply (bool_decide_unpack _); vm_compute; exact I. }
  assert (Hok : session_ok (@empty_store frame) 7) by exact I.
  assert (Hxs : Forall (fun f => readable_frame f = true
                                 ∧ frame_within coordinate_bound f = true)
                       (one_hand_window 18)).
  { apply Forall_forall. intros f Hf. apply list_elem_of_In in Hf.
    assert (H : readable_frame f && frame_within coordinate_bound f = true).
    { revert f Hf. apply forallb_forall. vm_compute. reflexivity. }
    by apply andb_true_iff in H. }
  split; [exact Hfit|]. split; [exact Hmod|]. split; [exact Hok|].
  split; [exact Hxs|].
  split; [vm_compute; reflexivity|].
  apply (readable_stream_gets_signs (M := approx_math) artifact_76
           empty_store 7 (one_hand_window 18) Hfit Hmod Hok);
    [constructor | exact Hxs].
Defined.

(* --------------------------------------------------------------------- *)
(** ** Static signs                                                        *)
(* --------------------------------------------------------------------- *)

Lemma landmark_xyz_is_Some (lm : landmark) :
  is_Some (landmark_xyz lm) <-> numeric_landmark lm = true.
Proof.
  unfold landmark_xyz, numeric_landmark.
  destruct (lm_x lm) as [[x|]|], (lm_y lm) as [[y|]|], (lm_z lm) as [[z|]|];
    split; (done || by intros [? ?] || by eexists).
Qed.

Lemma mapM_landmark_xyz_is_Some (ls : list landmark) :
  is_Some (mapM landmark_xyz ls) <-> forallb numeric_landmark ls = true.
Proof.
  rewrite mapM_is_Some, forallb_forall, Forall_forall.
  split; intros H lm Hin; apply landmark_xyz_is_Some, H;
    by apply list_elem_of_In.
Qed.

Lemma sub3_diag (p : point3) : sub3 p p = origin3.
Proof.
  destruct p as [[x y] z]. unfold sub3, origin3, Qcminus. cbn [fst snd].
  by rewrite !Qcplus_opp_r.
Qed.

Lemma div3_origin (s : Qc) : div3 origin3 s = origin3.
Proof.
  unfold div3, origin3. cbn [fst snd]. unfold Qcdiv.
  by rewrite !Qcmult_0_l.
Qed.

Lemma lookup_map {A B : Type} (f : A -> B) (l : list A) (i : nat) :
  map f l !! i = f <$> (l !! i).
Proof. exact (list_lookup_fmap f l i). Qed.

Section StaticSignsFacts.

Context {M : MathLib}.

Lemma normalize_hand_landmarks_Some (ls : list landmark)
    (coords : list point3) :
  normalize_hand_landmarks ls = Some coords ->
  length coords = length ls ∧ 10 <= length ls ∧
  coords !! 0 = Some origin3.
Proof.
  unfold normalize_hand_landmarks. intros H.
  destruct (mapM landmark_xyz ls) as [raw|] eqn:Eraw; [|done].
  apply length_mapM in Eraw. cbn [mbind option_bind] in H.
  destruct (raw !! 0) as [center|] eqn:E0; [|done].
  cbn [mbind option_bind] in H.
  rewrite !lookup_map, E0 in H.
  destruct (raw !! 9) as [p9|] eqn:E9; [|done].
  cbn [fmap option_fmap option_map mbind option_bind] in H.
  apply lookup_lt_Some in E9.
  injection H as <-.
  split; [|split; [lia|]].
  - case_bool_decide; by rewrite ?length_map.
  - case_bool_decide;
      rewrite ?lookup_map, E0; cbn [fmap option_fmap option_map];
      by rewrite sub3_diag, ?div3_origin.
Qed.

Lemma normalize_hand_landmarks_is_Some (ls : list landmark) :
  is_Some (normalize_hand_landmarks ls)
  <-> 10 <= length ls ∧ forallb numeric_landmark ls = true.
Proof.
  split.
  - intros [coords H]. split.
    + by apply normalize_hand_landmarks_Some in H as (_ & ? & _).
    + apply mapM_landmark_xyz_is_Some. unfold normalize_hand_landmarks in H.
      by destruct (mapM landmark_xyz ls); [eexists|].
  - intros [Hlen Hnum]. apply mapM_landmark_xyz_is_Some in Hnum as [raw Eraw].
    unfold normalize_hand_landmarks. rewrite Eraw.
    apply length_mapM in Eraw as Hl. cbn [mbind option_bind].
    destruct (lookup_lt_is_Some_2 raw 0) as [c E0]; [lia|].
    destruct (lookup_lt_is_Some_2 raw 9) as [p9 E9]; [lia|].
    rewrite E0. cbn [mbind option_bind]. rewrite !lookup_map, E0, E9.
    cbn [fmap option_fmap option_map mbind option_bind]. by eexists.
Qed.

Lemma flat_map_xyz_length (coords : list point3) :
  length (flat_map (fun p : point3 => [p.1.1; p.1.2; p.2]) coords)
  = 3 * length coords.
Proof. induction coords as [|p l IH]; cbn [flat_map length app]; lia. Qed.

Lemma flatten_hand_with_features_Some (hand : hand_entry) (f : list Qc) :
  flatten_hand_with_features hand = Some f ->
  usable_hand hand = true ∧
  length f = 3 * landmark_count hand + 17 ∧
  take 3 f = replicate 3 0%Qc.
Proof.
  unfold flatten_hand_with_features, usable_hand, landmark_count.
  destruct (entry_landmarks hand) as [ls|]; [|done].
  cbn [mbind option_bind from_option id]. intros H.
  destruct (normalize_hand_landmarks ls) as [coords|] eqn:En; [|done].
  assert (Hnum : forallb numeric_landmark ls = true).
  { apply (normalize_hand_landmarks_is_Some ls). by eexists. }
  apply normalize_hand_landmarks_Some in En as (Hlen & _ & H0).
  cbn [mbind option_bind] in H. rewrite H0 in H. cbn [mbind option_bind] in H.
  destruct (mapM _ [4; 8; 12; 16; 20]) as [from_wrist|] eqn:Ew; [|done].
  cbn [mbind option_bind] in H.
  destruct (mapM _ finger_tip_pairs) as [between|] eqn:Eb; [|done].
  cbn [mbind option_bind] in H. injection H as <-.
  assert (H20 : 20 < length coords).
  { assert (Hs : is_Some (mapM (fun idx => p ← coords !! idx;
                                  Some (norm3 (sub3 p origin3)))
                               [4; 8; 12; 16; 20])) by by eexists.
    rewrite mapM_is_Some in Hs.
    do 4 apply Forall_cons in Hs as [_ Hs]. apply Forall_cons in Hs as [Hs _].
    cbn [compose] in Hs.
    destruct (coords !! 20) eqn:E; [by apply lookup_lt_Some in E|].
    by destruct Hs. }
  apply length_mapM in Ew, Eb.
  split; [|split].
  - rewrite Hnum, andb_true_r. apply Nat.leb_le. lia.
  - rewrite !length_app, flat_map_xyz_length, <- Ew, <- Eb, Hlen.
    cbn [length finger_tip_pairs]. lia.
  - destruct coords as [|p coords]; [done|]. injection H0 as ->.
    reflexivity.
Qed.

Lemma flatten_hand_with_features_is_Some (hand : hand_entry) :
  is_Some (flatten_hand_with_features hand) <-> usable_hand hand = true.
Proof.
  split.
  { intros [f Hf]. by apply flatten_hand_with_features_Some in Hf as [? _]. }
  unfold flatten_hand_with_features, usable_hand.
  destruct (entry_landmarks hand) as [ls|]; [|done].
  intros [Hlen Hnum]%andb_true_iff. apply Nat.leb_le in Hlen.
  destruct (proj2 (normalize_hand_landmarks_is_Some ls)) as [coords En];
    [split; [lia | done]|].
  cbn [mbind option_bind]. rewrite En. cbn [mbind option_bind].
  apply normalize_hand_landmarks_Some in En as (Hl & _ & H0).
  rewrite H0. cbn [mbind option_bind].
  assert (Hidx : forall i, i <= 20 -> is_Some (coords !! i))
    by (intros i Hi; apply lookup_lt_is_Some_2; lia).
  destruct (mapM _ [4; 8; 12; 16; 20]) as [from_wrist|] eqn:Ew.
  2:{ exfalso. apply (proj1 (eq_None_not_Some _) Ew), mapM_is_Some.
      repeat (apply Forall_cons_2;
        [cbn [compose];
         match goal with |- is_Some (coords !! ?i ≫= _) =>
           destruct (Hidx i) as [? ->]; [lia | by eexists] end|]).
      apply Forall_nil_2. }
  cbn [mbind option_bind].
  destruct (mapM _ finger_tip_pairs) as [between|] eqn:Eb.
  2:{ exfalso. apply (proj1 (eq_None_not_Some _) Eb), mapM_is_Some.
      repeat (apply Forall_cons_2;
        [cbn [compose fst snd];
         match goal with |- is_Some (coords !! ?i ≫= _) =>
           destruct (Hidx i) as [? ->]; [lia|]; cbn [mbind option_bind];
           match goal with |- is_Some (coords !! ?j ≫= _) =>
             destruct (Hidx j) as [? ->]; [lia | by eexists] end end|]).
      apply Forall_nil_2. }
  by eexists.
Qed.

End StaticSignsFacts.

Section StaticSignsTheorems.

Context {M : MathLib}.

Lemma process_one_hand (hand : hand_entry) :
  process_landmarks_for_prediction [hand]
  = f ← flatten_hand_with_features hand;
    Some (f ++ replicate (length f) 0%Qc).
Proof. reflexivity. Qed.

(** The two-hand branch by the order in which the hands are flattened. *)
Lemma process_two_hands (hand1 hand2 : hand_entry) :
  process_landmarks_for_prediction [hand1; hand2]
  = match entry_label hand1 with
    | None => None
    | Some label1 =>
        if bool_decide (label1 = "Right") then
          match entry_label hand2 with
          | None => None
          | Some label2 =>
              if bool_decide (label2 = "Left") then
                l ← flatten_hand_with_features hand2;
                r ← flatten_hand_with_features hand1; Some (l ++ r)
              else
                l ← flatten_hand_with_features hand1;
                r ← flatten_hand_with_features hand2; Some (l ++ r)
          end
        else
          l ← flatten_hand_with_features hand1;
          r ← flatten_hand_with_features hand2; Some (l ++ r)
    end.
Proof.
  unfold process_landmarks_for_prediction.
  destruct (entry_label hand1) as [label1|]; [|done].
  cbn [mbind option_bind]. case_bool_decide; [|done].
  destruct (entry_label hand2) as [label2|]; [|done].
  cbn [fmap option_fmap option_map option_bind]. by case_bool_decide.
Qed.

(** In the arithmetic of the model, [process_landmarks_for_prediction]
    returns a vector exactly for one usable hand, or for two usable hands
    whose labels can be read; the vector has [3 n + 17] entries per hand of
    [n] landmarks, twice that for a single hand. *)
Lemma process_landmarks_is_Some (hands_data : list hand_entry) :
  (is_Some (process_landmarks_for_prediction hands_data) <->
   match hands_data with
   | [hand] => usable_hand hand = true
   | [hand1; hand2] =>
       labels_present hand1 hand2 = true ∧
       usable_hand hand1 = true ∧ usable_hand hand2 = true
   | _ => False
   end) ∧
  ∀ v, process_landmarks_for_prediction hands_data = Some v ->
       length v = match hands_data with
                  | [hand] => 2 * (3 * landmark_count hand + 17)
                  | hands => sum_list ((fun hand => 3 * landmark_count hand + 17)
                                       <$> hands)
                  end ∧
       (Forall (fun hand => landmark_count hand = 21) hands_data ->
        length v = 160).
Proof.
  destruct hands_data as [|hand1 [|hand2 [|hand3 rest]]].
  - split; [split; [by intros [? ?] | done] | done].
  - rewrite process_one_hand. split.
    + rewrite <- flatten_hand_with_features_is_Some.
      destruct (flatten_hand_with_features hand1); cbn [mbind option_bind];
        split; intros [? ?]; by eexists.
    + intros v Hv.
      destruct (flatten_hand_with_features hand1) as [f|] eqn:Ef; [|done].
      injection Hv as <-.
      apply flatten_hand_with_features_Some in Ef as (_ & Hlen & _).
      rewrite length_app, length_replicate, Hlen.
      split; [lia|]. intros [-> _]%Forall_cons. reflexivity.
  - rewrite process_two_hands.
    rewrite <- !flatten_hand_with_features_is_Some. unfold labels_present.
    assert (Horder : ∀ a b : hand_entry,
      (is_Some (l ← flatten_hand_with_features a;
                r ← flatten_hand_with_features b; Some (l ++ r))
       <-> is_Some (flatten_hand_with_features a)
           ∧ is_Some (flatten_hand_with_features b)) ∧
      ∀ v, (l ← flatten_hand_with_features a;
            r ← flatten_hand_with_features b; Some (l ++ r)) = Some v ->
           length v = (3 * landmark_count a + 17)
                      + (3 * landmark_count b + 17)).
    { intros a b.
      destruct (flatten_hand_with_features a) as [fa|] eqn:Ea,
               (flatten_hand_with_features b) as [fb|] eqn:Eb;
        cbn [mbind option_bind];
        (split; [split; [intros [? ?] | intros [[? ?] [? ?]]];
                 (done || (split; by eexists) || by eexists) |]);
        intros v Hv; [|done..].
      injection Hv as <-.
      apply flatten_hand_with_features_Some in Ea as (_ & Ha & _).
      apply flatten_hand_with_features_Some in Eb as (_ & Hb & _).
      rewrite length_app. lia. }
    assert (Hlen160 : ∀ v : list Qc,
      length v = (3 * landmark_count hand1 + 17)
                 + (3 * landmark_count hand2 + 17) ->
      length v = sum_list ((fun hand => 3 * landmark_count hand + 17)
                           <$> [hand1; hand2]) ∧
      (Forall (fun hand => landmark_count hand = 21) [hand1; hand2] ->
       length v = 160)).
    { intros v ->. split; [cbn; lia|].
      intros [-> [-> _]%Forall_cons]%Forall_cons. reflexivity. }
    destruct (entry_label hand1) as [label1|].
    2:{ split; [split; [by intros [? ?] | by intros [? _]] | done]. }
    case_bool_decide.
    + destruct (entry_label hand2) as [label2|].
      2:{ split; [split; [by intros [? ?] | intros [? _]] | done].
          by case_bool_decide. }
      rewrite (bool_decide_eq_true_2 (is_Some (Some label2)))
        by by eexists.
      case_bool_decide.
      * destruct (Horder hand2 hand1) as [H1 H2]. split.
        -- rewrite H1. tauto.
        -- intros v Hv. apply Hlen160. rewrite (H2 v Hv). lia.
      * destruct (Horder hand1 hand2) as [H1 H2]. split.
        -- rewrite H1. tauto.
        -- intros v Hv. apply Hlen160, H2, Hv.
    + destruct (Horder hand1 hand2) as [H1 H2]. split.
      * rewrite H1. tauto.
      * intros v Hv. apply Hlen160, H2, Hv.
  - split; [split; [by intros [? ?] | done] | done].
Qed.

(** X12. [process_landmarks_for_prediction] returns a vector only for one
    usable hand, or for two usable hands whose labels can be read (the
    second label is read only when the first is "Right"); a usable hand has
    the key ['landmarks'] with at least 21 landmarks of three numbers.  The
    returned vector has [3 n + 17] entries per hand of [n] landmarks, twice
    that for a single hand: 160 entries when the hands have 21
    landmarks. *)
Theorem static_features_only_for_usable_hands (hands_data : list hand_entry)
    (v : list Qc) :
  process_landmarks_for_prediction hands_data = Some v ->
  match hands_data with
  | [hand] => usable_hand hand = true
  | [hand1; hand2] =>
      labels_present hand1 hand2 = true ∧
      usable_hand hand1 = true ∧ usable_hand hand2 = true
  | _ => False
  end ∧
  length v = match hands_data with
             | [hand] => 2 * (3 * landmark_count hand + 17)
             | hands => sum_list ((fun hand => 3 * landmark_count hand + 17)
                                  <$> hands)
             end ∧
  (Forall (fun hand => landmark_count hand = 21) hands_data ->
   length v = 160).
Proof.
  intros Hv. destruct (process_landmarks_is_Some hands_data) as [Hiff Hlen].
  split; [apply Hiff; by exists v | by apply Hlen].
Qed.

(** X13. Two hands labelled "Right" and "Left" are put in the order left,
    right: giving them in either order returns the same vector, the
    features of the left hand followed by those of the right hand. *)
Theorem left_hand_comes_first (hand1 hand2 : hand_entry) :
  entry_label hand1 = Some "Right" -> entry_label hand2 = Some "Left" ->
  process_landmarks_for_prediction [hand1; hand2]
  = process_landmarks_for_prediction [hand2; hand1] ∧
  process_landmarks_for_prediction [hand1; hand2]
  = (l ← flatten_hand_with_features hand2;
     r ← flatten_hand_with_features hand1; Some (l ++ r)).
Proof.
  intros H1 H2. rewrite !process_two_hands, H1, H2.
  rewrite (bool_decide_eq_true_2 ("Right" = "Right")) by done.
  rewrite (bool_decide_eq_true_2 ("Left" = "Left")) by done.
  by rewrite (bool_decide_eq_false_2 ("Left" = "Right")) by done.
Qed.

(** X14. In every returned vector the three coordinates of the wrist of the
    first hand are 0, and for a single hand the second half of the vector,
    which stands for the missing hand, is 0. *)
Theorem static_vector_zero_entries (hands_data : list hand_entry)
    (v : list Qc) :
  process_landmarks_for_prediction hands_data = Some v ->
  take 3 v = replicate 3 0%Qc ∧
  (length hands_data = 1 ->
   drop (length v / 2) v = replicate (length v / 2) 0%Qc).
Proof.
  destruct hands_data as [|hand1 [|hand2 [|hand3 rest]]]; [done| | |done].
  - rewrite process_one_hand.
    destruct (flatten_hand_with_features hand1) as [f|] eqn:Ef; [|done].
    cbn [mbind option_bind]. intros [= <-].
    apply flatten_hand_with_features_Some in Ef as (_ & Hlen & H3).
    split.
    + rewrite take_app_le by lia. exact H3.
    + intros _. rewrite length_app, length_replicate.
      replace ((length f + length f) / 2) with (length f)
        by (apply Nat.div_unique_exact; lia).
      by rewrite drop_app_length.
  - rewrite process_two_hands. intros Hv. split; [|done].
    assert (Hpair : ∀ a b : hand_entry,
      (l ← flatten_hand_with_features a;
       r ← flatten_hand_with_features b; Some (l ++ r)) = Some v ->
      take 3 v = replicate 3 0%Qc).
    { intros a b H.
      destruct (flatten_hand_with_features a) as [fa|] eqn:Ea; [|done].
      destruct (flatten_hand_with_features b) as [fb|]; [|done].
      cbn [mbind option_bind] in H. injection H as <-.
      apply flatten_hand_with_features_Some in Ea as (_ & Hlen & H3).
      rewrite take_app_le by lia. exact H3. }
    destruct (entry_label hand1) as [label1|]; [|done].
    case_bool_decide; [|by eapply Hpair].
    destruct (entry_label hand2) as [label2|]; [|done].
    case_bool_decide; by eapply Hpair.
Qed.

End StaticSignsTheorems.

(** X12, on one hand of 21 landmarks: the vector has 160 entries. *)
Lemma static_features_only_for_usable_hands_witness :
  ∃ v, process_landmarks_for_prediction (M := approx_math)
         [example_entry 1 "Right"] = Some v ∧
       usable_hand (example_entry 1 "Right") = true ∧
       length v = 160.
Proof.
  destruct (process_landmarks_for_prediction (M := approx_math)
              [example_entry 1 "Right"]) as [v|] eqn:E;
    [|by vm_compute in E].
  exists v. split; [reflexivity|].
  destruct (static_features_only_for_usable_hands (M := approx_math)
              [example_entry 1 "Right"] v E) as (Hu & _ & H160).
  split; [exact Hu|]. apply H160.
  constructor; [vm_compute; reflexivity | constructor].
Defined.

(** X13, on two example hands. *)
Lemma left_hand_comes_first_witness :
  entry_label (example_entry 1 "Right") = Some "Right" ∧
  entry_label (example_entry 5 "Left") = Some "Left" ∧
  process_landmarks_for_prediction (M := approx_math)
    [example_entry 1 "Right"; example_entry 5 "Left"]
  = process_landmarks_for_prediction (M := approx_math)
      [example_entry 5 "Left"; example_entry 1 "Right"].
Proof.
  split; [reflexivity|]. split; [reflexivity|].
  exact (proj1 (left_hand_comes_first (M := approx_math)
                  (example_entry 1 "Right") (example_entry 5 "Left")
                  eq_refl eq_refl)).
Defined.

(** The example hand alone gives 160 entries. *)
Example static_one_hand_160 :
  length <$> process_landmarks_for_prediction (M := approx_math)
               [example_entry 1 "Right"] = Some 160.
Proof. vm_compute. reflexivity. Qed.

(** X14, on the example hand. *)
Lemma static_vector_zero_entries_witness :
  ∃ v, process_landmarks_for_prediction (M := approx_math)
         [example_entry 1 "Right"] = Some v ∧
       take 3 v = replicate 3 0%Qc ∧
       drop (length v / 2) v = replicate (length v / 2) 0%Qc.
Proof.
  destruct (process_landmarks_for_prediction (M := approx_math)
              [example_entry 1 "Right"]) as [v|] eqn:E;
    [|by vm_compute in E].
  exists v. split; [reflexivity|].
  destruct (static_vector_zero_entries (M := approx_math)
              [example_entry 1 "Right"] v E) as [H1 H2].
  split; [exact H1 | exact (H2 eq_refl)].
Defined.

(* --------------------------------------------------------------------- *)
(** ** A game round: start, then one score from every participant        *)
(* --------------------------------------------------------------------- *)



(** An accepted start leaves the room ready for the end-game signals: the
    new row is the latest one of the room, the scores are marked unsaved,
    and what the room held under [final_scores] is still there. *)
Lemma handle_start_game_accepted (w : world) (u : user_id) (c : string)
    (r : room) :
  rooms w !! c = Some r -> cameras_ready r ->
  let w1 := (handle_start_game w (Some u) (Some c)).1 in
  let r1 := pop_learning_material (set_scores_saved false r) in
  let row := mk_rooms_row (S (length (rooms_table (db w)))) c
               (default "Unknown" (game_type r)) (default 30 (duration r))
               (length (participants r)) (creator_id_in_store w r)
               (default "alphabet" (learning_material r)) in
  room_view w1 c r1 row ∧ unsaved r1 ∧
  game_sessions_table (db w1) = game_sessions_table (db w).
Proof.
  intros Hr [Hready Hpos]. cbn zeta. unfold handle_start_game. rewrite Hr.
  rewrite (bool_decide_eq_true_2 _ Hready).
  apply Nat.ltb_lt in Hpos. rewrite Hpos. cbn [andb fst].
  unfold save_game_instance_to_db. cbn [rooms game_states db].
  rewrite lookup_insert_eq.
  cbn [creator game_type duration participants learning_material
       set_scores_saved users_table rooms_table game_sessions_table].
  split; [|done]. unfold room_view, latest_room_row.
  cbn [rooms game_states db rooms_table List.find row_room_code].
  rewrite !lookup_insert_eq, bool_decide_eq_true_2 by done.
  split; [done|]. split; [by eexists | done].
Qed.






(* --------------------------------------------------------------------- *)
(** ** Room membership                                                     *)
(* --------------------------------------------------------------------- *)

Lemma ready_users_le (cs : gmap user_id camera) : ready_users cs <= size cs.
Proof. apply map_subseteq_size, map_filter_subseteq. Qed.

Lemma ready_users_insert_not_ready (cs : gmap user_id camera) (u : user_id)
    (name : string) :
  ready_users (<[u := mk_camera name false]> cs)
  < size (<[u := mk_camera name false]> cs).
Proof.
  unfold ready_users. rewrite map_filter_insert_False by done.
  rewrite <- (insert_delete_eq cs).
  rewrite map_size_insert_None by apply lookup_delete_eq.
  pose proof (ready_users_le (delete u cs)) as H. unfold ready_users in H.
  lia.
Qed.

Lemma ready_users_all (cs : gmap user_id camera) :
  (∀ v cam, cs !! v = Some cam -> camera_ready cam = true) ->
  ready_users cs = size cs.
Proof.
  intros H. unfold ready_users. f_equal. apply map_filter_id.
  intros v cam Hv. by apply (H v).
Qed.

Lemma handle_join_room (w : world) (u : user_id) (c name : string)
    (ml : bool) (r : room) :
  rooms w !! c = Some r ->
  let w1 := (handle_join w u (Some c) name ml).1 in
  rooms w1 !! c
  = Some (set_camera_status
            (<[u := mk_camera name false]> (default ∅ (camera_status r)))
            (set_members (members r + 1)
               (if bool_decide (name ∈ participants r) then r
                else set_participants (participants r ++ [name]) r))) ∧
  game_states w1 = game_states w ∧ db w1 = db w.
Proof.
  intros Hr. cbn zeta. unfold handle_join. rewrite Hr.
  cbn [fst rooms game_states db]. rewrite lookup_insert_eq.
  by case_bool_decide.
Qed.

(** X16. A user that has joined a room must report the camera ready before
    a game can start there: right after the join every start request is
    answered with the "not all cameras ready" error and nothing is written
    to the store; when all other entries are ready, the start is accepted
    once the joined user has sent [camera_ready]. *)
Theorem joined_user_must_report_camera (w : world) (u v : user_id)
    (c name : string) (ml : bool) (r : room) :
  rooms w !! c = Some r ->
  let w1 := (handle_join w u (Some c) name ml).1 in
  let w2 := (handle_camera_ready w1 (member_session u c name)).1.1 in
  (∃ ready total,
     ready < total ∧
     (handle_start_game w1 (Some v) (Some c)).2
     = [ErrorToRequester (not_ready_message ready total)] ∧
     db (handle_start_game w1 (Some v) (Some c)).1 = db w) ∧
  ((∀ v' cam, default ∅ (camera_status r) !! v' = Some cam -> v' ≠ u ->
              camera_ready cam = true) ->
   (handle_start_game w2 (Some v) (Some c)).2 = [StartGameCountdown c]).
Proof.
  intros Hr. cbn zeta.
  destruct (handle_join_room w u c name ml r Hr) as (Hr1 & Hgs1 & Hdb1).
  cbn zeta in Hr1, Hgs1, Hdb1.
  set (w1 := (handle_join w u (Some c) name ml).1) in *.
  set (cs := default ∅ (camera_status r)) in *.
  split.
  - exists (ready_users (<[u := mk_camera name false]> cs)),
           (size (<[u := mk_camera name false]> cs)).
    split; [apply ready_users_insert_not_ready|].
    pose proof (handle_start_game_gate w1 v c _ Hr1) as (_ & _ & Hrej).
    cbn [camera_status set_camera_status from_option id] in Hrej.
    destruct Hrej as (Hev & _ & Hdb).
    { intros [Heq _].
      pose proof (ready_users_insert_not_ready cs u name). lia. }
    split; [exact Hev|]. by rewrite Hdb.
  - intros Hothers.
    unfold handle_camera_ready, member_session.
    cbn [session_user_id session_room]. rewrite Hr1.
    cbn [camera_status set_camera_status from_option id].
    rewrite lookup_insert_eq. cbn [fst cam_username].
    set (cs2 := <[u := mk_camera name true]>
                  (<[u := mk_camera name false]> cs)).
    match goal with |- context [handle_start_game ?x _ _] =>
      set (w2 := x) end.
    assert (Hr2 : ∃ r2, rooms w2 !! c = Some r2 ∧ camera_status r2 = Some cs2).
    { eexists. split; [apply lookup_insert_eq | reflexivity]. }
    destruct Hr2 as (r2 & Hr2 & Hcs2).
    pose proof (handle_start_game_gate w2 v c r2 Hr2) as (_ & Hacc & _).
    rewrite Hcs2 in Hacc. cbn [from_option id] in Hacc.
    apply Hacc. split.
    + apply ready_users_all. intros v' cam. unfold cs2.
      rewrite insert_insert_eq. intros [[<- <-]|[Hne Hv]]%lookup_insert_Some;
        [done|]. by apply (Hothers v').
    + unfold cs2. rewrite insert_insert_eq.
      rewrite <- (insert_delete_eq cs).
      rewrite map_size_insert_None by apply lookup_delete_eq. lia.
Qed.

(** X16, on the scenario room with all three cameras ready: user 4 joins,
    the start is refused with "3/4 ready", and accepted after user 4 has
    reported the camera. *)
Lemma joined_user_must_report_camera_witness :
  let w1 := (handle_join (world_abcdef true) 4 (Some "ABCDEF") "u4"
                         true).1 in
  let w2 := (handle_camera_ready w1 (member_session 4 "ABCDEF" "u4")).1.1 in
  rooms (world_abcdef true) !! "ABCDEF" = Some (room_abcdef true) ∧
  (handle_start_game w1 (Some 1) (Some "ABCDEF")).2
  = [ErrorToRequester "Not all cameras ready. 3/4 ready."] ∧
  (handle_start_game w2 (Some 1) (Some "ABCDEF")).2
  = [StartGameCountdown "ABCDEF"].
Proof.
  cbn zeta.
  assert (Hr : rooms (world_abcdef true) !! "ABCDEF"
               = Some (room_abcdef true)) by reflexivity.
  split; [exact Hr|]. split; [vm_compute; reflexivity|].
  apply (joined_user_must_report_camera (world_abcdef true) 4 1
           "ABCDEF" "u4" true (room_abcdef true) Hr).
  intros v' cam Hv' _. revert Hv'.
  cbn [room_abcdef camera_status from_option id].
  rewrite !lookup_insert_Some, lookup_empty.
  intros [[_ <-]|[_ [[_ <-]|[_ [[_ <-]|[_ ?]]]]]]; done.
Defined.

(** X17. [check_camera_readiness] compares the ready cameras with the
    member count, [handle_start_game] with the number of camera entries.
    While the two totals are equal, "all cameras ready" is announced
    exactly when a start request would be accepted. *)
Theorem readiness_announcement_matches_gate (w : world) (u : user_id)
    (c : string) (r : room) :
  rooms w !! c = Some r -> is_Some (camera_status r) -> members_counted r ->
  AllCamerasReady c ∈ check_camera_readiness w c
  <-> (handle_start_game w (Some u) (Some c)).2 = [StartGameCountdown c].
Proof.
  intros Hr [cs Hcs] Hm. unfold members_counted in Hm.
  unfold check_camera_readiness, handle_start_game.
  rewrite Hr, Hcs. rewrite Hcs in Hm. cbn [from_option id] in Hm |- *.
  rewrite Hm.
  assert (Heq : bool_decide (Z.of_nat (ready_users cs) = Z.of_nat (size cs))
                = bool_decide (ready_users cs = size cs)).
  { apply bool_decide_ext. lia. }
  assert (Hpos : (0 <? Z.of_nat (size cs))%Z = (0 <? size cs)).
  { destruct (0 <? size cs) eqn:E.
    - apply Nat.ltb_lt in E. apply Z.ltb_lt. lia.
    - apply Nat.ltb_ge in E. apply Z.ltb_ge. lia. }
  rewrite Heq, Hpos.
  destruct (bool_decide (ready_users cs = size cs) && (0 <? size cs));
    cbn [snd].
  - split; [done|]. intros _. set_solver.
  - split; [|done]. intros H. set_unfold. destruct H as [H|[H|H]]; done.
Qed.

(** X17, on the scenario room, whose three members have three camera
    entries. *)
Lemma readiness_announcement_matches_gate_witness :
  rooms (world_abcdef true) !! "ABCDEF" = Some (room_abcdef true) ∧
  is_Some (camera_status (room_abcdef true)) ∧
  members_counted (room_abcdef true) ∧
  AllCamerasReady "ABCDEF"
  ∈ check_camera_readiness (world_abcdef true) "ABCDEF".
Proof.
  assert (Hr : rooms (world_abcdef true) !! "ABCDEF"
               = Some (room_abcdef true)) by reflexivity.
  assert (Hcs : is_Some (camera_status (room_abcdef true)))
    by (eexists; reflexivity).
  assert (Hm : members_counted (room_abcdef true)) by (vm_compute; reflexivity).
  split; [exact Hr|]. split; [exact Hcs|]. split; [exact Hm|].
  apply (readiness_announcement_matches_gate (world_abcdef true) 1
           "ABCDEF" (room_abcdef true) Hr Hcs Hm).
  vm_compute. reflexivity.
Defined.

(** The same user joining twice is counted twice: with the one camera
    ready, a start request is accepted although the announcement still
    waits for "1 of 2". *)
Example rejoin_counts_member_twice :
  let w0 := mk_world (<["ROOM" := mk_room 0 [] "u1" 1 None None None None
                                          None None None]> ∅) ∅
                     (db (world_abcdef true)) in
  let w1 := (handle_join w0 1 (Some "ROOM") "u1" true).1 in
  let w2 := (handle_join w1 1 (Some "ROOM") "u1" true).1 in
  let r3 := handle_camera_ready w2 (creator_session 1 "ROOM" "u1") in
  (members <$> rooms w2 !! "ROOM") = Some 2%Z ∧
  (participants <$> rooms w2 !! "ROOM") = Some ["u1"] ∧
  WaitingForCameras "ROOM" 1 2 ∈ r3.1.2 ∧
  (handle_start_game r3.1.1 (Some 1) (Some "ROOM")).2
  = [StartGameCountdown "ROOM"].
Proof.
  cbn zeta. split; [vm_compute; reflexivity|].
  split; [vm_compute; reflexivity|].
  split; [|vm_compute; reflexivity].
  vm_compute. set_solver.
Qed.

Lemma members_counted_same (r r' : room) :
  members r' = members r ->
  size (default ∅ (camera_status r')) = size (default ∅ (camera_status r)) ->
  members_counted r -> members_counted r'.
Proof. unfold members_counted. intros -> ->. done. Qed.

Lemma handle_camera_ready_counted (w : world) (s : client) (c : string)
    (r r' : room) :
  rooms w !! c = Some r -> members_counted r ->
  rooms (handle_camera_ready w s).1.1 !! c = Some r' -> members_counted r'.
Proof.
  intros Hr Hm. unfold handle_camera_ready.
  destruct (session_user_id s) as [u|]; [|cbn; congruence].
  destruct (session_room s) as [c'|]; [|cbn; congruence].
  destruct (rooms w !! c') as [r0|] eqn:Hr0; [|cbn; congruence].
  destruct (decide (c' = c)) as [->|Hne].
  - assert (r0 = r) as -> by congruence.
    destruct (default ∅ (camera_status r) !! u) as [cam|] eqn:Hu;
      cbn [fst rooms]; rewrite lookup_insert_eq; intros [= <-];
      apply (members_counted_same r); try done;
      cbn [camera_status set_camera_status from_option id].
    by rewrite map_size_insert_Some by by eexists.
  - destruct (default ∅ (camera_status r0) !! u);
      cbn [fst rooms]; rewrite lookup_insert_ne by done; congruence.
Qed.

Lemma handle_camera_stopped_counted (w : world) (s : client) (c : string)
    (r r' : room) :
  rooms w !! c = Some r -> members_counted r ->
  rooms (handle_camera_stopped w s).1 !! c = Some r' -> members_counted r'.
Proof.
  intros Hr Hm. unfold handle_camera_stopped.
  destruct (session_user_id s) as [u|]; [|cbn; congruence].
  destruct (session_room s) as [c'|]; [|cbn; congruence].
  destruct (rooms w !! c') as [r0|] eqn:Hr0; [|cbn; congruence].
  cbn [fst].
  destruct (camera_status r0) as [cs|] eqn:Hcs; [|congruence].
  destruct (cs !! u) as [cam|] eqn:Hu; [|congruence].
  cbn [rooms].
  destruct (decide (c' = c)) as [->|Hne].
  - assert (r0 = r) as -> by congruence.
    rewrite lookup_insert_eq. intros [= <-].
    apply (members_counted_same r); try done.
    cbn [camera_status set_camera_status from_option id]. rewrite Hcs.
    cbn [from_option id]. by rewrite map_size_insert_Some by by eexists.
  - rewrite lookup_insert_ne by done. congruence.
Qed.

Lemma remove_first_absent (x : string) (l : list string) :
  x ∉ l -> remove_first x l = l.
Proof.
  induction l as [|y l IH]; [done|]. intros Hx. cbn [remove_first].
  rewrite decide_False by (intros ->; apply Hx; left).
  f_equal. apply IH. intros H. apply Hx. by right.
Qed.


(** The room of a member that disconnects: deleted when no member is
    left, otherwise without the member. *)
Lemma handle_disconnect_room_member (w : world) (u : user_id)
    (c name : string) (r : room) :
  rooms w !! c = Some r ->
  let w' := (handle_disconnect_room w (member_session u c name)).1 in
  rooms w' !! c
  = (if (members r - 1 <=? 0)%Z then None else Some (room_without u name r)) ∧
  game_states w' = game_states w ∧ db w' = db w.
Proof.
  intros Hr. cbn zeta. unfold handle_disconnect_room, member_session.
  cbn [session_name session_room session_user_id session_created].
  rewrite Hr. cbn [camera_status set_members].
  set (r2 := match camera_status r with
             | Some cs => if bool_decide (is_Some (cs !! u))
                          then set_camera_status (delete u cs)
                                 (set_members (members r - 1) r)
                          else set_members (members r - 1) r
             | None => set_members (members r - 1) r
             end).
  assert (Hr2 : r2 = mk_room (members r - 1) (participants r) (creator r)
                       (creator_id r) (delete u <$> camera_status r)
                       (game_type r) (duration r) (learning_material r)
                       (creator_participated r) (scores_saved r)
                       (final_scores r)).
  { unfold r2, set_camera_status, set_members.
    destruct r as [m ps cr cid [cs|] gt du lm cp ss fs]; [|done].
    cbn [members participants creator creator_id camera_status game_type
         duration learning_material creator_participated scores_saved
         final_scores fmap option_fmap option_map].
    case_bool_decide as Hin; [done|].
    rewrite delete_id; [done|]. by apply eq_None_not_Some. }
  clearbody r2. subst r2. cbn [participants].
  case_bool_decide as Hname.
  - cbn [members set_participants fst].
    destruct (_ <=? 0)%Z; cbn [rooms game_states db];
      [by rewrite lookup_delete_eq | by rewrite lookup_insert_eq].
  - cbn [members fst].
    destruct (_ <=? 0)%Z; cbn [rooms game_states db];
      [by rewrite lookup_delete_eq|].
    rewrite lookup_insert_eq. unfold room_without.
    by rewrite remove_first_absent.
Qed.

(** X18. The member count stays equal to the number of camera entries when
    a user without an entry joins, when a member with an entry leaves a
    room that other members stay in, and under every camera report. *)
Theorem members_stay_counted (w : world) (u : user_id) (c name : string)
    (ml : bool) (s : client) (r r' : room) :
  rooms w !! c = Some r -> members_counted r ->
  (default ∅ (camera_status r) !! u = None ->
   rooms (handle_join w u (Some c) name ml).1 !! c = Some r' ->
   members_counted r') ∧
  (is_Some (default ∅ (camera_status r) !! u) ->
   rooms (handle_disconnect_room w (member_session u c name)).1 !! c
   = Some r' ->
   members_counted r') ∧
  (rooms (handle_camera_ready w s).1.1 !! c = Some r' -> members_counted r') ∧
  (rooms (handle_camera_stopped w s).1 !! c = Some r' -> members_counted r').
Proof.
  intros Hr Hm. split; [|split; [|split]].
  - intros Hu. destruct (handle_join_room w u c name ml r Hr) as (-> & _).
    intros [= <-]. unfold members_counted in *.
    cbn [members camera_status set_camera_status set_members from_option id].
    rewrite map_size_insert_None by done. lia.
  - intros [cam Hu].
    destruct (handle_disconnect_room_member w u c name r Hr) as (-> & _).
    destruct (_ <=? 0)%Z; [done|]. intros [= <-].
    unfold members_counted in *. cbn [members camera_status room_without].
    destruct (camera_status r) as [cs|];
      cbn [from_option id fmap option_fmap option_map] in *;
      [|by rewrite lookup_empty in Hu].
    assert (Hpos : 0 < size cs).
    { destruct (decide (size cs = 0)) as [E|]; [|lia].
      apply map_size_empty_inv in E. subst cs. by rewrite lookup_empty in Hu. }
    rewrite map_size_delete_Some by by eexists. lia.
  - by apply (handle_camera_ready_counted w s c r).
  - by apply (handle_camera_stopped_counted w s c r).
Qed.

(** X18, on user 4 joining the scenario room. *)
Lemma members_stay_counted_witness :
  rooms (world_abcdef true) !! "ABCDEF" = Some (room_abcdef true) ∧
  members_counted (room_abcdef true) ∧
  ∃ r', rooms (handle_join (world_abcdef true) 4 (Some "ABCDEF") "u4"
                           true).1 !! "ABCDEF" = Some r' ∧
        members r' = 4%Z ∧ members_counted r'.
Proof.
  assert (Hr : rooms (world_abcdef true) !! "ABCDEF"
               = Some (room_abcdef true)) by reflexivity.
  assert (Hm : members_counted (room_abcdef true)) by (vm_compute; reflexivity).
  split; [exact Hr|]. split; [exact Hm|].
  destruct (rooms (handle_join (world_abcdef true) 4 (Some "ABCDEF") "u4"
                               true).1 !! "ABCDEF") as [r'|] eqn:E;
    [|by vm_compute in E].
  exists r'. split; [reflexivity|]. split.
  - apply (f_equal (fmap members)) in E. vm_compute in E.
    injection E as E. symmetry. exact E.
  - apply (proj1 (members_stay_counted (world_abcdef true) 4 "ABCDEF" "u4"
                    true (member_session 4 "ABCDEF" "u4")
                    (room_abcdef true) r' Hr Hm));
      [vm_compute; reflexivity | exact E].
Defined.



Lemma membership_step_game_states (w w' : world) :
  membership_step w w' -> game_states w' = game_states w ∧ db w' = db w.
Proof.
  intros [w0 u room name ml | w0 s | w0 s | w0 s | w0 s].
  - unfold handle_join. destruct room as [c|]; [|done].
    by destruct (rooms w0 !! c).
  - unfold handle_camera_ready.
    destruct (session_user_id s) as [u|]; [|done].
    destruct (session_room s) as [c|]; [|done].
    destruct (rooms w0 !! c) as [r|]; [|done].
    by destruct (default ∅ (camera_status r) !! u).
  - unfold handle_camera_stopped.
    destruct (session_user_id s) as [u|]; [|done].
    destruct (session_room s) as [c|]; [|done].
    destruct (rooms w0 !! c) as [r|]; [|done]. cbn [fst].
    destruct (camera_status r) as [cs|]; [|done].
    by destruct (cs !! u).
  - unfold handle_disconnect_room.
    destruct (session_name s) as [name|]; [|done].
    destruct (session_room s) as [c|]; [|done].
    destruct (rooms w0 !! c) as [r|]; [|done].
    destruct (session_created s); [done|].
    destruct (bool_decide (name ∈ _)); cbn [fst];
      by destruct (_ <=? 0)%Z.
  - unfold handle_room_creator_leaving.
    destruct (session_name s) as [name|]; [|done].
    destruct (session_room s) as [c|]; [|done].
    destruct (rooms w0 !! c) as [r|]; [|done].
    by destruct (session_created s).
Qed.

Lemma membership_steps_game_states (w w' : world) :
  rtc membership_step w w' -> game_states w' = game_states w ∧ db w' = db w.
Proof.
  induction 1 as [|w1 w2 w3 Hstep _ [IH1 IH2]]; [done|].
  apply membership_step_game_states in Hstep as [H1 H2].
  split; congruence.
Qed.

Lemma save_game_results_game_states (w : world) (c : string) :
  game_states (save_game_results w c).1 = game_states w.
Proof.
  unfold save_game_results.
  destruct (rooms w !! c) as [r|]; [|done].
  destruct (final_scores r) as [fs|]; [|done].
  destruct (default false (scores_saved r)); [done|].
  destruct (_ <? _); [done|].
  by destruct (latest_room_row (db w) c).
Qed.

(** X20. A start request, whether accepted or rejected, marks the room's
    game as ongoing, and no membership handler touches that mark: whoever
    joins, leaves or reports a camera afterwards, and even when the
    creator has closed the room, the route of the room admits nobody (a
    known user is sent home with "Game already in progress") and a
    connection with that room in the session is refused.  The next end-game
    signal for the room removes the mark. *)
Theorem ongoing_room_admits_nobody (w w' : world) (u v : user_id)
    (c : string) (r : room) (s : client) (ml : bool) (sc : option score) :
  rooms w !! c = Some r ->
  rtc membership_step (handle_start_game w (Some u) (Some c)).1 w' ->
  game_ongoing w' c = true ∧
  (∀ created names, (room_route w' s c).1 ≠ RenderRoom created names) ∧
  (∀ user_id, session_user_id s = Some user_id ->
              get_user_by_id (db w') user_id = true ->
              (room_route w' s c).1
              = RedirectHome (Some "Game already in progress")) ∧
  (session_room s = Some c -> (handle_connect w' s ml).1 = false) ∧
  game_ongoing (handle_end_game w' c v sc).1.1 c = false.
Proof.
  intros Hr Hsteps.
  apply membership_steps_game_states in Hsteps as [Hgs _].
  pose proof (handle_start_game_gate w u c r Hr) as [Hstart _].
  cbn zeta in Hstart. rewrite Hstart in Hgs.
  assert (Hon : game_ongoing w' c = true).
  { unfold game_ongoing. by rewrite Hgs, lookup_insert_eq. }
  split; [exact Hon|]. split; [|split; [|split]].
  - intros created names. unfold room_route.
    destruct (session_user_id s); [|done].
    destruct (negb _); [done|]. by rewrite Hon.
  - intros user_id Hs Hknown. unfold room_route.
    by rewrite Hs, Hknown, Hon.
  - intros Hs. unfold handle_connect. rewrite Hs.
    destruct (session_user_id s); [|done].
    destruct (negb _); [done|]. by rewrite Hon.
  - unfold handle_end_game. rewrite Hgs, lookup_insert_eq.
    unfold game_ongoing.
    destruct sc as [x|].
    + cbn [rooms]. destruct (rooms w' !! c); cbn [fst].
      * rewrite save_game_results_game_states. cbn [game_states].
        by rewrite lookup_insert_eq.
      * cbn [game_states]. by rewrite lookup_insert_eq.
    + cbn [fst]. rewrite save_game_results_game_states. cbn [game_states].
      by rewrite lookup_insert_eq.
Qed.

(** X20, on the scenario room with the third camera not ready: the start
    is rejected, the creator closes the room, and user 2 is still sent
    home with "Game already in progress". *)
Lemma ongoing_room_admits_nobody_witness :
  let w1 := (handle_start_game (world_abcdef false) (Some 1)
                               (Some "ABCDEF")).1 in
  let w2 := (handle_room_creator_leaving
               w1 (creator_session 1 "ABCDEF" "u1")).1 in
  rooms (world_abcdef false) !! "ABCDEF" = Some (room_abcdef false) ∧
  rooms w2 !! "ABCDEF" = None ∧
  (room_route w2 (member_session 2 "ABCDEF" "u2") "ABCDEF").1
  = RedirectHome (Some "Game already in progress").
Proof.
  cbn zeta.
  assert (Hr : rooms (world_abcdef false) !! "ABCDEF"
               = Some (room_abcdef false)) by reflexivity.
  split; [exact Hr|]. split; [vm_compute; reflexivity|].
  refine (proj1 (proj2 (proj2
            (ongoing_room_admits_nobody (world_abcdef false) _ 1 2 "ABCDEF"
               (room_abcdef false) (member_session 2 "ABCDEF" "u2")
               true None Hr _))) 2 eq_refl _).
  - apply rtc_once. apply step_creator_leaving.
  - vm_compute. reflexivity.
Defined.

(** X21. The learning material chosen for a room lasts for one game: the
    start that follows the choice stores it with the new game and removes
    it from the room, so the next start in the same room stores the default
    "alphabet". *)
Theorem learning_material_lasts_one_game (w : world) (u : user_id)
    (c material : string) (r : room) :
  rooms w !! c = Some r -> cameras_ready r ->
  let w0 := handle_set_learning_material w (Some c) material in
  let w1 := (handle_start_game w0 (Some u) (Some c)).1 in
  let w2 := (handle_start_game w1 (Some u) (Some c)).1 in
  (row_learning_material <$> latest_room_row (db w1) c) = Some material ∧
  (learning_material <$> rooms w1 !! c) = Some None ∧
  (row_learning_material <$> latest_room_row (db w2) c) = Some "alphabet" ∧
  (row_id <$> latest_room_row (db w2) c)
  = Some (S (S (length (rooms_table (db w))))).
Proof.
  intros Hr Hready. cbn zeta.
  unfold handle_set_learning_material. rewrite Hr.
  set (w0 := mk_world _ _ _).
  assert (Hr0 : rooms w0 !! c = Some (set_learning_material material r))
    by apply lookup_insert_eq.
  destruct (handle_start_game_accepted w0 u c _ Hr0 Hready)
    as ((Hr1 & _ & Hrow1) & _ & _).
  set (w1 := (handle_start_game w0 (Some u) (Some c)).1) in *.
  cbn zeta in Hr1, Hrow1.
  assert (Hlen1 : length (rooms_table (db w1)) = S (length (rooms_table (db w)))).
  { unfold latest_room_row in Hrow1. unfold w1, handle_start_game.
    rewrite Hr0. destruct Hready as [Hready Hpos].
    cbn [camera_status set_learning_material].
    rewrite (bool_decide_eq_true_2 _ Hready).
    apply Nat.ltb_lt in Hpos. rewrite Hpos. cbn [andb fst].
    unfold save_game_instance_to_db. cbn [rooms].
    rewrite lookup_insert_eq. reflexivity. }
  destruct (handle_start_game_accepted w1 u c _ Hr1 Hready)
    as ((_ & _ & Hrow2) & _ & _).
  cbn zeta in Hrow2.
  rewrite Hrow1, Hr1, Hrow2, Hlen1. done.
Qed.

(** X21, on the scenario room with the material "numbers". *)
Lemma learning_material_lasts_one_game_witness :
  let w0 := handle_set_learning_material (world_abcdef true) (Some "ABCDEF")
              "numbers" in
  let w1 := (handle_start_game w0 (Some 1) (Some "ABCDEF")).1 in
  let w2 := (handle_start_game w1 (Some 1) (Some "ABCDEF")).1 in
  rooms (world_abcdef true) !! "ABCDEF" = Some (room_abcdef true) ∧
  cameras_ready (room_abcdef true) ∧
  map row_learning_material (rooms_table (db w2)) = ["alphabet"; "numbers"] ∧
  (row_learning_material <$> latest_room_row (db w2) "ABCDEF")
  = Some "alphabet".
Proof.
  cbn zeta.
  assert (Hr : rooms (world_abcdef true) !! "ABCDEF"
               = Some (room_abcdef true)) by reflexivity.
  assert (Hready : cameras_ready (room_abcdef true))
    by (vm_compute; split; lia).
  split; [exact Hr|]. split; [exact Hready|].
  split; [vm_compute; reflexivity|].
  exact (proj1 (proj2 (proj2
           (learning_material_lasts_one_game (world_abcdef true) 1
              "ABCDEF" "numbers" (room_abcdef true) Hr Hready)))).
Defined.

(* --------------------------------------------------------------------- *)
(** ** The float32 array                                                   *)
(* --------------------------------------------------------------------- *)

Lemma zero_in_float32 : in_float32 0%Qc.
Proof. split; qc_decide. Qed.

Lemma to_float32_in_range (q : Qc) : in_float32 q -> to_float32 q = Finite q.
Proof.
  intros [Hlo Hhi]. unfold to_float32.
  rewrite bool_decide_eq_false_2 by by apply Qcle_not_lt.
  by rewrite bool_decide_eq_false_2 by by apply Qcle_not_lt.
Qed.

Lemma to_fpoint_in_range (p : point3) :
  point_in_float32 p -> fpoint_in_range (to_fpoint p).
Proof.
  intros (Hx & Hy & Hz). unfold to_fpoint, fpoint_in_range. cbn [fst snd].
  by rewrite !to_float32_in_range.
Qed.

Lemma to_float_within (v : option coord_value) (q : Qc) :
  value_within float32_max v = true -> to_float v = Some q -> in_float32 q.
Proof.
  destruct v as [[x|]|]; cbn [value_within to_float]; [| done |].
  - intros [H1 H2]%andb_true_iff [= <-].
    apply bool_decide_eq_true in H1, H2. by split.
  - intros _ [= <-]. apply zero_in_float32.
Qed.

Lemma read_landmark_within (lm : landmark) (p : point3) :
  landmark_within float32_max lm = true -> read_landmark lm = Some p ->
  point_in_float32 p.
Proof.
  unfold landmark_within, read_landmark.
  intros [[Hx Hy]%andb_true_iff Hz]%andb_true_iff H.
  destruct (to_float (lm_x lm)) as [x|] eqn:Ex; [|done].
  destruct (to_float (lm_y lm)) as [y|] eqn:Ey; [|done].
  destruct (to_float (lm_z lm)) as [z|] eqn:Ez; [|done].
  cbn [mbind option_bind] in H. injection H as <-.
  repeat split; cbn [fst snd];
    (eapply to_float_within; [|eassumption]; done).
Qed.

Lemma mapM_Forall {A B : Type} (f : A -> option B) (P : A -> Prop)
    (Q : B -> Prop) (l : list A) (k : list B) :
  (∀ x y, P x -> f x = Some y -> Q y) ->
  Forall P l -> mapM f l = Some k -> Forall Q k.
Proof.
  intros Hf Hl Hk. apply mapM_Some in Hk.
  induction Hk as [|x y l k Hxy _ IH]; [constructor|].
  apply Forall_cons in Hl as [Hx Hl]. constructor; [by eapply Hf | by apply IH].
Qed.

Lemma zero_landmark_within : landmark_within float32_max zero_landmark = true.
Proof. vm_compute. reflexivity. Qed.

Lemma read_hand_within (h : hand) (pts : list point3) :
  hand_within float32_max h = true -> read_hand h = Some pts ->
  Forall point_in_float32 pts.
Proof.
  unfold hand_within, read_hand. rewrite take_pad_to. intros Hw.
  apply (mapM_Forall read_landmark
           (fun lm => landmark_within float32_max lm = true)).
  - intros lm p. apply read_landmark_within.
  - apply Forall_app. split.
    + apply Forall_forall. intros lm Hin.
      rewrite forallb_forall in Hw. by apply Hw, list_elem_of_In.
    + apply Forall_replicate, zero_landmark_within.
Qed.

Lemma sentinel_hand_within : hand_within float32_max sentinel_hand = true.
Proof. vm_compute. reflexivity. Qed.

Lemma read_frame_within (f : frame) (fr : list (list point3)) :
  frame_within float32_max f = true -> read_frame f = Some fr ->
  Forall (Forall point_in_float32) fr.
Proof.
  unfold frame_within, read_frame. rewrite take_pad_to. intros Hw.
  apply (mapM_Forall read_hand (fun h => hand_within float32_max h = true)).
  - intros h pts. apply read_hand_within.
  - apply Forall_app. split.
    + apply Forall_forall. intros h Hin.
      rewrite forallb_forall in Hw. by apply Hw, list_elem_of_In.
    + apply Forall_replicate, sentinel_hand_within.
Qed.

Lemma read_frames_within (frames : list frame)
    (a : list (list (list point3))) :
  within_float32 frames = true -> mapM read_frame frames = Some a ->
  Forall (Forall (Forall point_in_float32)) a.
Proof.
  unfold within_float32. intros Hw.
  apply (mapM_Forall read_frame (fun f => frame_within float32_max f = true)).
  - intros f fr. apply read_frame_within.
  - apply Forall_forall. intros f Hin.
    rewrite forallb_forall in Hw. by apply Hw, list_elem_of_In.
Qed.

(** *** Smoothing keeps the entries in range *)

Lemma forigin_in_range : fpoint_in_range forigin.
Proof. repeat split; qc_decide. Qed.

Lemma finite_zero_in_range : float_in_range (Finite 0%Qc).
Proof. split; qc_decide. Qed.

Lemma fcoord_in_range (c : nat) (p : fpoint) :
  fpoint_in_range p -> float_in_range (fcoord c p).
Proof. intros (Hx & Hy & Hz). by destruct c as [|[|c]]. Qed.

Lemma nth_Forall {A : Type} (P : A -> Prop) (l : list A) (i : nat) (d : A) :
  Forall P l -> P d -> P (nth i l d).
Proof.
  intros Hl Hd. destruct (decide (i < length l)) as [Hlt|Hge].
  - rewrite Forall_forall in Hl. apply Hl, list_elem_of_In, nth_In, Hlt.
  - rewrite nth_overflow by lia. exact Hd.
Qed.

Lemma fseries_in_range (a : float_array) (h l c : nat) :
  Forall (Forall (Forall fpoint_in_range)) a ->
  Forall float_in_range (fseries a h l c).
Proof.
  intros Ha. unfold fseries. apply Forall_forall. intros x Hx.
  apply list_elem_of_In, in_map_iff in Hx as (fr & <- & Hin).
  apply list_elem_of_In in Hin. rewrite Forall_forall in Ha.
  apply fcoord_in_range, nth_Forall; [|apply forigin_in_range].
  apply nth_Forall; [by apply Ha | constructor].
Qed.

Lemma third_of_range (a b c : Qc) :
  in_float32 a -> in_float32 b -> in_float32 c ->
  in_float32 (a * (1 / of_nat 3) + b * (1 / of_nat 3)
              + c * (1 / of_nat 3))%Qc.
Proof.
  intros [Ha1 Ha2] [Hb1 Hb2] [Hc1 Hc2].
  assert (Hw : (0 ≤ 1 / of_nat 3)%Qc) by qc_decide.
  assert (Hhi : (float32_max * (1 / of_nat 3)
                 + float32_max * (1 / of_nat 3)
                 + float32_max * (1 / of_nat 3))%Qc = float32_max)
    by qc_decide.
  assert (Hlo : (- float32_max * (1 / of_nat 3)
                 + - float32_max * (1 / of_nat 3)
                 + - float32_max * (1 / of_nat 3))%Qc = (- float32_max)%Qc)
    by qc_decide.
  split.
  - rewrite <- Hlo.
    repeat apply Qcplus_le_compat; by apply Qcmult_le_compat_r.
  - rewrite <- Hhi.
    repeat apply Qcplus_le_compat; by apply Qcmult_le_compat_r.
Qed.

Lemma float_in_range_Finite (x : float) :
  float_in_range x -> ∃ q, x = Finite q ∧ in_float32 q.
Proof. destruct x as [q| | |]; [|done..]. intros H. by exists q. Qed.

Lemma convolve_same_float_in_range (s : list float) :
  Forall float_in_range s ->
  Forall float_in_range (map cast_float32 (convolve_same_float s)).
Proof.
  intros Hs. unfold convolve_same_float. cbn zeta.
  rewrite List.map_map. apply Forall_forall. intros x Hx.
  apply list_elem_of_In, in_map_iff in Hx as (i & <- & _).
  assert (Hnth : ∀ j, float_in_range (nth j s (Finite 0%Qc)))
    by (intros j; apply nth_Forall; [done | apply finite_zero_in_range]).
  assert (Hprev : float_in_range
                    (match i with
                     | 0 => Finite 0%Qc
                     | S j => nth j s (Finite 0%Qc)
                     end))
    by (destruct i; [apply finite_zero_in_range | apply Hnth]).
  destruct (float_in_range_Finite _ Hprev) as (a & -> & Ha).
  destruct (float_in_range_Finite _ (Hnth i)) as (b & -> & Hb).
  destruct (float_in_range_Finite _ (Hnth (S i))) as (c & -> & Hc).
  cbn [float_scale float_add cast_float32].
  pose proof (third_of_range a b c Ha Hb Hc) as H.
  by rewrite (to_float32_in_range _ H).
Qed.

Lemma smooth_series_float32_in_range (s : list float) :
  Forall float_in_range s -> Forall float_in_range (smooth_series_float32 s).
Proof.
  intros Hs. unfold smooth_series_float32.
  destruct (existsb float_nonzero s); [|done].
  by apply convolve_same_float_in_range.
Qed.

Lemma smooth_sequence_float32_in_range (a : float_array) :
  Forall (Forall (Forall fpoint_in_range)) a ->
  Forall (Forall (Forall fpoint_in_range)) (smooth_sequence_float32 a).
Proof.
  intros Ha. unfold smooth_sequence_float32.
  destruct (length a <? 3); [done|].
  apply Forall_forall. intros fr Hfr.
  apply list_elem_of_In, in_map_iff in Hfr as (i & <- & _).
  apply Forall_forall. intros pts Hpts.
  apply list_elem_of_In, in_map_iff in Hpts as (h & <- & _).
  apply Forall_forall. intros p Hp.
  apply list_elem_of_In, in_map_iff in Hp as (l & <- & _).
  repeat split; cbn [fst snd];
    (apply nth_Forall; [|apply finite_zero_in_range]);
    by apply smooth_series_float32_in_range, fseries_in_range.
Qed.

(** *** Normalisation puts an in-range wrist at the origin *)

Lemma float32_sub_diag (x : float) :
  float_in_range x -> float32_sub x x = Finite 0%Qc.
Proof.
  intros (q & -> & _)%float_in_range_Finite.
  unfold float32_sub. cbn [float_opp float_add cast_float32].
  rewrite Qcplus_opp_r. apply to_float32_in_range, zero_in_float32.
Qed.

Lemma float_zero_of_not_nonzero (x : float) :
  float_in_range x -> float_nonzero x = false -> x = Finite 0%Qc.
Proof.
  intros (q & -> & _)%float_in_range_Finite. cbn [float_nonzero].
  unfold nonzero. intros H%negb_false_iff. apply bool_decide_eq_true in H.
  by subst.
Qed.

Lemma normalize_hand_float32_wrist (pts : list fpoint) :
  Forall fpoint_in_range pts ->
  nth 0 (normalize_hand_float32 pts) forigin = forigin.
Proof.
  intros Hpts. unfold normalize_hand_float32. cbn zeta.
  destruct pts as [|[[x y] z] pts]; [done|].
  apply Forall_cons in Hpts as [(Hx & Hy & Hz) _]. cbn [fst snd] in Hx, Hy, Hz.
  cbn [nth fst snd].
  destruct (float_nonzero x || float_nonzero y || float_nonzero z) eqn:E.
  - cbn [map nth]. unfold fsub, forigin. cbn [fst snd].
    by rewrite !float32_sub_diag.
  - apply orb_false_iff in E as [[Ex Ey]%orb_false_iff Ez].
    cbn [nth]. unfold forigin.
    by rewrite (float_zero_of_not_nonzero x), (float_zero_of_not_nonzero y),
      (float_zero_of_not_nonzero z).
Qed.

(** For a window whose coordinates float32 can hold, the float32 array has
    every wrist at the origin. *)
Lemma preprocess_sequence_float32_wrist (frames : list frame) :
  within_float32 frames = true ->
  is_Some (mapM read_frame frames) ->
  ∃ fa, preprocess_sequence_float32 frames = Some fa ∧
        length fa = length frames ∧
        Forall (Forall (fun pts => nth 0 pts forigin = forigin)) fa.
Proof.
  intros Hw [a Ha]. unfold preprocess_sequence_float32. rewrite Ha.
  eexists. split; [reflexivity|].
  pose proof (read_frames_within frames a Hw Ha) as Hr.
  assert (Hc : Forall (Forall (Forall fpoint_in_range))
                      (map (map (map to_fpoint)) a)).
  { apply Forall_forall. intros fr Hfr.
    apply list_elem_of_In, in_map_iff in Hfr as (fr0 & <- & Hin).
    apply list_elem_of_In in Hin. rewrite Forall_forall in Hr.
    specialize (Hr _ Hin).
    apply Forall_forall. intros pts Hpts.
    apply list_elem_of_In, in_map_iff in Hpts as (pts0 & <- & Hin2).
    apply list_elem_of_In in Hin2. rewrite Forall_forall in Hr.
    specialize (Hr _ Hin2).
    apply Forall_forall. intros p Hp.
    apply list_elem_of_In, in_map_iff in Hp as (p0 & <- & Hin3).
    apply list_elem_of_In in Hin3. rewrite Forall_forall in Hr.
    by apply to_fpoint_in_range, Hr. }
  apply smooth_sequence_float32_in_range in Hc.
  split.
  - unfold normalize_sequence_float32, smooth_sequence_float32.
    rewrite length_map.
    destruct (length (map _ a) <? 3);
      rewrite ?length_map, ?length_seq, ?length_map;
      by apply length_mapM in Ha.
  - unfold normalize_sequence_float32.
    apply Forall_forall. intros fr Hfr.
    apply list_elem_of_In, in_map_iff in Hfr as (fr0 & <- & Hin).
    apply list_elem_of_In in Hin. rewrite Forall_forall in Hc.
    specialize (Hc _ Hin).
    apply Forall_forall. intros pts Hpts.
    apply list_elem_of_In, in_map_iff in Hpts as (pts0 & <- & Hin2).
    apply list_elem_of_In in Hin2. rewrite Forall_forall in Hc.
    by apply normalize_hand_float32_wrist, Hc.
Qed.

(** C3 (amended). For every window whose coordinates float32 can hold, the
    float32 array that [preprocess_sequence] builds has the wrist of every
    hand of every frame exactly at the origin, and in every extracted
    feature vector the 12 temporal features (entries 30..41), the 16
    trajectory features (entries 54..69) and the global features 71..74
    (separation change, relative motion, dominant-hand activity,
    synchronisation) are 0. *)
Theorem wrist_derived_features_vanish {M : MathLib} (frames : list frame)
    (v : list Qc) :
  within_float32 frames = true ->
  extract_sequence_features frames = Some v ->
  (∃ fa, preprocess_sequence_float32 frames = Some fa ∧
         length fa = length frames ∧
         Forall (Forall (fun pts => nth 0 pts forigin = forigin)) fa) ∧
  ∃ frames' a,
    preprocess_sequence frames = Some (frames', a) ∧
    length a = length frames ∧
    Forall (fun fr => length fr = 2 ∧
                      Forall (fun pts => length pts = 21 ∧
                                         nth 0 pts origin3 = origin3) fr) a ∧
    extract_enhanced_temporal_features a = replicate 12 0%Qc ∧
    extract_trajectory_features a = replicate 16 0%Qc ∧
    take 12 (drop 30 v) = replicate 12 0%Qc ∧
    take 16 (drop 54 v) = replicate 16 0%Qc ∧
    take 4 (drop 71 v) = replicate 4 0%Qc.
Proof.
  intros Hw Hv. split; [|by apply wrist_features_zero].
  apply preprocess_sequence_float32_wrist; [exact Hw|].
  apply extract_sequence_features_Some in Hv as (_ & frames' & a & Hp & _).
  unfold preprocess_sequence in Hp.
  destruct (mapM read_frame frames); [by eexists | done].
Qed.

(** C3 (amended), on the five-frame window of one-hand frames. *)
Lemma wrist_derived_features_vanish_witness :
  within_float32 (one_hand_window 5) = true ∧
  ∃ v, @extract_sequence_features approx_math (one_hand_window 5) = Some v ∧
       take 12 (drop 30 v) = replicate 12 0%Qc ∧
       take 16 (drop 54 v) = replicate 16 0%Qc ∧
       take 4 (drop 71 v) = replicate 4 0%Qc.
Proof.
  assert (Hw : within_float32 (one_hand_window 5) = true)
    by (vm_compute; reflexivity).
  split; [exact Hw|].
  destruct one_hand_window_extracted as [v E]. exists v. split; [exact E|].
  destruct (wrist_derived_features_vanish (M := approx_math) _ _ Hw E)
    as (_ & frames' & a & _ & _ & _ & _ & _ & H1 & H2 & H3).
  split; [exact H1|]. split; [exact H2 | exact H3].
Defined.

(** C3. A window of five readable frames with finite coordinates whose
    float32 array has no wrist at the origin: the coordinate [10^39]
    becomes an infinity in float32, smoothing keeps it, and subtracting the
    wrist from itself gives NaN. *)
Lemma overflowing_wrist_not_origin :
  forallb readable_frame far_window = true ∧ 5 <= length far_window ∧
  (∃ a, preprocess_sequence_float32 far_window = Some a ∧
        length a = 5 ∧
        Forall (fun fr => nth 0 (nth 0 fr []) forigin
                          = (NaN, Finite 0%Qc, Finite 0%Qc)) a) ∧
  ¬ wrist_always_origin.
Proof.
  split; [vm_compute; reflexivity|]. split; [vm_compute; lia|].
  destruct (preprocess_sequence_float32 far_window) as [a|] eqn:E;
    [|by vm_compute in E].
  assert (Ha : length a = 5 ∧
               Forall (fun fr => nth 0 (nth 0 fr []) forigin
                                 = (NaN, Finite 0%Qc, Finite 0%Qc)) a).
  { apply (f_equal (fun o => default [] o)) in E. cbn [from_option id] in E.
    subst a. split; [vm_compute; reflexivity|].
    vm_compute. repeat constructor. }
  destruct Ha as [Hlen Ha].
  split; [by exists a|].
  intros H. specialize (H far_window a E).
  destruct a as [|fr a]; [done|].
  apply Forall_cons in H as [H _]. apply Forall_cons in Ha as [Ha _].
  destruct fr as [|pts fr]; [done|].
  apply Forall_cons in H as [H _]. cbn [nth] in Ha.
  rewrite H in Ha. discriminate.
Qed.

(* --------------------------------------------------------------------- *)
(** ** A game instance: end-game signals among membership changes          *)
(* --------------------------------------------------------------------- *)

























(* --------------------------------------------------------------------- *)
(** ** Windows within the coordinate bound                                 *)
(* --------------------------------------------------------------------- *)

Section Bounded.

Variable bound : Qc.
Hypothesis bound_nonneg : (0 ≤ bound)%Qc.

Lemma zero_in_range : in_range bound 0%Qc.
Proof.
  split; [|done].
  replace 0%Qc with (- 0)%Qc by qc_decide. by apply Qcopp_le_compat.
Qed.

Lemma to_float_in_range (v : option coord_value) (q : Qc) :
  value_within bound v = true -> to_float v = Some q -> in_range bound q.
Proof.
  destruct v as [[x|]|]; cbn [value_within to_float]; [| done |].
  - intros [H1 H2]%andb_true_iff [= <-].
    apply bool_decide_eq_true in H1, H2. by split.
  - intros _ [= <-]. apply zero_in_range.
Qed.

Lemma read_landmark_in_range (lm : landmark) (p : point3) :
  landmark_within bound lm = true -> read_landmark lm = Some p ->
  point_in_range bound p.
Proof.
  unfold landmark_within, read_landmark.
  intros [[Hx Hy]%andb_true_iff Hz]%andb_true_iff H.
  destruct (to_float (lm_x lm)) as [x|] eqn:Ex; [|done].
  destruct (to_float (lm_y lm)) as [y|] eqn:Ey; [|done].
  destruct (to_float (lm_z lm)) as [z|] eqn:Ez; [|done].
  cbn [mbind option_bind] in H. injection H as <-.
  split; [|split]; cbn [fst snd];
    (eapply to_float_in_range; [|eassumption]; done).
Qed.

Lemma zero_landmark_in_bound : landmark_within bound zero_landmark = true.
Proof.
  destruct zero_in_range as [H1 H2].
  unfold landmark_within, zero_landmark. cbn [lm_x lm_y lm_z value_within].
  rewrite (bool_decide_eq_true_2 _ H1), (bool_decide_eq_true_2 _ H2). done.
Qed.

Lemma read_hand_in_range (h : hand) (pts : list point3) :
  hand_within bound h = true -> read_hand h = Some pts ->
  Forall (point_in_range bound) pts.
Proof.
  unfold hand_within, read_hand. rewrite take_pad_to. intros Hw.
  apply (mapM_Forall read_landmark
           (fun lm => landmark_within bound lm = true)).
  - intros lm p. apply read_landmark_in_range.
  - apply Forall_app. split.
    + apply Forall_forall. intros lm Hin.
      rewrite forallb_forall in Hw. by apply Hw, list_elem_of_In.
    + apply Forall_replicate, zero_landmark_in_bound.
Qed.

Lemma sentinel_hand_in_bound : hand_within bound sentinel_hand = true.
Proof.
  unfold hand_within, sentinel_hand. cbn [hand_landmarks from_option id].
  apply forallb_forall. intros lm Hin%list_elem_of_In.
  apply elem_of_take in Hin as (i & Hi & _).
  apply lookup_replicate in Hi as [-> _]. apply zero_landmark_in_bound.
Qed.

Lemma read_frame_in_range (f : frame) (fr : list (list point3)) :
  frame_within bound f = true -> read_frame f = Some fr ->
  Forall (Forall (point_in_range bound)) fr.
Proof.
  unfold frame_within, read_frame. rewrite take_pad_to. intros Hw.
  apply (mapM_Forall read_hand (fun h => hand_within bound h = true)).
  - intros h pts. apply read_hand_in_range.
  - apply Forall_app. split.
    + apply Forall_forall. intros h Hin.
      rewrite forallb_forall in Hw. by apply Hw, list_elem_of_In.
    + apply Forall_replicate, sentinel_hand_in_bound.
Qed.

Lemma read_frames_in_range (frames : list frame) (a : landmarks_array) :
  forallb (frame_within bound) frames = true ->
  mapM read_frame frames = Some a ->
  Forall (Forall (Forall (point_in_range bound))) a.
Proof.
  intros Hw.
  apply (mapM_Forall read_frame (fun f => frame_within bound f = true)).
  - intros f fr. apply read_frame_in_range.
  - apply Forall_forall. intros f Hin.
    rewrite forallb_forall in Hw. by apply Hw, list_elem_of_In.
Qed.

(** The mean of three values within the bound is within the bound. *)
Lemma third_in_range (a b c : Qc) :
  in_range bound a -> in_range bound b -> in_range bound c ->
  in_range bound (a * (1 / of_nat 3) + b * (1 / of_nat 3)
                  + c * (1 / of_nat 3))%Qc.
Proof.
  intros [Ha1 Ha2] [Hb1 Hb2] [Hc1 Hc2].
  set (w := (1 / of_nat 3)%Qc).
  assert (Hw : (0 ≤ w)%Qc) by qc_decide.
  assert (Hw3 : (w + w + w)%Qc = 1%Qc) by qc_decide.
  assert (Hhi : (bound * w + bound * w + bound * w)%Qc = bound).
  { rewrite <- !Qcmult_plus_distr_r, Hw3. apply Qcmult_1_r. }
  assert (Hlo : (- bound * w + - bound * w + - bound * w)%Qc
                = (- bound)%Qc).
  { rewrite <- !Qcmult_plus_distr_r, Hw3. apply Qcmult_1_r. }
  split.
  - rewrite <- Hlo.
    repeat apply Qcplus_le_compat; by apply Qcmult_le_compat_r.
  - rewrite <- Hhi.
    repeat apply Qcplus_le_compat; by apply Qcmult_le_compat_r.
Qed.

Lemma series_in_range (a : landmarks_array) (h l c : nat) :
  Forall (Forall (Forall (point_in_range bound))) a ->
  Forall (in_range bound) (series a h l c).
Proof.
  intros Ha. unfold series. apply Forall_forall. intros x Hx.
  apply list_elem_of_In, in_map_iff in Hx as (fr & <- & Hin).
  apply list_elem_of_In in Hin. rewrite Forall_forall in Ha.
  assert (Hp : point_in_range bound (nth l (nth h fr []) origin3)).
  { apply nth_Forall; [|split; [|split]; apply zero_in_range].
    apply nth_Forall; [by apply Ha | constructor]. }
  destruct Hp as (Hx & Hy & Hz). by destruct c as [|[|c]].
Qed.

Lemma convolve_same_in_range (s : list Qc) :
  Forall (in_range bound) s -> Forall (in_range bound) (convolve_same s).
Proof.
  intros Hs. unfold convolve_same. cbn zeta.
  apply Forall_forall. intros x Hx.
  apply list_elem_of_In, in_map_iff in Hx as (i & <- & _).
  assert (Hnth : ∀ j, in_range bound (nth j s 0%Qc))
    by (intros j; apply nth_Forall; [done | apply zero_in_range]).
  apply third_in_range; [|apply Hnth..].
  destruct i; [apply zero_in_range | apply Hnth].
Qed.

Lemma smooth_series_in_range (s : list Qc) :
  Forall (in_range bound) s -> Forall (in_range bound) (smooth_series s).
Proof.
  intros Hs. unfold smooth_series.
  destruct (existsb nonzero s); [|done]. by apply convolve_same_in_range.
Qed.

Lemma smooth_sequence_in_range (a : landmarks_array) :
  Forall (Forall (Forall (point_in_range bound))) a ->
  Forall (Forall (Forall (point_in_range bound))) (smooth_sequence a).
Proof.
  intros Ha. unfold smooth_sequence.
  destruct (length a <? 3); [done|].
  apply Forall_forall. intros fr Hfr.
  apply list_elem_of_In, in_map_iff in Hfr as (i & <- & _).
  apply Forall_forall. intros pts Hpts.
  apply list_elem_of_In, in_map_iff in Hpts as (h & <- & _).
  apply Forall_forall. intros p Hp.
  apply list_elem_of_In, in_map_iff in Hp as (l & <- & _).
  split; [|split]; cbn [fst snd];
    (apply nth_Forall; [|apply zero_in_range]);
    by apply smooth_series_in_range, series_in_range.
Qed.

End Bounded.


(** *** The float32 array of a window within the bound *)

Lemma coordinate_bound_nonneg : (0 ≤ coordinate_bound)%Qc.
Proof. qc_decide. Qed.

Lemma in_bound_float32 (q : Qc) :
  in_range coordinate_bound q -> in_float32 q.
Proof.
  intros [H1 H2].
  assert (Hlo : (- float32_max ≤ - coordinate_bound)%Qc) by qc_decide.
  assert (Hhi : (coordinate_bound ≤ float32_max)%Qc) by qc_decide.
  split; [by eapply Qcle_trans | by eapply Qcle_trans].
Qed.

(** The difference of two values within the bound is a finite float32. *)
Lemma bound_diff_float32 (a b : Qc) :
  in_range coordinate_bound a -> in_range coordinate_bound b ->
  in_float32 (a + - b)%Qc.
Proof.
  intros [Ha1 Ha2] [Hb1 Hb2].
  assert (Hlo : (- float32_max ≤ - coordinate_bound + - coordinate_bound)%Qc)
    by qc_decide.
  assert (Hhi : (coordinate_bound + - - coordinate_bound ≤ float32_max)%Qc)
    by qc_decide.
  split.
  - eapply Qcle_trans; [exact Hlo|].
    apply Qcplus_le_compat; [done | by apply Qcopp_le_compat].
  - eapply Qcle_trans; [|exact Hhi].
    apply Qcplus_le_compat; [done | by apply Qcopp_le_compat].
Qed.

Lemma to_fpoint_lift (p : point3) :
  point_in_range coordinate_bound p -> to_fpoint p = lift_point p.
Proof.
  intros (Hx & Hy & Hz). unfold to_fpoint, lift_point.
  by rewrite !to_float32_in_range by by apply in_bound_float32.
Qed.

Lemma nth_map_default {A B : Type} (f : A -> B) (l : list A) (i : nat)
    (d : A) (d' : B) :
  f d = d' -> nth i (map f l) d' = f (nth i l d).
Proof. intros <-. apply map_nth. Qed.

Lemma float_image_length (a : landmarks_array) :
  length (float_image a) = length a.
Proof. apply length_map. Qed.

Lemma float_image_shape1 (a : landmarks_array) :
  fshape1 (float_image a) = shape1 a.
Proof.
  unfold fshape1, shape1, float_image.
  rewrite (nth_map_default _ a 0 [] []) by done. apply length_map.
Qed.

Lemma float_image_shape2 (a : landmarks_array) :
  fshape2 (float_image a) = shape2 a.
Proof.
  unfold fshape2, shape2, float_image.
  rewrite (nth_map_default _ a 0 [] []) by done.
  rewrite (nth_map_default _ (nth 0 a []) 0 [] []) by done.
  apply length_map.
Qed.

Lemma float_image_series (a : landmarks_array) (h l c : nat) :
  fseries (float_image a) h l c = map Finite (series a h l c).
Proof.
  unfold fseries, series, float_image. rewrite !List.map_map.
  apply map_ext. intros fr.
  rewrite (nth_map_default _ fr h [] []) by done.
  rewrite (nth_map_default lift_point _ l origin3 forigin) by done.
  by destruct c as [|[|c]].
Qed.

Lemma existsb_float_nonzero (s : list Qc) :
  existsb float_nonzero (map Finite s) = existsb nonzero s.
Proof. induction s as [|x s IH]; [done|]. cbn. by rewrite IH. Qed.

Lemma convolve_same_float_finite (s : list Qc) :
  Forall (in_range coordinate_bound) s ->
  map cast_float32 (convolve_same_float (map Finite s))
  = map Finite (convolve_same s).
Proof.
  intros Hs. unfold convolve_same_float, convolve_same. cbn zeta.
  rewrite length_map, !List.map_map. apply map_ext. intros i.
  assert (Hnth : ∀ j, in_range coordinate_bound (nth j s 0%Qc)).
  { intros j. apply nth_Forall; [done|].
    apply zero_in_range, coordinate_bound_nonneg. }
  rewrite !(nth_map_default Finite s _ 0%Qc (Finite 0%Qc)) by done.
  assert (Hprev : match i with
                  | 0 => Finite 0%Qc
                  | S j => nth j (map Finite s) (Finite 0%Qc)
                  end
                  = Finite (match i with 0 => 0%Qc | S j => nth j s 0%Qc end)).
  { destruct i; [done|].
    by rewrite (nth_map_default Finite s _ 0%Qc (Finite 0%Qc)). }
  rewrite Hprev. cbn [float_scale float_add cast_float32].
  apply to_float32_in_range, in_bound_float32.
  apply third_in_range; [|apply Hnth..].
  destruct i; [apply zero_in_range, coordinate_bound_nonneg | apply Hnth].
Qed.

Lemma smooth_series_float32_finite (s : list Qc) :
  Forall (in_range coordinate_bound) s ->
  smooth_series_float32 (map Finite s) = map Finite (smooth_series s).
Proof.
  intros Hs. unfold smooth_series_float32, smooth_series.
  rewrite existsb_float_nonzero.
  destruct (existsb nonzero s); [|done].
  by apply convolve_same_float_finite.
Qed.

(** On an array within the bound, smoothing the float32 array gives the
    smoothed array of the model. *)
Lemma smooth_sequence_float32_finite (a : landmarks_array) :
  Forall (Forall (Forall (point_in_range coordinate_bound))) a ->
  smooth_sequence_float32 (float_image a) = float_image (smooth_sequence a).
Proof.
  intros Ha. unfold smooth_sequence_float32, smooth_sequence.
  rewrite float_image_length, float_image_shape1, float_image_shape2.
  destruct (length a <? 3); [done|].
  assert (Hseries : ∀ i h l c,
            nth i (smooth_series_float32 (fseries (float_image a) h l c))
                (Finite 0%Qc)
            = Finite (nth i (smooth_series (series a h l c)) 0%Qc)).
  { intros i h l c. rewrite float_image_series.
    rewrite smooth_series_float32_finite
      by (apply series_in_range; [apply coordinate_bound_nonneg | done]).
    by rewrite (nth_map_default Finite _ i 0%Qc (Finite 0%Qc)). }
  unfold float_image. rewrite !List.map_map.
  apply map_ext. intros i. rewrite !List.map_map.
  apply map_ext. intros h. rewrite !List.map_map.
  apply map_ext. intros l. by rewrite !Hseries.
Qed.

Lemma float32_sub_finite (a b : Qc) :
  in_range coordinate_bound a -> in_range coordinate_bound b ->
  float32_sub (Finite a) (Finite b) = Finite (a - b)%Qc.
Proof.
  intros Ha Hb. unfold float32_sub.
  cbn [float_opp float_add cast_float32].
  by apply to_float32_in_range, bound_diff_float32.
Qed.

Lemma normalize_hand_float32_finite (pts : list point3) :
  Forall (point_in_range coordinate_bound) pts ->
  normalize_hand_float32 (map lift_point pts)
  = map lift_point (normalize_hand pts).
Proof.
  intros Hpts. unfold normalize_hand_float32, normalize_hand. cbn zeta.
  rewrite (nth_map_default lift_point pts 0 origin3 forigin) by done.
  assert (Hw : point_in_range coordinate_bound (nth 0 pts origin3)).
  { apply nth_Forall; [done|].
    split; [|split]; apply zero_in_range, coordinate_bound_nonneg. }
  destruct (nth 0 pts origin3) as [[wx wy] wz].
  destruct Hw as (Hwx & Hwy & Hwz). cbn [fst snd] in Hwx, Hwy, Hwz.
  unfold lift_point at 1 2 3. cbn [fst snd float_nonzero].
  destruct (nonzero wx || nonzero wy || nonzero wz); [|done].
  rewrite !List.map_map. apply map_ext_Forall.
  eapply Forall_impl; [exact Hpts|].
  intros [[x y] z] (Hx & Hy & Hz). cbn [fst snd] in Hx, Hy, Hz.
  unfold fsub, sub3, lift_point. cbn [fst snd].
  by rewrite !float32_sub_finite.
Qed.

Lemma normalize_sequence_float32_finite (a : landmarks_array) :
  Forall (Forall (Forall (point_in_range coordinate_bound))) a ->
  normalize_sequence_float32 (float_image a)
  = float_image (normalize_sequence a).
Proof.
  intros Ha. unfold normalize_sequence_float32, normalize_sequence, float_image.
  rewrite !List.map_map. apply map_ext_Forall.
  eapply Forall_impl; [exact Ha|]. intros fr Hfr. cbn beta.
  rewrite !List.map_map. apply map_ext_Forall.
  eapply Forall_impl; [exact Hfr|]. intros pts Hpts. cbn beta.
  by apply normalize_hand_float32_finite.
Qed.

(** For a window within the coordinate bound the float32 array holds
    finite entries only, and they are the entries of the array of
    [preprocess_sequence]. *)
Lemma preprocess_sequence_float32_finite (frames frames' : list frame)
    (a : landmarks_array) :
  within_bound frames = true ->
  preprocess_sequence frames = Some (frames', a) ->
  preprocess_sequence_float32 frames = Some (float_image a).
Proof.
  intros Hw Hp. unfold preprocess_sequence in Hp.
  unfold preprocess_sequence_float32.
  destruct (mapM read_frame frames) as [a0|] eqn:Ea; [|done].
  injection Hp as _ <-.
  pose proof (read_frames_in_range _ coordinate_bound_nonneg frames a0 Hw Ea)
    as Hr.
  assert (Himg : map (map (map to_fpoint)) a0 = float_image a0).
  { unfold float_image. apply map_ext_Forall.
    eapply Forall_impl; [exact Hr|]. intros fr Hfr. cbn beta.
    apply map_ext_Forall.
    eapply Forall_impl; [exact Hfr|]. intros pts Hpts. cbn beta.
    apply map_ext_Forall.
    eapply Forall_impl; [exact Hpts|]. intros p Hpt. cbn beta.
    by apply to_fpoint_lift. }
  rewrite Himg, smooth_sequence_float32_finite by done.
  rewrite normalize_sequence_float32_finite; [done|].
  by apply smooth_sequence_in_range; [apply coordinate_bound_nonneg|].
Qed.

(* --------------------------------------------------------------------- *)
(** ** The answer to a window within the coordinate bound                  *)
(* --------------------------------------------------------------------- *)

Lemma artifact_76_moderate : scaler_moderate artifact_76.
Proof.
  split; apply Forall_replicate; [split|]; qc_decide.
Qed.

(** X10. With an artifact fitted on 76 features whose scaler is moderate, a
    window of at least 5 frames whose coordinates are all readable and at
    most [coordinate_bound] in magnitude is answered with a sign.  The
    float32 array built from the window holds finite entries only, those of
    the array the features are computed from; the answer is the
    label-encoder class at the first index of the largest probability, with
    that probability times 100 as confidence. *)
Theorem readable_window_gets_a_sign {M : MathLib} (art : artifact)
    (frames : list frame) :
  fitted_on_76 art -> scaler_moderate art ->
  5 <= length frames -> forallb readable_frame frames = true ->
  within_bound frames = true ->
  (∃ frames' a,
     preprocess_sequence frames = Some (frames', a) ∧
     preprocess_sequence_float32 frames = Some (float_image a)) ∧
  ∃ v scaled i sign all_probabilities,
    extract_sequence_features frames = Some v ∧
    scaler_transform art v = Some scaled ∧
    is_argmax (predict_proba art scaled) i ∧
    encoder_classes art !! i = Some sign ∧
    predict (Some art) frames
    = Predicted sign (nth i (predict_proba art scaled) 0 * of_nat 100)%Qc
                all_probabilities.
Proof.
  intros Hfit _ Hlen Hread Hbound. split.
  - destruct (proj2 (preprocess_sequence_is_Some frames) Hread)
      as [[frames' a] E].
    exists frames', a. split; [exact E|].
    by eapply preprocess_sequence_float32_finite.
  - by apply predict_on_readable_window.
Qed.

(** X10, on the five-frame window of one-hand frames and the two-sign
    artifact: the answer is "Red" with confidence 75. *)
Lemma readable_window_gets_a_sign_witness :
  fitted_on_76 artifact_76 ∧ scaler_moderate artifact_76 ∧
  within_bound (one_hand_window 5) = true ∧
  ∃ all_probabilities,
    predict (M := approx_math) (Some artifact_76) (one_hand_window 5)
    = Predicted "Red" (of_nat 75) all_probabilities.
Proof.
  assert (Hfit : fitted_on_76 artifact_76).
  { split; [reflexivity|]. intros x. cbn. lia. }
  assert (Hbound : within_bound (one_hand_window 5) = true)
    by (vm_compute; reflexivity).
  split; [exact Hfit|]. split; [exact artifact_76_moderate|].
  split; [exact Hbound|].
  destruct (proj2 (readable_window_gets_a_sign (M := approx_math) artifact_76
                     (one_hand_window 5) Hfit artifact_76_moderate
                     ltac:(vm_compute; lia) ltac:(vm_compute; reflexivity)
                     Hbound))
    as (v & scaled & i & sign & probs & _ & _ & Harg & Hsign & Hp).
  exists probs. rewrite Hp.
  destruct Harg as (Hi & Hall & Hfirst). cbn in Hi.
  destruct i as [|[|i]]; [| |lia].
  - exfalso. cbn in Hall. apply Forall_cons in Hall as [_ Hall].
    apply Forall_cons in Hall as [H _]. revert H.
    apply (bool_decide_unpack _). vm_compute. exact I.
  - injection Hsign as <-. f_equal.
    apply (bool_decide_unpack _). vm_compute. exact I.
Defined.
